(** * spynal / neural_analysis.spikes: a shallow embedding

    The functions of [neural_analysis/spikes.py] that bin, convert, cut and
    realign spike data are transcribed as Rocq functions, and the properties
    the specification states about them are settled against that transcription.

    Conventions of the embedding:
    - a Python [float] (binary64) is idealised as an exact rational [Q];
      every comparison the code makes ([<=], [<], [==]) is exact on both
      sides, the arithmetic is rounding-free here;
    - a raised exception is a value of [exn]; a function that can raise
      returns [result A];
    - arrays are one-dimensional unless said otherwise: a numeric vector, a
      vector of dtype bool, or a one-dimensional object array whose cells are
      timestamp vectors.  [bin_rate] visits the cells of an object array one
      by one in C order, so a collection of higher rank behaves cell by cell
      in the same way;
    - NumPy and SciPy routines the code calls are given by small models of
      their documented behaviour, each named after the routine. *)

From Stdlib Require Import ZArith QArith Qround Qabs Qminmax Lia Lqa List Bool String Sorted.
From stdpp Require Import base gmap.
Import ListNotations.
Open Scope Q_scope.
Set Warnings "-register-all".

(** ** Exceptions and the error monad *)

Inductive exn : Type :=
| AssertionError (msg : string)
| ValueError (msg : string)
| TypeError (msg : string)
| IndexError (msg : string)
| AxisError (msg : string)
| ZeroDivisionError (msg : string)
| OverflowError (msg : string).

Definition result (A : Type) : Type := (exn + A)%type.

Definition Ok {A : Type} (a : A) : result A := inr a.
Definition Raise {A : Type} (e : exn) : result A := inl e.

Definition rbind {A B : Type} (c : result A) (k : A -> result B) : result B :=
  match c with
  | inl e => inl e
  | inr a => k a
  end.

Notation "'do' x <~ c ; k" := (rbind c (fun x => k))
  (at level 10, x pattern, c at level 100, k at level 200).

(** [assert cond, msg] *)
Definition py_assert (cond : bool) (msg : string) : result unit :=
  if cond then Ok tt else Raise (AssertionError msg).

Definition is_ok {A : Type} (r : result A) : bool :=
  match r with inr _ => true | inl _ => false end.

(** ** Numbers *)

(** A Python scalar is an [int] or a [float]; [_iarange] looks at which. *)
Inductive pynum : Type :=
| PyInt (z : Z)
| PyFloat (q : Q).

Definition num (x : pynum) : Q :=
  match x with
  | PyInt z => inject_Z z
  | PyFloat q => q
  end.

Definition isinstance_int (x : pynum) : bool :=
  match x with PyInt _ => true | PyFloat _ => false end.

Definition pyneg (x : pynum) : pynum :=
  match x with
  | PyInt z => PyInt (- z)
  | PyFloat q => PyFloat (- q)
  end.

Definition Qlt_bool (a b : Q) : bool := negb (Qle_bool b a).

(** [np.round] and Python's [round]: to the nearest integer, ties to even. *)
Definition round_half_even (q : Q) : Z :=
  let f := Qfloor q in
  match Qcompare (q - inject_Z f) (1 # 2) with
  | Lt => f
  | Gt => (f + 1)%Z
  | Eq => if Z.even f then f else (f + 1)%Z
  end.

(** [np.arange(start, stop, step)]: [ceil((stop - start) / step)] values
    [start + i * step]. *)
Definition np_arange (start stop step : Q) : result (list Q) :=
  if Qeq_bool step 0 then Raise (ValueError "Maximum allowed size exceeded")
  else
    let n := Z.to_nat (Qceiling ((stop - start) / step)) in
    Ok (map (fun i : nat => start + inject_Z (Z.of_nat i) * step) (seq 0 n)).

(** [np.allclose] with its default tolerances, elementwise
    [|a - b| <= atol + rtol * |b|]. *)
Definition np_rtol : Q := 1 # 100000.
Definition np_atol : Q := 1 # 100000000.

Definition np_isclose (a b : Q) : bool :=
  Qle_bool (Qabs (a - b)) (np_atol + np_rtol * Qabs b).

Definition np_allclose (a b : list Q) : bool :=
  forallb (fun p : Q * Q => np_isclose (fst p) (snd p)) (combine a b).

Definition np_allclose_scalar (a : list Q) (b : Q) : bool :=
  forallb (fun x => np_isclose x b) a.

(** [math.isclose(a, b)] with its default [rel_tol = 1e-9], [abs_tol = 0]. *)
Definition math_isclose (a b : Q) : bool :=
  Qle_bool (Qabs (a - b)) ((1 # 1000000000) * Qmax (Qabs a) (Qabs b)).

(** ** Arrays *)

(** A numeric array as NumPy holds it: its shape and its cells in C order. *)
Record ndarray : Type := mk_ndarray { shape : list nat; flat : list Q }.

Definition ndim (a : ndarray) : nat := List.length (shape a).

Inductive dtype : Type := d_int | d_float.

(** Spike data as the functions receive it (after [np.asarray]). *)
Inductive spike_data : Type :=
| NumVec (dt : dtype) (v : list Q)      (* 1-D numeric array *)
| BoolVec (b : list bool)               (* 1-D array of dtype bool *)
| ObjArr (trains : list (list Q)).      (* 1-D object array of timestamp vectors *)

(** Insertion sort, for [ndarray.sort()]. *)
Fixpoint insert_sorted (x : Q) (l : list Q) : list Q :=
  match l with
  | [] => [x]
  | y :: l' => if Qle_bool x y then x :: l else y :: insert_sorted x l'
  end.

Definition sort_Q (l : list Q) : list Q := fold_right insert_sorted [] l.

(** A Python value, as far as [_spike_data_type] and [np.concatenate] need. *)
Inductive pyval : Type :=
| PyNone
| PyScalar (x : pynum)
| PyArr (v : list Q)
| PyTuple (items : list pyval).

(** [data.sort()]: sorts the array in place and returns [None].  The
    classifier does this to a numeric vector that is not binary; the counts
    of [bin_rate] do not depend on the order of the timestamps, [density]
    below sees the sorted vector. *)
Definition ndarray_sort (v : list Q) : list Q * pyval := (sort_Q v, PyNone).

(** [x == data] for an array [data]: elementwise; [None] equals no number. *)
Definition np_equal (x : pyval) (data : list Q) : list bool :=
  match x with
  | PyArr v =>
      map (fun p : Q * Q => Qeq_bool (fst p) (snd p)) (combine v data)
  | PyScalar s => map (fun d => Qeq_bool (num s) d) data
  | PyNone | PyTuple _ => map (fun _ => false) data
  end.

Definition np_all (b : list bool) : bool := forallb (fun x => x) b.
Definition np_any (b : list bool) : bool := existsb (fun x => x) b.

(** ** The spike-representation classifier *)

(** [np.in1d(data, [0,1,0.0,1.0,True,False])] *)
Definition in1d_binary (v : list Q) : list bool :=
  map (fun x => Qeq_bool x 0 || Qeq_bool x 1) v.

Definition _isbinary (data : spike_data) : bool :=
  match data with
  | BoolVec _ => true
  | NumVec _ v => np_all (in1d_binary v)
  | ObjArr _ => false
  end.

Definition _spike_data_type (data : spike_data) : result string :=
  if _isbinary data then Ok "bool"%string
  else
    match data with
    | ObjArr _ => Ok "timestamp"%string
    | NumVec _ v =>
        (* (data.ndim == 1) and ((data.sort() == data).all()) *)
        let '(v', r) := ndarray_sort v in
        if np_all (np_equal r v') then Ok "timestamp"%string
        else Ok "rate"%string
    | BoolVec _ => Raise (ValueError "Could not identify data type of given data")
    end.

(** ** Window generation *)

(** [_iarange]: [np.arange] with an inclusive endpoint. *)
Definition _iarange (start stop : Q) (step : pynum) : result (list Q) :=
  if isinstance_int step then np_arange start (stop + 1) (num step)
  else np_arange start (stop + (1 # 1000000000000)) (num step).

(** [np.concatenate(arrays, axis)]: [arrays] is a sequence of arrays of at
    least one dimension, [axis] an integer (or [None]).  Iterating over a 1-D
    array yields its 0-d cells. *)
Fixpoint concat_vectors (items : list pyval) : result (list Q) :=
  match items with
  | [] => Ok []
  | PyArr v :: rest => do r <~ concat_vectors rest; Ok (v ++ r)
  | _ :: _ => Raise (ValueError "zero-dimensional arrays cannot be concatenated")
  end.

Definition np_concatenate (arrays : pyval) (axis : pyval) : result (list Q) :=
  match axis with
  | PyArr _ | PyTuple _ | PyScalar (PyFloat _) =>
      Raise (TypeError "only integer scalar arrays can be converted to a scalar index")
  | PyNone | PyScalar (PyInt _) =>
      match arrays with
      | PyTuple [] | PyArr [] =>
          Raise (ValueError "need at least one array to concatenate")
      | PyTuple items =>
          match axis with
          | PyScalar (PyInt z) =>
              if ((z =? 0) || (z =? -1))%Z then concat_vectors items
              else Raise (AxisError "axis is out of bounds for array of dimension 1")
          | _ => concat_vectors items
          end
      | PyArr _ =>
          Raise (ValueError "zero-dimensional arrays cannot be concatenated")
      | PyNone | PyScalar _ =>
          Raise (TypeError "iteration over a 0-d array")
      end
  end.

(** A WindowSet: the rows [[start, end]] of an [(n_windows, 2)] array. *)
Definition windows : Type := list (Q * Q).

Definition setup_sliding_windows (width : pynum) (lims : Q * Q)
    (step : option pynum) (reference : option Q)
    (force_int : bool) (exclude_end : option bool) : result windows :=
  let step := match step with None => width | Some s => s end in
  let exclude_end :=
    match exclude_end with None => force_int | Some b => b end in
  let w := num width in
  do win_starts <~
    match reference with
    | None =>
        if exclude_end then _iarange (fst lims) (snd lims - w + 1) step
        else _iarange (fst lims) (snd lims - w) step
    | Some reference =>
        if exclude_end then
          do back <~ _iarange reference (fst lims) (pyneg step);
          do fwd <~ _iarange (reference + num step) (snd lims - w + 1) step;
          np_concatenate (PyArr (rev back)) (PyArr fwd)
        else
          do back <~ _iarange reference (fst lims) (pyneg step);
          do fwd <~ _iarange (reference + num step) (snd lims - w) step;
          np_concatenate (PyArr (rev back)) (PyArr fwd)
    end;
  let win_ends :=
    if exclude_end then map (fun s => s + w - 1) win_starts
    else map (fun s => s + w) win_starts in
  let rnd := fun x : Q => inject_Z (round_half_even x) in
  let win_starts' := if force_int then map rnd win_starts else win_starts in
  let win_ends' := if force_int then map rnd win_ends else win_ends in
  (* np.stack((win_starts, win_ends), axis=1) *)
  Ok (combine win_starts' win_ends').

(** The [(n, 2)] array holding a WindowSet, and the rows of such an array. *)
Definition windows_array (w : windows) : ndarray :=
  {| shape := [List.length w; 2%nat];
     flat := flat_map (fun p : Q * Q => [fst p; snd p]) w |}.

Fixpoint rows2 (cells : list Q) : windows :=
  match cells with
  | a :: b :: rest => (a, b) :: rows2 rest
  | _ => []
  end.

(** ** Counting spikes in bins *)

Definition count_if (p : Q -> bool) (a : list Q) : Z :=
  Z.of_nat (List.length (List.filter p a)).

(** [a.searchsorted(v, 'left')] and [(v, 'right')] on a sorted [a]: the number
    of cells below [v], resp. not above [v]. *)
Definition searchsorted_left (a : list Q) (v : Q) : Z :=
  count_if (fun x => Qlt_bool x v) a.
Definition searchsorted_right (a : list Q) (v : Q) : Z :=
  count_if (fun x => Qle_bool x v) a.

Definition _search_sorted_inclusive (a : list Q) (v : list Q) : list Z :=
  map (searchsorted_left a) (removelast v)
  ++ match v with [] => [] | _ => [searchsorted_right a (List.last v 0)] end.

Fixpoint np_diff_Z (l : list Z) : list Z :=
  match l with
  | a :: (b :: _) as tl => (b - a)%Z :: np_diff_Z tl
  | _ => []
  end.

Fixpoint monotonic (edges : list Q) : bool :=
  match edges with
  | a :: (b :: _) as tl => Qle_bool a b && monotonic tl
  | _ => true
  end.

(** [np.histogram(a, bins)[0]] for an array of bin edges. *)
Definition np_histogram (a : list Q) (bins : list Q) : result (list Z) :=
  if negb (monotonic bins) then
    Raise (ValueError "bins must increase monotonically, when an array")
  else Ok (np_diff_Z (_search_sorted_inclusive (sort_Q a) bins)).

Definition _histogram_count (data : list Q) (bins : list Q) : result (list Z) :=
  np_histogram data bins.

(** A cast to dtype uint16 keeps the low 16 bits. *)
Definition uint16 (z : Z) : Z := (z mod 65536)%Z.

Definition in_bin (start end_ t : Q) : bool :=
  Qle_bool start t && Qlt_bool t end_.

Definition _custom_bin_count (data : list Q) (bins : windows) : list Z :=
  map (fun b : Q * Q => uint16 (count_if (in_bin (fst b) (snd b)) data)) bins.

(** ** Boolean trains to timestamps *)

(** [t[mask]] for a boolean mask: the lengths must agree. *)
Fixpoint mask_select (t : list Q) (mask : list bool) : list Q :=
  match t, mask with
  | x :: t', b :: mask' =>
      if b then x :: mask_select t' mask' else mask_select t' mask'
  | _, _ => []
  end.

Definition index_bool (t : list Q) (mask : list bool) : result (list Q) :=
  if (List.length mask =? List.length t)%nat then Ok (mask_select t mask)
  else Raise (IndexError "boolean index did not match indexed array")%string.

(** [t[idx]] for an array of integer indices. *)
Fixpoint index_int (t : list Q) (idx : list Q) : result (list Q) :=
  match idx with
  | [] => Ok []
  | i :: rest =>
      let k := Qfloor i in
      let n := Z.of_nat (List.length t) in
      if ((- n <=? k) && (k <? n))%Z then
        do r <~ index_int t rest;
        Ok (nth (Z.to_nat (if (k <? 0)%Z then k + n else k)%Z) t 0 :: r)
      else Raise (IndexError "index is out of bounds for axis 0")
  end.

(** [bool_to_times] on one-dimensional input: the single-train case, where
    the result is [t[spike_bool]].  A vector of dtype bool indexes as a mask,
    an integer vector as a list of positions, anything else is refused by
    NumPy indexing. *)
Definition bool_to_times (spike_bool : spike_data) (t : list Q) (axis : Z)
  : result (list Q) :=
  match spike_bool with
  | BoolVec b => index_bool t b
  | NumVec d_int v => index_int t v
  | NumVec d_float _ | ObjArr _ =>
      Raise (IndexError
        "arrays used as indices must be of integer (or boolean) type")
  end.

(** ** Binned rates *)

(** A float that a division may make non-finite. *)
Inductive fl : Type :=
| Finite (q : Q)
| Inf
| NaN.

(** [count / width] in float arithmetic. *)
Definition true_divide (c : Z) (w : Q) : fl :=
  if Qeq_bool w 0 then (if (c =? 0)%Z then NaN else Inf)
  else Finite (inject_Z c / w).

(** The result for a single train (singleton axis squeezed out) or for an
    object array of trains. *)
Inductive batch (A : Type) : Type :=
| One (x : A)
| Many (xs : list A).
Arguments One {A} x.
Arguments Many {A} xs.

Definition squeeze0 {A : Type} (single : bool) (rows : list A) (d : A) : batch A :=
  if single then One (hd d rows) else Many rows.

Definition batch_map {A B : Type} (f : A -> B) (b : batch A) : batch B :=
  match b with
  | One x => One (f x)
  | Many xs => Many (map f xs)
  end.

Definition batch_rows {A : Type} (b : batch A) : list A :=
  match b with
  | One x => [x]
  | Many xs => xs
  end.

(** dtype uint16 counts, or float rates. *)
Inductive rate_array : Type :=
| Counts (c : batch (list Z))
| Rates (r : batch (list fl)).

Fixpoint map_result {A B : Type} (f : A -> result B) (l : list A) : result (list B) :=
  match l with
  | [] => Ok []
  | x :: rest =>
      do y <~ f x;
      do ys <~ map_result f rest;
      Ok (y :: ys)
  end.

Definition is_some {A : Type} (o : option A) : bool :=
  match o with Some _ => true | None => false end.

Definition Q_of_bool (b : bool) : Q := if b then 1 else 0.

(** The two ways of counting, chosen by [std_bins]. *)
Definition std_bins_test (rows : windows) (widths : list Q) (w0 : Q) : bool :=
  np_allclose_scalar widths w0
  && np_allclose (map fst (tl rows)) (map snd (removelast rows)).

Definition hist_edges (rows : windows) : list Q :=
  map fst rows ++ [snd (List.last rows (0, 0))].

Definition count_spikes (std_bins : bool) (rows : windows) (train : list Q)
  : result (list Z) :=
  if std_bins then _histogram_count train (hist_edges rows)
  else Ok (_custom_bin_count train rows).

(** The opening of [bin_rate]: boolean data is converted to timestamps.
    Returns whether the data was boolean, the normalised axis and the data
    to bin. *)
Definition bin_rate_timestamps (data : spike_data) (axis : Z)
    (t : option (list Q)) : result (bool * Z * spike_data) :=
  do data_type <~ _spike_data_type data;
  let is_bool := String.eqb data_type "bool" in
  if is_bool then
    match t with
    | None =>
        Raise (AssertionError
          "For binary spike train data, a time sampling vector <t> MUST be given")
    | Some tv =>
        let axis := if (axis <? 0)%Z then (1 + axis)%Z else axis in
        do st <~ bool_to_times data tv axis;
        Ok (true, axis, NumVec d_float st)
    end
  else Ok (false, axis, data).

(** A non-object array is a single train, enclosed in an object array. *)
Definition single_train_of (data : spike_data) : bool :=
  match data with ObjArr _ => false | _ => true end.

Definition _enclose_cells (data : spike_data) : list (list Q) :=
  match data with
  | ObjArr trains => trains
  | NumVec _ v => [v]
  | BoolVec b => [map Q_of_bool b]
  end.

Definition bin_rows (bins : ndarray) : windows :=
  firstn (nth 0 (shape bins) 0%nat) (rows2 (flat bins)).

Definition bin_widths (rows : windows) : list Q :=
  map (fun b : Q * Q => snd b - fst b) rows.

Definition bin_rate (data : spike_data) (lims : option (Q * Q))
    (width : pynum) (step : option pynum) (bins : option ndarray)
    (count : bool) (axis : Z) (t : option (list Q))
  : result (rate_array * ndarray) :=
  do pre <~ bin_rate_timestamps data axis t;
  let is_bool := fst (fst pre) in
  let axis := snd (fst pre) in
  let data := snd pre in
  let single_train := single_train_of data in
  let cells := _enclose_cells data in
  do bins <~
    match bins with
    | None =>
        match lims with
        | None =>
            Raise (AssertionError
              "Must input <lims> = full time range of analysis (or set custom <bins>)")
        | Some l =>
            do w <~ setup_sliding_windows width l step None false None;
            Ok (windows_array w)
        end
    | Some b => Ok b
    end;
  do _ <~ py_assert ((ndim bins =? 2)%nat && (nth 1 (shape bins) 0 =? 2)%nat)
            "bins must be given as (n_bins,2) array of bin [start,end] times";
  let n_bins := nth 0 (shape bins) 0%nat in
  let rows := bin_rows bins in
  let widths := bin_widths rows in
  (* widths[0], on the squeezed array of widths *)
  do w0 <~
    (if (n_bins <? 2)%nat then Raise (IndexError "widths[0]")
     else Ok (hd 0 widths));
  let std_bins := std_bins_test rows widths w0 in
  do counted <~ map_result (count_spikes std_bins rows) cells;
  let rates :=
    if count then Counts (squeeze0 single_train (map (map uint16) counted) [])
    else
      Rates (squeeze0 single_train
               (map (fun c => map (fun p : Z * Q => true_divide (fst p) (snd p))
                                  (combine c widths)) counted) []) in
  (* for boolean input the time axis moves back to where it was *)
  do _ <~
    (if is_bool && negb (axis =? 1)%Z then
       if ((axis =? 0) || (axis =? -1))%Z then Ok tt
       else Raise (AxisError "destination axis is out of bounds")
     else Ok tt);
  Ok (rates, bins).

(** ** Timestamps to boolean trains *)

Definition astype_bool (x : fl) : bool :=
  match x with
  | Finite q => negb (Qeq_bool q 0)
  | Inf | NaN => true
  end.

Definition times_to_bool (spike_times : spike_data) (lims : option (Q * Q))
    (width : pynum) (bins : option ndarray)
  : result (batch (list bool) * list Q) :=
  do bins <~
    match bins with
    | None =>
        match lims with
        | None =>
            Raise (AssertionError
              "Must input <lims> = full time range of analysis (or set custom <bins>)")
        | Some l =>
            let l' :=
              if math_isclose (num width) (1 # 1000)
              then (fst l - (5 # 10000), snd l + (5 # 10000)) else l in
            do w <~ setup_sliding_windows width l' (Some width) None false None;
            Ok (windows_array w)
        end
    | Some b => Ok b
    end;
  (* timepts = bins.mean(axis=1) *)
  do timepts <~
    (if (ndim bins <? 2)%nat then
       Raise (AxisError "axis 1 is out of bounds for array of dimension 1")
     else Ok (map (fun b : Q * Q => (fst b + snd b) / 2) (rows2 (flat bins))));
  do rb <~ bin_rate spike_times None (PyFloat (50 # 1000)) None (Some bins)
             false (-1)%Z None;
  match fst rb with
  | Rates r => Ok (batch_map (map astype_bool) r, timepts)
  | Counts c => Ok (batch_map (map (fun z => negb (z =? 0)%Z)) c, timepts)
  end.

(** ** Cutting data into trials *)

(** [data[start:stop]] with Python's treatment of negative and out-of-range
    bounds. *)
Definition clip_index (n i : Z) : Z :=
  let j := if (i <? 0)%Z then (i + n)%Z else i in
  Z.max 0 (Z.min n j).

Definition py_slice {A : Type} (data : list A) (start stop : Z) : list A :=
  let n := Z.of_nat (List.length data) in
  let a := clip_index n start in
  let b := clip_index n stop in
  firstn (Z.to_nat (b - a)) (skipn (Z.to_nat a) data).

Definition idx_windows : Type := list (Z * Z).

Definition list_min (d : Z) (l : list Z) : Z := fold_right Z.min d l.
Definition list_max (d : Z) (l : list Z) : Z := fold_right Z.max d l.

Definition count_occ_Z (l : list Z) (x : Z) : nat :=
  List.length (List.filter (Z.eqb x) l).

(** [scipy.stats.mode]: the most frequent value, the smallest one on a tie. *)
Definition mode_Z (l : list Z) : Z :=
  fold_right
    (fun x best =>
       let cx := count_occ_Z l x in
       let cb := count_occ_Z l best in
       if (cb <? cx)%nat || ((cb =? cx)%nat && (x <? best)%Z) then x else best)
    (hd 0%Z l) l.

Definition _check_window_lengths (wins : idx_windows) (tol : Z)
  : result idx_windows :=
  let window_lengths := map (fun w : Z * Z => (snd w - fst w)%Z) wins in
  (* np.ptp of an empty array *)
  do _ <~
    (match wins with
     | [] => Raise (ValueError "zero-size array to reduction operation")
     | _ => Ok tt
     end);
  (* window_lengths[0] on the squeezed array *)
  do wl0 <~
    (match wins with
     | [_] => Raise (IndexError "too many indices for array")
     | _ => Ok (hd 0%Z window_lengths)
     end);
  if np_allclose_scalar (map inject_Z window_lengths) (inject_Z wl0)
  then Ok wins
  else
    let modal_length := mode_Z window_lengths in
    let max_diff :=
      list_max 0 (map (fun l => Z.abs (l - modal_length)) window_lengths) in
    do _ <~ py_assert (max_diff <=? tol)%Z
              "Variable-length windows unsupported. All windows must have same length";
    Ok (map (fun w : Z * Z =>
               (fst w, (snd w + (modal_length - (snd w - fst w)))%Z)) wins).

(** The cut array of one-dimensional data: shape [(n_smp_per_trial, n_trials)],
    held trial by trial. *)
Record cut_array (A : Type) : Type :=
  mk_cut { cut_shape : list nat; cut_trial : list (list A) }.
Arguments mk_cut {A} cut_shape cut_trial.
Arguments cut_shape {A} c.
Arguments cut_trial {A} c.

(** [cut_data[..., trial] = segment]: the segment must have the length of the
    time axis, or length one, which NumPy broadcasts. *)
Definition assign_segment {A : Type} (n_smp : nat) (seg : list A)
  : result (list A) :=
  if (List.length seg =? n_smp)%nat then Ok seg
  else
    match seg with
    | [x] => Ok (repeat x n_smp)
    | _ => Raise (ValueError "could not broadcast input array")
    end.

(** [cut_trials_spike_bool] with the time axis the only axis ([axis=0]). *)
Definition cut_trials_spike_bool {A : Type} (data : list A)
    (trial_lims : ndarray) (smp_rate : option Q) : result (cut_array A) :=
  do smp_rate <~
    (match smp_rate with
     | None =>
         Raise (AssertionError
           "For binary spike train data, you must smp_rate = sampling rate in Hz")
     | Some r => Ok r
     end);
  do _ <~ py_assert ((ndim trial_lims =? 2)%nat
                     && (nth 1 (shape trial_lims) 0 =? 2)%nat)
            "trial_lims argument should be a (n_trials,2) array of trial [start,end] times";
  let n_trials := nth 0 (shape trial_lims) 0%nat in
  let rows := firstn n_trials (rows2 (flat trial_lims)) in
  (* np.round(smp_rate*trial_lims).astype(int) *)
  let trial_idxs : idx_windows :=
    map (fun r : Q * Q =>
           (round_half_even (smp_rate * fst r),
            round_half_even (smp_rate * snd r))) rows in
  let all_idxs := flat_map (fun w : Z * Z => [fst w; snd w]) trial_idxs in
  do _ <~
    (match all_idxs with
     | [] => Raise (ValueError "zero-size array to reduction operation")
     | _ => Ok tt
     end);
  do _ <~ py_assert (0 <=? list_min (hd 0%Z all_idxs) all_idxs)%Z
            "trial_lims are attempting to index before start of data";
  do _ <~ py_assert
            (list_max (hd 0%Z all_idxs) all_idxs <? Z.of_nat (List.length data))%Z
            "trial_lims are attempting to index beyond end of data";
  do trial_idxs <~ _check_window_lengths trial_idxs 1;
  let first := hd (0, 0)%Z trial_idxs in
  let n_smp_per_trial := (snd first - fst first + 1)%Z in
  do _ <~
    (if (n_smp_per_trial <? 0)%Z
     then Raise (ValueError "negative dimensions are not allowed")
     else Ok tt);
  let n_smp := Z.to_nat n_smp_per_trial in
  do cols <~
    map_result
      (fun lim : Z * Z =>
         assign_segment n_smp (py_slice data (fst lim) (snd lim + 1)%Z))
      trial_idxs;
  Ok (mk_cut [n_smp; n_trials] cols).

(** [cut_trials_spike_times]: for each train and each trial, the timestamps
    in [[start, end)], re-referenced when [trial_refs] is given. *)
Definition cut_trials_spike_times (data : spike_data) (trial_lims : ndarray)
    (trial_refs : option (list Q)) : result (list (list (list Q))) :=
  do _ <~ py_assert ((ndim trial_lims =? 2)%nat
                     && (nth 1 (shape trial_lims) 0 =? 2)%nat)
            "trial_lims argument should be a (n_trials,2) array of trial [start,end] times";
  let n_trials := nth 0 (shape trial_lims) 0%nat in
  let rows := firstn n_trials (rows2 (flat trial_lims)) in
  let cells :=
    match data with
    | ObjArr trains => trains
    | NumVec _ v => [v]
    | BoolVec b => [map Q_of_bool b]
    end in
  map_result
    (fun data_cell =>
       map_result
         (fun it : nat * (Q * Q) =>
            let trial_spikes :=
              List.filter (in_bin (fst (snd it)) (snd (snd it))) data_cell in
            match trial_refs with
            | None => Ok trial_spikes
            | Some refs =>
                match nth_error refs (fst it) with
                | Some r => Ok (map (fun x => x - r) trial_spikes)
                | None => Raise (IndexError "index is out of bounds")
                end
            end)
         (combine (seq 0 (List.length rows)) rows))
    cells.

Inductive cut_result : Type :=
| CutTimes (c : list (list (list Q)))
| CutBool (c : cut_array bool)
| CutNum (c : cut_array Q).

(** [cut_trials(data, trial_lims, smp_rate=...)] *)
Definition cut_trials (data : spike_data) (trial_lims : ndarray)
    (smp_rate : option Q) : result cut_result :=
  do data_type <~ _spike_data_type data;
  if String.eqb data_type "timestamp" then
    match smp_rate with
    | Some _ =>
        Raise (TypeError
          "cut_trials_spike_times() got an unexpected keyword argument 'smp_rate'")
    | None =>
        do c <~ cut_trials_spike_times data trial_lims None; Ok (CutTimes c)
    end
  else if String.eqb data_type "bool" then
    match data with
    | BoolVec b =>
        do c <~ cut_trials_spike_bool b trial_lims smp_rate; Ok (CutBool c)
    | NumVec _ v =>
        do c <~ cut_trials_spike_bool v trial_lims smp_rate; Ok (CutNum c)
    | ObjArr trains =>
        Raise (ValueError "Unsupported data format input. Must be spike timestamps or binary (0/1) spike train")
    end
  else
    Raise (ValueError "Unsupported data format input. Must be spike timestamps or binary (0/1) spike train").

(** ** Realignment of trial-cut timestamps *)

(** Arrays live in a store: an object array holds references to the arrays
    in its cells, so that a write into a cell of the caller's array is seen
    through every handle on it. *)
Definition loc : Type := positive.

Inductive pyobj : Type :=
| FloatArr (v : list Q)          (* an array of numbers *)
| ObjArray (cells : list loc).   (* a 1-D object array *)

Abbreviation heap := (gmap loc pyobj).

(** [spike_times[trial,...] = spike_times[trial,...] - align_time]: the
    subtraction builds a new array, the assignment stores it in the cell. *)
Definition realign_trial (h : heap) (spike_times : loc) (trial : nat)
    (align_time : Q) : result heap :=
  match h !! spike_times with
  | Some (ObjArray cells) =>
      match cells !! trial with
      | None => Raise (IndexError "index is out of bounds for axis 0")
      | Some c =>
          match h !! c with
          | Some (FloatArr v) =>
              let c' := fresh (dom h) in
              let h1 := <[c' := FloatArr (map (fun x => x - align_time) v)]> h in
              Ok (<[spike_times := ObjArray (<[trial := c']> cells)]> h1)
          | _ => Raise (TypeError "unsupported operand type(s) for -")
          end
      end
  | Some (FloatArr v) =>
      match v !! trial with
      | None => Raise (IndexError "index is out of bounds for axis 0")
      | Some x =>
          Ok (<[spike_times := FloatArr (<[trial := x - align_time]> v)]> h)
      end
  | None => Raise (TypeError "not an array")
  end.

Fixpoint realign_loop (h : heap) (spike_times : loc) (trial : nat)
    (align_times : list Q) : heap * result unit :=
  match align_times with
  | [] => (h, Ok tt)
  | align_time :: rest =>
      match realign_trial h spike_times trial align_time with
      | inl e => (h, Raise e)
      | inr h' => realign_loop h' spike_times (S trial) rest
      end
  end.

(** [np.moveaxis] of a one-dimensional array returns a view on the same
    cells; the handle stands for those cells. *)
Definition realign_spike_times (h : heap) (spike_times : loc)
    (align_times : list Q) (trial_axis : Z) : heap * result loc :=
  if negb ((trial_axis =? 0) || (trial_axis =? -1))%Z then
    (h, Raise (AxisError "source: axis is out of bounds for array of dimension 1"))
  else
    match realign_loop h spike_times 0 align_times with
    | (h', inl e) => (h', Raise e)
    | (h', inr _) => (h', Ok spike_times)
    end.

(** What a caller reads through a handle on a collection of trains. *)
Definition read_train (h : heap) (c : loc) : option (list Q) :=
  match h !! c with
  | Some (FloatArr v) => Some v
  | _ => None
  end.

Definition read_cells (h : heap) (cells : list loc) : option (list (list Q)) :=
  mapM (read_train h) cells.

Definition read_collection (h : heap) (spike_times : loc)
  : option (list (list Q)) :=
  match h !! spike_times with
  | Some (ObjArray cells) => read_cells h cells
  | _ => None
  end.

(** Each trial's timestamps minus that trial's align time. *)
Fixpoint shift_trains (trains : list (list Q)) (align_times : list Q)
  : list (list Q) :=
  match trains, align_times with
  | tr :: trs, a :: rest => map (fun x => x - a) tr :: shift_trains trs rest
  | _, _ => trains
  end.

(** ** Spike density *)

(** [str.lower] on ASCII letters. *)
Definition ascii_lower (c : Ascii.ascii) : Ascii.ascii :=
  let n := Ascii.nat_of_ascii c in
  if ((65 <=? n) && (n <=? 90))%nat then Ascii.ascii_of_nat (n + 32) else c.

Fixpoint str_lower (s : string) : string :=
  match s with
  | EmptyString => EmptyString
  | String c rest => String (ascii_lower c) (str_lower rest)
  end.

Definition str_in (s : string) (l : list string) : bool :=
  existsb (String.eqb s) l.

(** [x[0::step]] *)
Definition py_stride {A : Type} (l : list A) (step : Z) : result (list A) :=
  if (step =? 0)%Z then Raise (ValueError "slice step cannot be zero")
  else if (step <? 0)%Z then Ok (firstn 1 l)
  else
    Ok (map snd
          (List.filter (fun p : nat * A => (fst p mod Z.to_nat step =? 0)%nat)
                  (combine (seq 0 (List.length l)) l))).

(** [_remove_buffer(data, buffer, axis=-1)]: [data[..., buffer:-buffer]] *)
Definition _remove_buffer {A : Type} (data : list A) (buffer : Z) : list A :=
  py_slice data buffer (- buffer).

(** [np.arange(start, stop, step)] on integers. *)
Definition np_arange_Z (start stop step : Z) : list Z :=
  if (0 <? step)%Z then
    map (fun i : nat => (start + Z.of_nat i * step)%Z)
        (seq 0 (Z.to_nat ((stop - start + step - 1) / step)))
  else
    map (fun i : nat => (start + Z.of_nat i * step)%Z)
        (seq 0 (Z.to_nat ((start - stop + (- step) - 1) / (- step)))).

(** [data.take(idxs)] *)
Definition np_take {A : Type} (data : list A) (idxs : list Z) : result (list A) :=
  let n := Z.of_nat (List.length data) in
  map_result
    (fun i : Z =>
       match nth_error data (Z.to_nat (if (i <? 0)%Z then i + n else i)%Z) with
       | Some x => if ((- n <=? i) && (i <? n))%Z then Ok x
                   else Raise (IndexError "index is out of bounds")
       | None => Raise (IndexError "index is out of bounds")
       end)
    idxs.

Definition np_diff (t : list Q) : list Q :=
  map (fun p : Q * Q => snd p - fst p) (combine t (tl t)).

Definition Qsum (l : list Q) : Q := fold_right Qplus 0 l.

Definition nonzero (x : Q) : bool := negb (Qeq_bool x 0).

Definition eps12 : Q := 1 # 1000000000000.

(** The time sampling vector of [density]: the one given, or
    [np.arange(lims[0], lims[1]+1e-12, 1/smp_rate)]. *)
Definition time_vector (t : option (list Q)) (lims : option (Q * Q))
    (smp_rate : Q) : result (list Q) :=
  match t with
  | Some tv => Ok tv
  | None =>
      match lims with
      | None => Raise (TypeError "'NoneType' object is not subscriptable")
      | Some l =>
          if Qeq_bool smp_rate 0
          then Raise (ZeroDivisionError "division by zero")
          else np_arange (fst l) (snd l + eps12) (1 / smp_rate)
      end
  end.

Section Density.

(** The float values of kernels and rates, and the SciPy routines that
    produce them, are kept abstract: what [density] does after the
    convolution does not depend on them. *)
Variable V : Type.
Variable vzero : V.
(** [scipy.signal.windows.hann(M)], [gaussian(M, std)] *)
Variable hann : Z -> list V.
Variable gaussian : Z -> Q -> list V.
(** [kernel / (kernel.sum()/smp_rate)] *)
Variable normalize : list V -> Z -> list V.
(** [scipy.signal.convolve(data, kernel[slicer], mode='same')] *)
Variable convolve : batch (list Q) -> list V -> batch (list V).

Inductive kernel_arg : Type :=
| KStr (name : string)
| KArr (k : list V)
| KFun (f : Q -> list V).

Definition _str_to_kernel (kernel : kernel_arg) (width : Q) : result (list V) :=
  match kernel with
  | KArr k => Ok k
  | KFun f => Ok (f width)
  | KStr name =>
      let name := str_lower name in
      if str_in name ["hann"; "hanning"]%string
      then Ok (hann (round_half_even (width * 2)))
      else if str_in name ["gaussian"; "normal"]%string
      then Ok (gaussian (round_half_even (width * 6)) width)
      else Raise (ValueError "Unsupported value given for kernel. Should be 'hanning'|'gaussian'")
  end.

(** The default buffer; a kernel that is not a string equals no name. *)
Definition default_buffer (kernel : kernel_arg) (width : Q) : Q :=
  match kernel with
  | KStr name =>
      if str_in name ["hann"; "hanning"]%string then width
      else if str_in name ["gaussian"; "normal"]%string then 3 * width
      else 0
  | KArr _ | KFun _ => 0
  end.

(** [rates[np.tile(no_spike_idxs, shape)] = 0]: the mask has a row for
    each row of [data] and must have the shape of [rates]. *)
Definition zero_row (d : list Q) (r : list V) : list V :=
  if negb (existsb nonzero d) then map (fun _ => vzero) r else r.

Definition zero_no_spike (data : batch (list Q)) (rates : batch (list V))
  : result (batch (list V)) :=
  match data, rates with
  | One d, One r => Ok (One (zero_row d r))
  | Many ds, Many rs =>
      if (List.length ds =? List.length rs)%nat
      then Ok (Many (map (fun p : list Q * list V => zero_row (fst p) (snd p))
                         (combine ds rs)))
      else Raise (IndexError "boolean index did not match indexed array")
  | _, _ => Raise (IndexError "boolean index did not match indexed array")
  end.

Definition batch_map_result {A B : Type} (f : A -> result B) (b : batch A)
  : result (batch B) :=
  match b with
  | One x => do y <~ f x; Ok (One y)
  | Many xs => do ys <~ map_result f xs; Ok (Many ys)
  end.

(** The buffer added to the time vector and, for boolean data, to the
    data, whose edges are mirrored ([if buffer != 0: ...]). *)
Definition add_buffer (is_bool : bool) (axis : Z) (n_buffer : Z) (dt : Q)
    (t : list Q) (cells : batch (list Q))
  : result (list Q * batch (list Q)) :=
  do before <~ np_arange (hd 0 t - dt)
                 (hd 0 t - inject_Z n_buffer * dt - eps12) (- dt);
  do after <~ np_arange (List.last t 0 + dt)
                (List.last t 0 + inject_Z n_buffer * dt + eps12) dt;
  let t' := rev before ++ t ++ after in
  if is_bool then
    do _ <~
      (if ((-1 <=? axis) && (axis <=? 0))%Z then Ok tt
       else Raise (IndexError "tuple index out of range"));
    match cells with
    | One d =>
        let n_samples := Z.of_nat (List.length d) in
        let idxs :=
          rev (map (Z.add 1) (np_arange_Z 0 n_buffer 1))
          ++ np_arange_Z 0 n_samples 1
          ++ np_arange_Z (n_samples - 2) (n_samples - 2 - n_buffer) (-1) in
        do d' <~ np_take d idxs;
        Ok (t', One d')
    | Many _ => Ok (t', cells)
    end
  else Ok (t', cells).

(** What follows the convolution: the buffer is removed from data, rates
    and time vector, the rates are downsampled, and the rates of trains
    without any spike are set to zero. *)
Definition finish_density (with_buffer : bool) (n_buffer : Z) (downsmp : Z)
    (data : batch (list Q)) (rates : batch (list V)) (t : list Q)
  : result (batch (list V) * list Q) :=
  let data :=
    if with_buffer then batch_map (fun d => _remove_buffer d n_buffer) data
    else data in
  let rates :=
    if with_buffer then batch_map (fun r => _remove_buffer r n_buffer) rates
    else rates in
  let t := if with_buffer then _remove_buffer t n_buffer else t in
  do rt <~
    (if negb (downsmp =? 1)%Z then
       do r <~ batch_map_result (fun r => py_stride r downsmp) rates;
       do t' <~ py_stride t downsmp;
       Ok (r, t')
     else Ok (rates, t));
  do rates <~ zero_no_spike data (fst rt);
  Ok (rates, snd rt).

Definition density (data : spike_data) (kernel : kernel_arg) (width : Q)
    (lims : option (Q * Q)) (smp_rate : Q) (buffer : option Q)
    (downsmp : Z) (axis : Z) (t : option (list Q))
  : result (batch (list V) * list Q) :=
  do data_type <~ _spike_data_type data;
  let axis := if (axis <? 0)%Z then (1 + axis)%Z else axis in
  let is_bool := String.eqb data_type "bool" in
  let is_timestamp := String.eqb data_type "timestamp" in
  do _ <~ py_assert (negb is_bool || is_some t)
            "For binary spike train data, a time sampling vector <t> MUST be given";
  let buffer :=
    match buffer with None => default_buffer kernel width | Some b => b end in
  do t <~ time_vector t lims smp_rate;
  (* dt = np.diff(t).mean(); smp_rate = round(1/dt) *)
  do dt <~
    (if (List.length t <? 2)%nat
     then Raise (ValueError "cannot convert float NaN to integer")
     else Ok (Qsum (np_diff t) / inject_Z (Z.of_nat (List.length (np_diff t)))));
  do smp_rate <~
    (if Qeq_bool dt 0
     then Raise (OverflowError "cannot convert float infinity to integer")
     else Ok (round_half_even (1 / dt)));
  let with_buffer := negb (Qeq_bool buffer 0) in
  let n_buffer := round_half_even (buffer * inject_Z smp_rate) in
  (* the classifier has sorted a numeric vector that is not binary *)
  let cells : batch (list Q) :=
    match data with
    | BoolVec b => One (map Q_of_bool b)
    | NumVec _ v => One (if _isbinary data then v else sort_Q v)
    | ObjArr trains => Many trains
    end in
  do tc <~
    (if with_buffer then add_buffer is_bool axis n_buffer dt t cells
     else Ok (t, cells));
  let t := fst tc in
  let cells := snd tc in
  do kernel <~ _str_to_kernel kernel (width * inject_Z smp_rate);
  let kernel := normalize kernel smp_rate in
  do dc <~
    (if is_timestamp then
       let bins := windows_array (map (fun x => (x - dt / 2, x + dt / 2)) t) in
       do bt <~ times_to_bool data None (PyFloat (1 # 1000)) (Some bins);
       Ok (batch_map (map Q_of_bool) (fst bt), snd bt)
     else
       if (axis =? 1)%Z || (axis =? 0)%Z || (axis =? -1)%Z then Ok (cells, t)
       else Raise (AxisError "source: axis is out of bounds for array of dimension 1"));
  let data := fst dc in
  let t := snd dc in
  let rates := convolve data kernel in
  finish_density with_buffer n_buffer downsmp data rates t.

End Density.

(** ** Reference descriptions used in the statements *)

Definition in_closed (s e t : Q) : bool := Qle_bool s t && Qle_bool t e.

(** What a histogram over the edges [e0 <= e1 <= ... <= en] counts: bin [k]
    holds the values in [[ek, ek+1)], the last bin those in [[en-1, en]]. *)
Fixpoint hist_spec (a : list Q) (edges : list Q) : list Z :=
  match edges with
  | e0 :: ((e1 :: rest) as tl) =>
      match rest with
      | [] => [count_if (in_closed e0 e1) a]
      | _ :: _ => count_if (in_bin e0 e1) a :: hist_spec a tl
      end
  | _ => []
  end.

(** The number of spikes of a train that the selected counting path
    attributes to each bin, before any cast: interval membership
    [[start, end)] on the explicit path; on the histogram path the bins run
    from each start to the next start, the last one to its end inclusive. *)
Definition attributed_counts (std_bins : bool) (rows : windows)
    (train : list Q) : list Z :=
  if std_bins then hist_spec train (hist_edges rows)
  else map (fun b : Q * Q => count_if (in_bin (fst b) (snd b)) train) rows.

Definition err_missing_lims : exn :=
  AssertionError
    "Must input <lims> = full time range of analysis (or set custom <bins>)".

Definition err_bins_shape : exn :=
  AssertionError
    "bins must be given as (n_bins,2) array of bin [start,end] times".

Definition rank2_two_columns (a : ndarray) : bool :=
  (ndim a =? 2)%nat && (nth 1 (shape a) 0 =? 2)%nat.

Definition err_before_start : exn :=
  AssertionError "trial_lims are attempting to index before start of data".

Definition err_beyond_end : exn :=
  AssertionError "trial_lims are attempting to index beyond end of data".

(** The sample indices of the trial limits,
    [np.round(smp_rate*trial_lims).astype(int)], row by row. *)
Definition trial_sample_idxs (smp_rate : Q) (rows : windows) : idx_windows :=
  map (fun r : Q * Q =>
         (round_half_even (smp_rate * fst r),
          round_half_even (smp_rate * snd r))) rows.

Definition range_error (e : exn) : Prop :=
  e = err_before_start \/ e = err_beyond_end.

Definition idx_in_range (n : nat) (w : Z * Z) : Prop :=
  (0 <= fst w < Z.of_nat n)%Z /\ (0 <= snd w < Z.of_nat n)%Z.

(** A store with one trial-cut collection (at [2]) of a single trial, whose
    train (at [1]) is [[0.1, 0.3, 0.6]]. *)
Definition one_trial_store : heap :=
  <[2%positive := ObjArray [1%positive]]>
    (<[1%positive := FloatArr [1 # 10; 3 # 10; 6 # 10]]> ∅).

(** [bool_to_times(times_to_bool(train, lims, width), timepts)] for a single
    train. *)
Definition round_trip (train : list Q) (lims : Q * Q) (width : Q)
  : result (list Q) :=
  do bt <~ times_to_bool (NumVec d_float train) (Some lims) (PyFloat width) None;
  match fst bt with
  | One spike_bool => bool_to_times (BoolVec spike_bool) (snd bt) (-1)%Z
  | Many _ => Raise (TypeError "not a single train")
  end.

(** The limits [times_to_bool] works with, and the bins of width [width]
    that [setup_sliding_windows] lays out inside them: as many as fit. *)
Definition effective_lims (lims : Q * Q) (width : Q) : Q * Q :=
  if math_isclose width (1 # 1000)
  then (fst lims - (5 # 10000), snd lims + (5 # 10000)) else lims.

Definition n_windows (lims : Q * Q) (width : Q) : nat :=
  Z.to_nat (Qceiling ((snd lims - width + eps12 - fst lims) / width)).

Definition regular_bins (lims : Q * Q) (width : Q) : windows :=
  map (fun s : Q => (s, s + width))
      (map (fun i : nat => fst lims + inject_Z (Z.of_nat i) * width)
           (seq 0 (n_windows lims width))).

Definition bin_center (b : Q * Q) : Q := (fst b + snd b) / 2.

(** The bins that hold a spike of the train: [start <= t < end], and for the
    last bin [start <= t <= end]. *)
Fixpoint bin_marks (train : list Q) (bins : windows) : list bool :=
  match bins with
  | [] => []
  | b :: rest =>
      match rest with
      | [] => [existsb (in_closed (fst b) (snd b)) train]
      | _ :: _ => existsb (in_bin (fst b) (snd b)) train :: bin_marks train rest
      end
  end.

Definition marked_bins (train : list Q) (bins : windows) : windows :=
  map snd (List.filter fst (combine (bin_marks train bins) bins)).

(** A WindowSet is regular for the width [w]: every bin is [w] wide and
    starts where the one before ends. *)
Fixpoint contiguous (bins : windows) : Prop :=
  match bins with
  | b :: ((b' :: _) as rest) => fst b' == snd b /\ contiguous rest
  | _ => True
  end.

Definition regular (w : Q) (bins : windows) : Prop :=
  Forall (fun b : Q * Q => snd b - fst b == w) bins /\ contiguous bins.

(** One bin lies before another, both of positive width. *)
Definition bin_before (x y : Q * Q) : Prop :=
  fst x < snd x /\ snd x <= fst y /\ fst y < snd y.

(** The quantities [density] derives from its arguments: the sample period
    [dt = np.diff(t).mean()], the buffer in seconds and in samples. *)
Definition time_step (t : list Q) : Q :=
  Qsum (np_diff t) / inject_Z (Z.of_nat (List.length (np_diff t))).

Definition rounded_rate (t : list Q) : Z := round_half_even (1 / time_step t).

Definition buffer_samples (buffer : Q) (t : list Q) : Z :=
  round_half_even (buffer * inject_Z (rounded_rate t)).

(** The cells of a boolean train given as a vector, and what it is for the
    data to hold no spike. *)
Definition train_cells (data : spike_data) : list Q :=
  match data with
  | BoolVec b => map Q_of_bool b
  | NumVec _ v => v
  | ObjArr _ => []
  end.

Definition no_spike_vector (data : spike_data) : Prop :=
  match data with
  | ObjArr _ => False
  | _ => _isbinary data = true /\ existsb nonzero (train_cells data) = false
  end.

(** A kernel name that [_str_to_kernel] knows; arrays and callables are
    taken as they are. *)
Definition kernel_known {V : Type} (kernel : kernel_arg V) : bool :=
  match kernel with
  | KStr _ name =>
      str_in (str_lower name) ["hann"; "hanning"; "gaussian"; "normal"]%string
  | _ => true
  end.

Definition resolved_buffer {V : Type} (kernel : kernel_arg V) (width : Q)
    (buffer : option Q) : Q :=
  match buffer with None => default_buffer V kernel width | Some b => b end.

(** [mode='same']: the result of the convolution has the shape of the data. *)
Definition same_shape {A B : Type} (x : batch (list A)) (y : batch (list B))
  : Prop :=
  match x, y with
  | One _, One _ => True
  | Many xs, Many ys => List.length xs = List.length ys
  | _, _ => False
  end.

Definition all_zero {V : Type} (vzero : V) (rates : batch (list V)) : Prop :=
  Forall (Forall (fun x => x = vzero)) (batch_rows rates).

(** A convolution on rationals, for concrete runs: the direct sum, cut to
    the central part as [mode='same'] does, and the normalisation of the
    kernel by its sum. *)
Definition nth_Z (k : list Q) (i : Z) : Q :=
  if (i <? 0)%Z then 0 else nth (Z.to_nat i) k 0.

Definition convolve_row (d k : list Q) : list Q :=
  let off := (Z.of_nat (List.length k - 1) / 2)%Z in
  map (fun i : nat =>
         Qsum (map (fun m : nat =>
                      nth m d 0 * nth_Z k (Z.of_nat i + off - Z.of_nat m))
                   (seq 0 (List.length d))))
      (seq 0 (List.length d)).

Definition convolve_Q (data : batch (list Q)) (kernel : list Q)
  : batch (list Q) :=
  batch_map (fun d => convolve_row d kernel) data.

Definition normalize_Q (kernel : list Q) (smp_rate : Z) : list Q :=
  map (fun x => x / (Qsum kernel / inject_Z smp_rate)) kernel.

(** A rectangular window, standing in for the SciPy windows in concrete
    runs. *)
Definition boxcar (M : Z) : list Q := repeat 1 (Z.to_nat M).

Definition density_Q :=
  density Q 0 boxcar (fun M _ => boxcar M) normalize_Q convolve_Q.

(** The time vector 0, 0.1, ..., 1.0. *)
Definition tenths : list Q :=
  map (fun i : nat => inject_Z (Z.of_nat i) / 10) (seq 0 11).

(** ** Further reference descriptions *)

(** The slack [_iarange] adds to its endpoint, and the window that starts
    [i] steps after [lims[0]]. *)
Definition arange_slack (step : pynum) : Q :=
  if isinstance_int step then 1 else 1 # 1000000000000.

Definition window_at (lims : Q * Q) (width step : pynum) (i : nat) : Q * Q :=
  let start := fst lims + inject_Z (Z.of_nat i) * num step in
  (start, start + num width).

(** The integer window of [w] samples that starts [i] steps of [s] after
    sample [a]: it names its first and its last sample. *)
Definition int_window (a w s : Z) (i : nat) : Q * Q :=
  let start := (a + Z.of_nat i * s)%Z in
  (inject_Z start, inject_Z (start + w - 1)).

(** [np.sum] of integer counts. *)
Definition Zsum (l : list Z) : Z := fold_right Z.add 0%Z l.

(** The bins [bin_rate] works with: the ones given, or the sliding windows
    it lays out in [lims]. *)
Definition bins_in_use (lims : option (Q * Q)) (width : pynum)
    (step : option pynum) (bins : option ndarray) (b : ndarray) : Prop :=
  bins = Some b
  \/ (bins = None
      /\ exists (l : Q * Q) (w : windows),
           lims = Some l
           /\ setup_sliding_windows width l step None false None = Ok w
           /\ b = windows_array w).

(** The span of a WindowSet: from the start of its first window to the end
    of its last one. *)
Definition span (rows : windows) : Q * Q :=
  (fst (hd (0, 0) rows), snd (List.last rows (0, 0))).

Definition ordered (b : Q * Q) : Prop := fst b <= snd b.

(** The timestamps of a train that lie within the span of a WindowSet,
    [first start <= t < last end], in the order of the train. *)
Definition within_span (rows : windows) (train : list Q) : list Q :=
  List.filter (in_bin (fst (span rows)) (snd (span rows))) train.

(** Align times added trial by trial, for two successive realignments. *)
Fixpoint add_align (a b : list Q) : list Q :=
  match a, b with
  | x :: a', y :: b' => (x + y) :: add_align a' b'
  | _, _ => []
  end.

(** Two collections hold the same timestamps, as rational numbers. *)
Definition same_trains (x y : list (list Q)) : Prop :=
  Forall2 (Forall2 Qeq) x y.

(** A time sampling vector of [n] samples, [dt] apart, from [t0] on, and the
    bins [[t - dt/2, t + dt/2]] around its samples. *)
Definition uniform_times (t0 dt : Q) (n : nat) : list Q :=
  map (fun i : nat => t0 + inject_Z (Z.of_nat i) * dt) (seq 0 n).

Definition sample_bins (dt : Q) (t : list Q) : windows :=
  map (fun x => (x - dt / 2, x + dt / 2)) t.

Definition count_true (b : list bool) : nat :=
  List.length (List.filter (fun x : bool => x) b).

(** [mode='same'] row by row: every row of the result is as long as the row
    of the data it comes from. *)
Definition same_lengths {A B : Type} (x : batch (list A)) (y : batch (list B))
  : Prop :=
  match x, y with
  | One a, One b => List.length a = List.length b
  | Many xs, Many ys =>
      Forall2 (fun a b => List.length a = List.length b) xs ys
  | _, _ => False
  end.

(** ** Realignment of boolean data *)

(** The array [realign_spike_bool] returns: [np.empty] allocates it without
    writing to it, so a trial that the loop never reaches holds whatever was
    in memory ([None]). *)
Record realigned_array : Type :=
  mk_realigned { re_shape : list nat; re_trial : list (option (list Q)) }.

(** The numbers held by a cut array of booleans. *)
Definition cut_as_float (c : cut_array bool) : cut_array Q :=
  mk_cut (cut_shape c) (map (map Q_of_bool) (cut_trial c)).

Section RealignBool.

(** [np.round(x / dt).astype(int)] when the quotient is not finite ([dt] is
    NaN for fewer than two time points, or zero): the cast is left to the
    platform.  The flag tells whether [dt] is NaN, the number is [x]. *)
Variable int_of_nonfinite : bool -> Q -> Z.

Definition samples_of (timepts : list Q) (x : Q) : Z :=
  if (List.length timepts <? 2)%nat then int_of_nonfinite true x
  else
    let dt := Qsum (np_diff timepts)
              / inject_Z (Z.of_nat (List.length (np_diff timepts))) in
    if Qeq_bool dt 0 then int_of_nonfinite false x
    else round_half_even (x / dt).

(** [realigned[..., iTrial] = data[t[0]:t[1]+1, ..., iTrial]], trial by
    trial. *)
Fixpoint realign_epochs (data : list (list Q)) (n_out : nat) (iTrial : nat)
    (epochs : idx_windows) (realigned : list (option (list Q)))
  : result (list (option (list Q))) :=
  match epochs with
  | [] => Ok realigned
  | t :: rest =>
      match nth_error data iTrial with
      | None => Raise (IndexError "index is out of bounds for axis 1")
      | Some trial =>
          do seg <~ assign_segment n_out (py_slice trial (fst t) (snd t + 1)%Z);
          realign_epochs data n_out (S iTrial) rest
            (<[iTrial := Some seg]> realigned)
      end
  end.

(** [realign_spike_bool] on a two-dimensional array [(n_timepts, n_trials)]
    with the default axes ([time_axis=0], [trial_axis=-1]), held trial by
    trial. *)
Definition realign_spike_bool (data : cut_array Q) (align_times : list Q)
    (time_range : option (Q * Q)) (timepts : option (list Q))
  : result realigned_array :=
  do time_range <~
    (match time_range with
     | None =>
         Raise (AssertionError
           "Desired time range to extract from each trial must be given in  <time_range>")
     | Some r => Ok r
     end);
  do timepts <~
    (match timepts with
     | None =>
         Raise (AssertionError
           "Data time sampling vector must be given in <timepts>")
     | Some t => Ok t
     end);
  (* timepts[0] *)
  do t0 <~
    (match timepts with
     | [] => Raise (IndexError "index 0 is out of bounds for axis 0 with size 0")
     | x :: _ => Ok x
     end);
  let align_smps := map (fun a => samples_of timepts (a - t0)) align_times in
  let range_smps :=
    (samples_of timepts (fst time_range), samples_of timepts (snd time_range)) in
  let trial_range_smps : idx_windows :=
    map (fun a => (a + fst range_smps, a + snd range_smps)%Z) align_smps in
  do _ <~ py_assert (forallb (fun t : Z * Z => (0 <=? fst t)%Z) trial_range_smps)
            "Some requested time epochs extend before start of data";
  do _ <~ py_assert
            (forallb (fun t : Z * Z =>
                        (snd t <? Z.of_nat (List.length timepts))%Z)
                     trial_range_smps)
            "Some requested time epochs extend beyond end of data";
  let n_timepts_out := (snd range_smps - fst range_smps + 1)%Z in
  do _ <~
    (if (n_timepts_out <? 0)%Z
     then Raise (ValueError "negative dimensions are not allowed")
     else Ok tt);
  let n_out := Z.to_nat n_timepts_out in
  let n_trials := nth 1 (cut_shape data) 0%nat in
  do trials <~
    realign_epochs (cut_trial data) n_out 0 trial_range_smps
      (repeat None n_trials);
  Ok (mk_realigned (n_out :: List.tl (cut_shape data)) trials).

End RealignBool.

(** The epoch of a trial: the sample indices [[start, end]] that its align
    time and the time range select. *)
Definition epoch_of (int_of_nonfinite : bool -> Q -> Z) (timepts : list Q)
    (time_range : Q * Q) (align_time : Q) : Z * Z :=
  let s := samples_of int_of_nonfinite timepts (align_time - hd 0 timepts) in
  ((s + samples_of int_of_nonfinite timepts (fst time_range))%Z,
   (s + samples_of int_of_nonfinite timepts (snd time_range))%Z).

Definition err_epoch_before_start : exn :=
  AssertionError "Some requested time epochs extend before start of data".

Definition err_epoch_beyond_end : exn :=
  AssertionError "Some requested time epochs extend beyond end of data".

(** The number of samples that the time range spans, both ends included. *)
Definition epoch_length (int_of_nonfinite : bool -> Q -> Z)
    (timepts : list Q) (time_range : Q * Q) : Z :=
  (samples_of int_of_nonfinite timepts (snd time_range)
   - samples_of int_of_nonfinite timepts (fst time_range) + 1)%Z.

Definition epoch_in_range (n_timepts : nat) (e : Z * Z) : Prop :=
  (0 <= fst e)%Z /\ (snd e < Z.of_nat n_timepts)%Z.

(** The samples [start .. end] of a trial, both ends included. *)
Definition epoch_samples (e : Z * Z) (trial : list Q) : list Q :=
  py_slice trial (fst e) (snd e + 1)%Z.

(** ** Electrodes and their units *)

(** [np.unique(data, return_index=True)]: the distinct values in ascending
    order and, for each, the index of its first occurrence. *)
Fixpoint insert_unique (x : Z) (l : list Z) : list Z :=
  match l with
  | [] => [x]
  | y :: l' =>
      if (x <? y)%Z then x :: l
      else if (x =? y)%Z then l
      else y :: insert_unique x l'
  end.

Definition np_unique (data : list Z) : list Z := fold_right insert_unique [] data.

Fixpoint first_index (x : Z) (data : list Z) : nat :=
  match data with
  | [] => 0
  | y :: rest => if (x =? y)%Z then 0 else S (first_index x rest)
  end.

Definition np_unique_index (data : list Z) : list nat :=
  map (fun v => first_index v data) (np_unique data).

(** [np.sort] of an array of indices. *)
Fixpoint insert_nat (x : nat) (l : list nat) : list nat :=
  match l with
  | [] => [x]
  | y :: l' => if (x <=? y)%nat then x :: l else y :: insert_nat x l'
  end.

Definition sort_nat (l : list nat) : list nat := fold_right insert_nat [] l.

(** [_unsorted_unique]: [data[np.sort(idxs)]] for the indices [idxs] of the
    first occurrences. *)
Definition _unsorted_unique (data : list Z) : list Z :=
  let idxs := np_unique_index data in
  map (fun i => nth i data 0%Z) (sort_nat idxs).

(** The values of a list in the order in which they first appear. *)
Fixpoint keep_first (l : list Z) : list Z :=
  match l with
  | [] => []
  | x :: rest => x :: List.filter (fun y => negb (y =? x)%Z) (keep_first rest)
  end.

(** The positions of those first appearances. *)
Fixpoint first_positions (l : list Z) : list nat :=
  match l with
  | [] => []
  | x :: rest =>
      0%nat
      :: map S (List.filter (fun i => negb (nth i rest 0 =? x)%Z)
                  (first_positions rest))
  end.

(** ** Two-dimensional arrays *)

(** A two-dimensional array: its shape and its rows (C order). *)
Record matrix (A : Type) : Type :=
  mk_matrix { m_shape : nat * nat; m_rows : list (list A) }.
Arguments mk_matrix {A} m_shape m_rows.
Arguments m_shape {A} m.
Arguments m_rows {A} m.

Definition wf_matrix {A : Type} (m : matrix A) : Prop :=
  List.length (m_rows m) = fst (m_shape m)
  /\ Forall (fun r => List.length r = snd (m_shape m)) (m_rows m).

Fixpoint cons_column {A : Type} (col : list A) (rows : list (list A))
  : list (list A) :=
  match col, rows with
  | x :: col', r :: rows' => (x :: r) :: cons_column col' rows'
  | _, _ => []
  end.

(** The rows of the transpose of an array with [n_cols] columns. *)
Fixpoint transpose_rows {A : Type} (n_cols : nat) (rows : list (list A))
  : list (list A) :=
  match rows with
  | [] => repeat [] n_cols
  | r :: rest => cons_column r (transpose_rows n_cols rest)
  end.

Definition transpose {A : Type} (m : matrix A) : matrix A :=
  mk_matrix (snd (m_shape m), fst (m_shape m))
            (transpose_rows (snd (m_shape m)) (m_rows m)).

(** [np.moveaxis(data, source, destination)] on a two-dimensional array:
    the axes are exchanged when source and destination differ. *)
Definition normalize_axis2 (axis : Z) : result Z :=
  if ((-2 <=? axis) && (axis <? 2))%Z then Ok (axis mod 2)%Z
  else Raise (AxisError "axis is out of bounds for array of dimension 2").

Definition np_moveaxis2 {A : Type} (m : matrix A) (source destination : Z)
  : result (matrix A) :=
  do s <~ normalize_axis2 source;
  do d <~ normalize_axis2 destination;
  Ok (if (s =? d)%Z then m else transpose m).

(** [_reshape_data] on a two-dimensional array; [f_contiguous] is the flag
    [data.flags.f_contiguous] of the caller's array. *)
Definition _reshape_data {A : Type} (f_contiguous : bool) (data : matrix A)
    (axis : Z) : result (matrix A * (nat * nat)) :=
  let data_shape := m_shape data in
  do data <~
    (if f_contiguous then
       do data <~ (if negb (axis =? 0)%Z then np_moveaxis2 data axis 0
                   else Ok data);
       (* data_ndim = 2: data.T *)
       Ok (transpose data)
     else
       if negb ((axis =? -1) || (axis =? 1))%Z then np_moveaxis2 data axis (-1)
       else Ok data);
  Ok (data, data_shape).

(** [_unreshape_data] for an original array of two dimensions. *)
Definition _unreshape_data {A : Type} (data : matrix A)
    (data_shape : nat * nat) (axis : Z) : result (matrix A) :=
  if negb (axis =? -1)%Z then np_moveaxis2 data (-1) axis else Ok data.

(** ** Pooling the units of an electrode *)

(** [electrodes == elec] *)
Definition on_electrode (electrodes : list Z) (elec : Z) : list bool :=
  map (fun e => (e =? elec)%Z) electrodes.

(** [cells[mask]] for a boolean mask. *)
Fixpoint mask_cells {A : Type} (cells : list A) (mask : list bool) : list A :=
  match cells, mask with
  | x :: cells', b :: mask' =>
      if b then x :: mask_cells cells' mask' else mask_cells cells' mask'
  | _, _ => []
  end.

Definition index_mask {A : Type} (cells : list A) (mask : list bool)
  : result (list A) :=
  if (List.length mask =? List.length cells)%nat then Ok (mask_cells cells mask)
  else Raise (IndexError "boolean index did not match indexed array").

(** [np.concatenate] of a list of one-dimensional arrays. *)
Definition concatenate_trains (trains : list (list Q)) : result (list Q) :=
  match trains with
  | [] => Raise (ValueError "need at least one array to concatenate")
  | _ => Ok (concat trains)
  end.

(** [np.nonzero(electrodes == elec)[0][0]] *)
Definition first_unit (electrodes : list Z) (elec : Z) : result Z :=
  if existsb (fun e => (e =? elec)%Z) electrodes
  then Ok (Z.of_nat (first_index elec electrodes))
  else Raise (IndexError "index 0 is out of bounds for axis 0 with size 0").

(** [pool_electrode_units_spike_times] on a two-dimensional object array of
    timestamp vectors. *)
Definition pool_electrode_units_spike_times (f_contiguous : bool)
    (data_sua : matrix (list Q)) (electrodes : list Z) (axis : Z)
    (elec_set : option (list Z)) (return_idxs : bool) (sort : bool)
  : result (matrix (list Q) * option (list Z)) :=
  let elec_set :=
    match elec_set with None => _unsorted_unique electrodes | Some s => s end in
  let n_elecs := List.length elec_set in
  do rs <~ _reshape_data f_contiguous data_sua axis;
  let data_sua := fst rs in
  let data_shape := snd rs in
  let n_series := fst (m_shape data_sua) in
  (* electrode by electrode, and for each the data series one by one *)
  do cols <~
    map_result
      (fun elec =>
         let elec_idxs := on_electrode electrodes elec in
         map_result
           (fun series =>
              do units <~ index_mask series elec_idxs;
              do ts <~ concatenate_trains units;
              Ok (if sort then sort_Q ts else ts))
           (m_rows data_sua))
      elec_set;
  let data_mua := mk_matrix (n_series, n_elecs) (transpose_rows n_series cols) in
  do data_mua <~ _unreshape_data data_mua data_shape axis;
  if return_idxs then
    do elec_idxs <~ map_result (first_unit electrodes) elec_set;
    Ok (data_mua, Some elec_idxs)
  else Ok (data_mua, None).

(** [pool_electrode_units_spike_bool] and [pool_electrode_units_spike_rate]
    on a two-dimensional array: the same code but for the reduction,
    [.any(axis, keepdims=True)] or [.sum(axis, keepdims=True)].  The reduced
    array keeps the unit axis with length one; it is stored under an integer
    index on that axis, into a target of one dimension less, which NumPy
    accepts only when the dimensions in front of the kept axis have length
    one. *)
Definition pool_units_along_axis {A : Type} (reduce : list A -> A)
    (data_sua : matrix A) (electrodes : list Z) (axis : Z)
    (elec_set : option (list Z)) (return_idxs : bool)
  : result (matrix A * option (list Z)) :=
  let elec_set :=
    match elec_set with None => _unsorted_unique electrodes | Some s => s end in
  let n_elecs := List.length elec_set in
  let n_rows := fst (m_shape data_sua) in
  let n_cols := snd (m_shape data_sua) in
  (* data_shape[axis] = n_elecs, on the list of the two dimensions *)
  do ax <~
    (if ((-2 <=? axis) && (axis <? 2))%Z then Ok (axis mod 2)%Z
     else Raise (IndexError "list assignment index out of range"));
  do pooled <~
    map_result
      (fun elec =>
         let elec_idxs := on_electrode electrodes elec in
         if (ax =? 0)%Z then
           (* data_sua[elec_idxs, :], reduced to shape (1, n_cols), goes to
              data_mua[i_elec, :] *)
           if (List.length elec_idxs =? n_rows)%nat then
             Ok (map reduce
                   (transpose_rows n_cols (mask_cells (m_rows data_sua) elec_idxs)))
           else Raise (IndexError "boolean index did not match indexed array")
         else
           (* data_sua[:, elec_idxs], reduced to shape (n_rows, 1), goes to
              data_mua[:, i_elec], of shape (n_rows,) *)
           if (List.length elec_idxs =? n_cols)%nat then
             if (n_rows =? 1)%nat then
               Ok (map (fun row => reduce (mask_cells row elec_idxs))
                       (m_rows data_sua))
             else Raise (ValueError "could not broadcast input array")
           else Raise (IndexError "boolean index did not match indexed array"))
      elec_set;
  let data_mua :=
    if (ax =? 0)%Z then mk_matrix (n_elecs, n_cols) pooled
    else mk_matrix (n_rows, n_elecs) (transpose_rows n_rows pooled) in
  if return_idxs then
    do elec_idxs <~ map_result (first_unit electrodes) elec_set;
    Ok (data_mua, Some elec_idxs)
  else Ok (data_mua, None).

Definition pool_electrode_units_spike_bool :=
  pool_units_along_axis (existsb (fun x : bool => x)).

Definition pool_electrode_units_spike_rate := pool_units_along_axis Qsum.

(** The units of an electrode: the rows of the data whose electrode it is. *)
Definition units_on {A : Type} (electrodes : list Z) (elec : Z)
    (units : list A) : list A :=
  mask_cells units (on_electrode electrodes elec).

(** The value at sample [t] of each of a list of rows. *)
Definition at_sample {A : Type} (d : A) (t : nat) (rows : list (list A))
  : list A :=
  map (fun r => nth t r d) rows.

Definition err_no_unit : exn :=
  ValueError "need at least one array to concatenate".

(** Index [i] is where the electrode [elec] first appears in [electrodes]. *)
Definition first_occurrence (electrodes : list Z) (elec : Z) (i : Z) : Prop :=
  (0 <= i < Z.of_nat (List.length electrodes))%Z
  /\ nth (Z.to_nat i) electrodes 0%Z = elec
  /\ forall j : nat, (Z.of_nat j < i)%Z -> nth j electrodes 0%Z <> elec.

(** * Properties *)

(** ** Basic facts about the numeric models *)

Lemma Qle_bool_false_lt (a b : Q) : Qle_bool a b = false -> b < a.
Proof.
  intros H. apply Qnot_le_lt. intros Hle.
  apply Qle_bool_iff in Hle. congruence.
Qed.

Lemma Qlt_bool_iff (a b : Q) : Qlt_bool a b = true <-> a < b.
Proof.
  unfold Qlt_bool. split; intros H.
  - apply negb_true_iff in H. now apply Qle_bool_false_lt.
  - apply negb_true_iff. destruct (Qle_bool b a) eqn:E; [|reflexivity].
    apply Qle_bool_iff in E. lra.
Qed.

Lemma Qlt_bool_false_le (a b : Q) : Qlt_bool a b = false <-> b <= a.
Proof.
  unfold Qlt_bool. rewrite negb_false_iff. apply Qle_bool_iff.
Qed.

Lemma in_bin_iff (s e t : Q) : in_bin s e t = true <-> s <= t /\ t < e.
Proof.
  unfold in_bin. rewrite andb_true_iff, Qle_bool_iff, Qlt_bool_iff. tauto.
Qed.

Lemma count_if_cons (p : Q -> bool) (x : Q) (l : list Q) :
  count_if p (x :: l) = ((if p x then 1 else 0) + count_if p l)%Z.
Proof.
  unfold count_if. cbn [List.filter]. destruct (p x); cbn [List.length]; lia.
Qed.

Lemma count_if_nonneg (p : Q -> bool) (l : list Q) : (0 <= count_if p l)%Z.
Proof. unfold count_if. lia. Qed.

Lemma count_if_insert_sorted (p : Q -> bool) (x : Q) (l : list Q) :
  count_if p (insert_sorted x l) = count_if p (x :: l).
Proof.
  induction l as [|y l IH]; simpl; [reflexivity|].
  destruct (Qle_bool x y); [reflexivity|].
  rewrite (count_if_cons p y), IH, !count_if_cons. lia.
Qed.

Lemma count_if_sort (p : Q -> bool) (l : list Q) :
  count_if p (sort_Q l) = count_if p l.
Proof.
  induction l as [|x l IH]; simpl; [reflexivity|].
  rewrite count_if_insert_sorted, !count_if_cons, IH. reflexivity.
Qed.

Lemma count_if_ext (p q : Q -> bool) (l : list Q) :
  (forall x, In x l -> p x = q x) -> count_if p l = count_if q l.
Proof.
  induction l as [|x l IH]; intros H; [reflexivity|].
  rewrite !count_if_cons, IH, (H x); [reflexivity|now left|].
  intros y Hy. apply H. now right.
Qed.

Lemma count_if_pos_existsb (p : Q -> bool) (l : list Q) :
  negb (count_if p l =? 0)%Z = existsb p l.
Proof.
  induction l as [|x l IH]; [reflexivity|].
  rewrite count_if_cons. simpl. pose proof (count_if_nonneg p l) as Hn.
  destruct (p x); simpl.
  - apply negb_true_iff, Z.eqb_neq. lia.
  - exact IH.
Qed.

(** ** The histogram model against interval membership *)

Lemma searchsorted_left_diff (l : list Q) (a b : Q) :
  a <= b ->
  (searchsorted_left l b - searchsorted_left l a)%Z = count_if (in_bin a b) l.
Proof.
  intros Hab. unfold searchsorted_left.
  induction l as [|x l IH]; [reflexivity|].
  rewrite !count_if_cons. unfold in_bin at 1.
  destruct (Qlt_bool x b) eqn:Eb, (Qlt_bool x a) eqn:Ea,
           (Qle_bool a x) eqn:Ec; simpl; try lia;
    exfalso;
    repeat match goal with
    | H : Qlt_bool _ _ = true |- _ => apply Qlt_bool_iff in H
    | H : Qlt_bool _ _ = false |- _ => apply Qlt_bool_false_le in H
    | H : Qle_bool _ _ = true |- _ => apply Qle_bool_iff in H
    | H : Qle_bool _ _ = false |- _ => apply Qle_bool_false_lt in H
    end; lra.
Qed.

Lemma searchsorted_right_diff (l : list Q) (a b : Q) :
  a <= b ->
  (searchsorted_right l b - searchsorted_left l a)%Z
  = count_if (in_closed a b) l.
Proof.
  intros Hab. unfold searchsorted_left, searchsorted_right.
  induction l as [|x l IH]; [reflexivity|].
  rewrite !count_if_cons. unfold in_closed at 1.
  destruct (Qle_bool x b) eqn:Eb, (Qlt_bool x a) eqn:Ea,
           (Qle_bool a x) eqn:Ec; simpl; try lia;
    exfalso;
    repeat match goal with
    | H : Qlt_bool _ _ = true |- _ => apply Qlt_bool_iff in H
    | H : Qlt_bool _ _ = false |- _ => apply Qlt_bool_false_le in H
    | H : Qle_bool _ _ = true |- _ => apply Qle_bool_iff in H
    | H : Qle_bool _ _ = false |- _ => apply Qle_bool_false_lt in H
    end; lra.
Qed.

Lemma search_sorted_inclusive_sort (a v : list Q) :
  _search_sorted_inclusive (sort_Q a) v = _search_sorted_inclusive a v.
Proof.
  unfold _search_sorted_inclusive, searchsorted_left, searchsorted_right.
  f_equal.
  - apply map_ext. intros x. apply count_if_sort.
  - destruct v; [reflexivity|]. now rewrite count_if_sort.
Qed.

Lemma search_sorted_inclusive_cons (a : list Q) (e0 e1 : Q) (rest : list Q) :
  _search_sorted_inclusive a (e0 :: e1 :: rest)
  = searchsorted_left a e0 :: _search_sorted_inclusive a (e1 :: rest).
Proof. reflexivity. Qed.

Lemma histogram_counts_spec (a edges : list Q) :
  monotonic edges = true ->
  np_diff_Z (_search_sorted_inclusive a edges) = hist_spec a edges.
Proof.
  induction edges as [|e0 tl IH]; intros Hm; [reflexivity|].
  destruct tl as [|e1 rest]; [reflexivity|].
  cbn [monotonic] in Hm. apply andb_true_iff in Hm as [H01 Hm].
  apply Qle_bool_iff in H01.
  rewrite search_sorted_inclusive_cons.
  destruct rest as [|e2 rest'].
  - cbn. now rewrite searchsorted_right_diff.
  - specialize (IH Hm).
    rewrite search_sorted_inclusive_cons in *.
    cbn [np_diff_Z hist_spec]. cbn [np_diff_Z hist_spec] in IH.
    rewrite searchsorted_left_diff by exact H01.
    f_equal. exact IH.
Qed.

Lemma np_histogram_spec (a edges : list Q) :
  monotonic edges = true -> np_histogram a edges = Ok (hist_spec a edges).
Proof.
  intros Hm. unfold np_histogram. rewrite Hm. cbn [negb].
  now rewrite search_sorted_inclusive_sort, histogram_counts_spec.
Qed.

(** ** The classifier on numeric vectors *)

Lemma insert_sorted_not_nil (x : Q) (l : list Q) : insert_sorted x l <> [].
Proof. destruct l as [|y l]; simpl; [|destruct (Qle_bool x y)]; discriminate. Qed.

Lemma isbinary_false_not_nil (dt : dtype) (v : list Q) :
  _isbinary (NumVec dt v) = false -> v <> [].
Proof. intros H ->. discriminate. Qed.

Lemma np_all_none_equal (v : list Q) :
  v <> [] -> np_all (np_equal PyNone v) = false.
Proof. destruct v; [congruence|reflexivity]. Qed.

Lemma spike_data_type_nonbinary_vector (dt : dtype) (v : list Q) :
  _isbinary (NumVec dt v) = false ->
  _spike_data_type (NumVec dt v) = Ok "rate"%string.
Proof.
  intros Hb. pose proof (isbinary_false_not_nil dt v Hb) as Hne.
  unfold _spike_data_type. rewrite Hb. cbn [ndarray_sort].
  rewrite np_all_none_equal; [reflexivity|].
  destruct v as [|x l]; [congruence|]. apply insert_sorted_not_nil.
Qed.

(** C4 (code as written): a numeric vector holding a value other than 0 and
    1 is classified 'rate', whether or not it is sorted in ascending order:
    [data.sort()] returns [None], so the test that should recognise a sorted
    vector of timestamps compares [None] with the data and never succeeds. *)
Theorem spike_data_type_numeric_vector_is_rate (dt : dtype) (v : list Q) :
  _isbinary (NumVec dt v) = false ->
  _spike_data_type (NumVec dt v) = Ok "rate"%string
  /\ _spike_data_type (NumVec dt v) <> Ok "timestamp"%string.
Proof.
  intros Hb. rewrite (spike_data_type_nonbinary_vector dt v Hb).
  split; [reflexivity|discriminate].
Qed.

Lemma spike_data_type_sorted_timestamps_witness :
  _isbinary (NumVec d_float [1 # 10; 3 # 10; 6 # 10]) = false
  /\ _spike_data_type (NumVec d_float [1 # 10; 3 # 10; 6 # 10])
     = Ok "rate"%string.
Proof.
  split; [reflexivity|].
  apply (spike_data_type_numeric_vector_is_rate d_float [1 # 10; 3 # 10; 6 # 10]).
  reflexivity.
Defined.

(** ** Window generation around a reference *)

Lemma np_concatenate_array_axis (a b : list Q) :
  np_concatenate (PyArr a) (PyArr b)
  = Raise (TypeError "only integer scalar arrays can be converted to a scalar index").
Proof. reflexivity. Qed.

(** C5 (code as written): with a reference value, [setup_sliding_windows]
    never returns a WindowSet.  The backward and forward series of window
    starts are handed to [np.concatenate] as two positional arguments, the
    second of which is taken as the axis, and the call raises. *)
Theorem setup_sliding_windows_reference_raises
    (width : pynum) (lims : Q * Q) (step : option pynum) (reference : Q)
    (force_int : bool) (exclude_end : option bool) :
  exists e : exn,
    setup_sliding_windows width lims step (Some reference) force_int exclude_end
    = Raise e.
Proof.
  unfold setup_sliding_windows.
  set (st := match step with None => width | Some s => s end).
  set (ee := match exclude_end with None => force_int | Some b => b end).
  destruct ee;
    (destruct (_iarange reference (fst lims) (pyneg st)) as [e1|back];
     [exists e1; reflexivity|]);
    cbn [rbind];
    match goal with
    | |- context [rbind (_iarange ?a ?b ?c) _] =>
        destruct (_iarange a b c) as [e2|fwd]; [exists e2; reflexivity|]
    end;
    cbn [rbind]; rewrite np_concatenate_array_axis; eexists; reflexivity.
Qed.

(** The failing call of C5, evaluated:
    [setup_sliding_windows(0.5, [-1, 1], reference=0.0)]. *)
Example setup_sliding_windows_reference_example :
  setup_sliding_windows (PyFloat (1 # 2)) (- (1), 1) None (Some 0) false None
  = Raise (TypeError "only integer scalar arrays can be converted to a scalar index").
Proof. reflexivity. Qed.

(** ** The two counting paths on a spike at the final edge *)

(** C1 (code as written): on the regular bins [[0,0.5],[0.5,1]] and the train
    [[0.25, 1.0]], [bin_rate] selects the histogram path, which counts the
    spike at 1.0 in the last bin, while the explicit-inclusion path does
    not count it: the two paths give [1,1] and [1,0]. *)
Theorem histogram_and_custom_counts_differ :
  let rows : windows := [(0, 1 # 2); (1 # 2, 1)] in
  let train : list Q := [1 # 4; 1] in
  let widths := map (fun b : Q * Q => snd b - fst b) rows in
  std_bins_test rows widths (hd 0 widths) = true
  /\ _histogram_count train (hist_edges rows) = Ok [1; 1]%Z
  /\ _custom_bin_count train rows = [1; 0]%Z.
Proof. repeat split. Qed.

(** C2 (code as written): [bin_rate([0.25, 1.0], bins=[[0,0.5],[0.5,1]],
    count=True)] returns the counts [1,1]: the timestamp 1.0, equal to the
    final bin's end and so outside every bin [[start,end)], is counted in
    the final bin. *)
Theorem bin_rate_counts_final_edge :
  let bins := windows_array [(0, 1 # 2); (1 # 2, 1)] in
  bin_rate (NumVec d_float [1 # 4; 1]) None (PyFloat (50 # 1000)) None
           (Some bins) true (-1)%Z None
  = Ok (Counts (One [1; 1]%Z), bins)
  /\ in_bin (1 # 2) 1 1 = false
  /\ in_bin 0 (1 # 2) 1 = false.
Proof. repeat split. Qed.

(** ** Validation of the bins in [bin_rate] *)

Lemma py_assert_false (msg : string) :
  py_assert false msg = Raise (AssertionError msg).
Proof. reflexivity. Qed.

(** C9: [bin_rate] returns no result when neither [lims] nor [bins] is
    given, and none when [bins] is not a rank-2 array with 2 columns.  Once
    the data is available as timestamps (it was given as timestamps, or its
    conversion from a boolean train has succeeded), the failure is the
    assertion about the missing limits, resp. about the shape of [bins]. *)
Theorem bin_rate_rejects_missing_or_misshapen_bins :
  (forall data width step count axis t,
     exists e : exn,
       bin_rate data None width step None count axis t = Raise e
       /\ (is_ok (bin_rate_timestamps data axis t) = true ->
           e = err_missing_lims))
  /\
  (forall data lims width step b count axis t,
     rank2_two_columns b = false ->
     exists e : exn,
       bin_rate data lims width step (Some b) count axis t = Raise e
       /\ (is_ok (bin_rate_timestamps data axis t) = true ->
           e = err_bins_shape)).
Proof.
  split.
  - intros data width step count axis t. unfold bin_rate.
    destruct (bin_rate_timestamps data axis t) as [e|pre]; cbn.
    + exists e. split; [reflexivity|discriminate].
    + eexists. split; [reflexivity|reflexivity].
  - intros data lims width step b count axis t Hshape. unfold bin_rate.
    destruct (bin_rate_timestamps data axis t) as [e|pre]; cbn [rbind Ok Raise].
    + exists e. split; [reflexivity|discriminate].
    + unfold rank2_two_columns in Hshape. rewrite Hshape.
      rewrite py_assert_false. cbn [rbind Ok Raise].
      eexists. split; [reflexivity|reflexivity].
Qed.

Lemma bin_rate_rejects_witness :
  rank2_two_columns (mk_ndarray [3%nat] [0; 1; 2]) = false
  /\ bin_rate (NumVec d_float [1 # 4; 3 # 4]) (Some (0, 1)) (PyFloat (1 # 2))
       None (Some (mk_ndarray [3%nat] [0; 1; 2])) false (-1)%Z None
     = Raise err_bins_shape.
Proof.
  split; [reflexivity|].
  destruct bin_rate_rejects_missing_or_misshapen_bins as [_ H].
  destruct (H (NumVec d_float [1 # 4; 3 # 4]) (Some (0, 1)) (PyFloat (1 # 2))
              None (mk_ndarray [3%nat] [0; 1; 2]) false (-1)%Z None
              eq_refl) as [e [He Hk]].
  rewrite He. f_equal. apply Hk. reflexivity.
Defined.

(** ** Cutting boolean data into trials *)

Lemma rows2_flat_windows (w : windows) :
  rows2 (flat (windows_array w)) = w.
Proof.
  unfold windows_array. cbn [flat].
  induction w as [|[a b] w IH]; [reflexivity|].
  cbn [flat_map app fst snd rows2]. now rewrite IH.
Qed.

Lemma bin_rows_windows_array (w : windows) : bin_rows (windows_array w) = w.
Proof.
  unfold bin_rows. rewrite rows2_flat_windows. cbn. apply firstn_all.
Qed.

Lemma list_min_le_default (d : Z) (l : list Z) : (list_min d l <= d)%Z.
Proof. unfold list_min. induction l; cbn [fold_right]; lia. Qed.

Lemma list_min_lower (d : Z) (l : list Z) (m : Z) :
  (m <= list_min d l)%Z <-> (m <= d)%Z /\ Forall (fun x => (m <= x)%Z) l.
Proof.
  unfold list_min. induction l as [|x l IH]; cbn [fold_right].
  - split; [intros H; split; [exact H|constructor]|tauto].
  - rewrite Z.min_glb_iff, IH. split.
    + intros [Hx [Hd Hl]]. split; [exact Hd|]. constructor; assumption.
    + intros [Hd Hl]. inversion Hl; subst. tauto.
Qed.

Lemma list_max_upper (d : Z) (l : list Z) (m : Z) :
  (list_max d l < m)%Z <-> (d < m)%Z /\ Forall (fun x => (x < m)%Z) l.
Proof.
  unfold list_max. induction l as [|x l IH]; cbn [fold_right].
  - split; [intros H; split; [exact H|constructor]|tauto].
  - rewrite Z.max_lub_lt_iff, IH. split.
    + intros [Hx [Hd Hl]]. split; [exact Hd|]. constructor; assumption.
    + intros [Hd Hl]. inversion Hl; subst. tauto.
Qed.

Lemma Forall_hd_default {A : Type} (P : A -> Prop) (d : A) (l : list A) :
  l <> [] -> Forall P l -> P (hd d l).
Proof. destruct l; [congruence|]. intros _ H. now inversion H. Qed.

Lemma Forall_flat_idxs (P : Z -> Prop) (ws : idx_windows) :
  Forall P (flat_map (fun w : Z * Z => [fst w; snd w]) ws)
  <-> Forall (fun w => P (fst w) /\ P (snd w)) ws.
Proof.
  induction ws as [|w ws IH]; cbn [flat_map app].
  - split; constructor.
  - split; intros H.
    + inversion H as [|? ? H1 H2]; subst. inversion H2 as [|? ? H3 H4]; subst.
      constructor; [tauto|]. now apply IH.
    + inversion H as [|? ? [H1 H2] H3]; subst.
      constructor; [exact H1|]. constructor; [exact H2|]. now apply IH.
Qed.

Lemma np_isclose_refl (a : Q) : np_isclose a a = true.
Proof.
  unfold np_isclose. apply Qle_bool_iff.
  assert (H : a - a == 0) by ring. rewrite H.
  pose proof (Qabs_nonneg a) as Ha. unfold np_atol, np_rtol.
  change (Qabs 0) with 0. lra.
Qed.

Lemma map_result_all_ok {A B : Type} (f : A -> result B) (g : A -> B)
    (l : list A) :
  (forall x, In x l -> f x = Ok (g x)) -> map_result f l = Ok (map g l).
Proof.
  induction l as [|x l IH]; intros H; [reflexivity|].
  cbn [map_result map]. rewrite (H x) by now left.
  cbn [rbind Ok]. rewrite IH; [reflexivity|].
  intros y Hy. apply H. now right.
Qed.

Lemma py_slice_length {A : Type} (data : list A) (s e : Z) :
  (0 <= s <= e)%Z -> (e <= Z.of_nat (List.length data))%Z ->
  List.length (py_slice data s e) = Z.to_nat (e - s).
Proof.
  intros Hs He. unfold py_slice, clip_index.
  destruct (Z.ltb_spec s 0); [lia|]. destruct (Z.ltb_spec e 0); [lia|].
  rewrite length_firstn, length_skipn. lia.
Qed.

Ltac other_error H :=
  unfold Raise, Ok in H;
  first
    [ discriminate H
    | injection H as <-;
      let Hr := fresh "Hr" in
      intros [Hr | Hr]; unfold err_before_start, err_beyond_end in Hr;
      discriminate Hr ].

Lemma check_window_lengths_no_range_error (wins : idx_windows) (tol : Z)
    (e : exn) :
  _check_window_lengths wins tol = Raise e -> ~ range_error e.
Proof.
  unfold _check_window_lengths. intros H.
  destruct wins as [|w1 [|w2 wins]]; cbn [rbind Ok Raise] in H;
    [other_error H|other_error H|].
  destruct (np_allclose_scalar _ _); [other_error H|].
  destruct (_ <=? tol)%Z; cbn [py_assert rbind Ok Raise] in H; other_error H.
Qed.

Lemma assign_segments_no_range_error {A : Type} (data : list A) (n : nat)
    (ws : idx_windows) (e : exn) :
  map_result
    (fun lim : Z * Z => assign_segment n (py_slice data (fst lim) (snd lim + 1)%Z))
    ws = Raise e ->
  ~ range_error e.
Proof.
  induction ws as [|w ws IH]; cbn [map_result]; [intros H; other_error H|].
  unfold assign_segment at 1.
  destruct (_ =? n)%nat.
  - cbn [rbind Ok Raise]. destruct (map_result _ ws) as [e'|ys].
    + cbn [rbind]. intros H. injection H as <-. now apply IH.
    + intros H; other_error H.
  - destruct (py_slice _ _ _) as [|x [|y l]]; cbn [rbind Ok Raise].
    + intros H; other_error H.
    + destruct (map_result _ ws) as [e'|ys].
      * cbn [rbind]. intros H. injection H as <-. now apply IH.
      * intros H; other_error H.
    + intros H; other_error H.
Qed.

Lemma firstn_rows_windows_array (w : windows) :
  firstn (nth 0 (shape (windows_array w)) 0%nat) (rows2 (flat (windows_array w)))
  = w.
Proof. apply bin_rows_windows_array. Qed.

Lemma in_range_all_idxs (n : nat) (idxs : idx_windows) :
  Forall (idx_in_range n) idxs
  <-> Forall (fun x => (0 <= x)%Z)
        (flat_map (fun w : Z * Z => [fst w; snd w]) idxs)
      /\ Forall (fun x => (x < Z.of_nat n)%Z)
           (flat_map (fun w : Z * Z => [fst w; snd w]) idxs).
Proof.
  rewrite !Forall_flat_idxs, <- Forall_and. apply Forall_iff.
  intros w. unfold idx_in_range. lia.
Qed.

Ltac open_cut_trials_spike_bool r rows :=
  unfold cut_trials_spike_bool;
  rewrite firstn_rows_windows_array;
  cbn [rbind Ok Raise];
  match goal with
  | |- context [py_assert ?c ?m] => change (py_assert c m) with (@Ok unit tt)
  end;
  cbn [rbind Ok Raise];
  fold (trial_sample_idxs r rows).

(** A range error is raised exactly when some rounded sample index lies
    outside the data. *)
Lemma cut_trials_spike_bool_range_error {A : Type} (data : list A)
    (rows : windows) (r : Q) :
  rows <> [] ->
  (exists e, cut_trials_spike_bool data (windows_array rows) (Some r) = Raise e
             /\ range_error e)
  <-> ~ Forall (idx_in_range (List.length data)) (trial_sample_idxs r rows).
Proof.
  intros Hne. open_cut_trials_spike_bool r rows.
  set (idxs := trial_sample_idxs r rows).
  set (all := flat_map (fun w : Z * Z => [fst w; snd w]) idxs).
  assert (Hall : all <> []).
  { subst all idxs. destruct rows as [|row rows]; [congruence|]. discriminate. }
  rewrite in_range_all_idxs. fold all.
  destruct all as [|i0 all'] eqn:Eall; [congruence|]. clear Hall.
  cbn [rbind Ok Raise hd]. rewrite <- Eall.
  destruct (0 <=? list_min i0 all)%Z eqn:Emin; cbn [py_assert rbind Ok Raise].
  - apply Z.leb_le, list_min_lower in Emin as [_ Hmin].
    destruct (list_max i0 all <? Z.of_nat (List.length data))%Z eqn:Emax;
      cbn [py_assert rbind Ok Raise].
    + apply Z.ltb_lt, list_max_upper in Emax as [_ Hmax].
      split; [|tauto].
      intros [e [He Hr]]. exfalso. revert Hr.
      destruct (_check_window_lengths idxs 1) as [e1|ws] eqn:Ecw;
        cbn [rbind Ok Raise] in He.
      { injection He as <-. eapply check_window_lengths_no_range_error, Ecw. }
      destruct (_ <? 0)%Z; cbn [rbind Ok Raise] in He; [other_error He|].
      destruct (map_result _ ws) as [e2|cols] eqn:Em;
        cbn [rbind Ok Raise] in He; [|other_error He].
      injection He as <-. eapply assign_segments_no_range_error, Em.
    + split.
      * intros _ [_ Hmax]. apply Z.ltb_ge in Emax.
        assert (list_max i0 all < Z.of_nat (List.length data))%Z; [|lia].
        apply list_max_upper. split; [|exact Hmax].
        rewrite Eall in Hmax. now inversion Hmax.
      * intros _. eexists. split; [reflexivity|]. now right.
  - split.
    + intros _ [Hmin _]. apply Z.leb_gt in Emin.
      assert (0 <= list_min i0 all)%Z; [|lia].
      apply list_min_lower. split; [|exact Hmin].
      rewrite Eall in Hmin. now inversion Hmin.
    + intros _. eexists. split; [reflexivity|]. now left.
Qed.

Lemma check_window_lengths_uniform (idxs : idx_windows) (L tol : Z) :
  (2 <= List.length idxs)%nat ->
  Forall (fun w : Z * Z => (snd w - fst w)%Z = L) idxs ->
  _check_window_lengths idxs tol = Ok idxs.
Proof.
  intros Hlen HL. unfold _check_window_lengths.
  destruct idxs as [|w1 [|w2 ws]]; cbn [List.length] in Hlen; [lia|lia|].
  cbn [rbind Ok Raise].
  assert (Hc : np_allclose_scalar
                 (map inject_Z
                    (map (fun w : Z * Z => (snd w - fst w)%Z) (w1 :: w2 :: ws)))
                 (inject_Z
                    (hd 0%Z
                       (map (fun w : Z * Z => (snd w - fst w)%Z)
                          (w1 :: w2 :: ws)))) = true).
  { unfold np_allclose_scalar. apply forallb_forall. intros x Hx.
    apply in_map_iff in Hx as [l [<- Hl]].
    apply in_map_iff in Hl as [w [<- Hw]].
    rewrite List.Forall_forall in HL.
    cbn [map hd]. rewrite (HL w Hw), (HL w1) by now left.
    apply np_isclose_refl. }
  now rewrite Hc.
Qed.

(** Trials whose rounded limits lie inside the data and all span the same
    number of samples are cut out as they stand. *)
Lemma cut_trials_spike_bool_uniform {A : Type} (data : list A)
    (rows : windows) (r : Q) (L : Z) :
  (2 <= List.length rows)%nat ->
  Forall (idx_in_range (List.length data)) (trial_sample_idxs r rows) ->
  Forall (fun w : Z * Z => (snd w - fst w)%Z = L) (trial_sample_idxs r rows) ->
  (-1 <= L)%Z ->
  cut_trials_spike_bool data (windows_array rows) (Some r)
  = Ok (mk_cut [Z.to_nat (L + 1); List.length rows]
          (map (fun w : Z * Z => py_slice data (fst w) (snd w + 1)%Z)
               (trial_sample_idxs r rows))).
Proof.
  intros Hlen Hin HL HL1. open_cut_trials_spike_bool r rows.
  set (idxs := trial_sample_idxs r rows) in *.
  assert (Hlen' : (2 <= List.length idxs)%nat).
  { subst idxs. unfold trial_sample_idxs. now rewrite length_map. }
  pose proof (proj1 (in_range_all_idxs _ _) Hin) as [Hmin Hmax].
  set (all := flat_map (fun w : Z * Z => [fst w; snd w]) idxs) in *.
  destruct all as [|i0 all'] eqn:Eall.
  { subst all. destruct idxs; [cbn in Hlen'; lia|discriminate]. }
  cbn [rbind Ok Raise hd]. rewrite <- Eall.
  assert (E1 : (0 <=? list_min i0 all)%Z = true).
  { apply Z.leb_le, list_min_lower. split; [now inversion Hmin|].
    rewrite Eall. exact Hmin. }
  assert (E2 : (list_max i0 all <? Z.of_nat (List.length data))%Z = true).
  { apply Z.ltb_lt, list_max_upper. split; [now inversion Hmax|].
    rewrite Eall. exact Hmax. }
  rewrite E1, E2. cbn [py_assert rbind Ok Raise].
  rewrite (check_window_lengths_uniform idxs L 1 Hlen' HL).
  cbn [rbind Ok Raise].
  assert (Hfirst : (snd (hd (0, 0)%Z idxs) - fst (hd (0, 0)%Z idxs))%Z = L).
  { destruct idxs as [|w ws]; [cbn in Hlen'; lia|]. now inversion HL. }
  replace (snd (hd (0, 0)%Z idxs) - fst (hd (0, 0)%Z idxs) + 1)%Z
    with (L + 1)%Z by lia.
  destruct (Z.ltb_spec (L + 1) 0); [lia|]. cbn [rbind Ok Raise].
  rewrite (map_result_all_ok _
             (fun w : Z * Z => py_slice data (fst w) (snd w + 1)%Z)).
  - cbn [rbind Ok Raise]. reflexivity.
  - intros w Hw. unfold assign_segment.
    rewrite List.Forall_forall in HL, Hin.
    specialize (HL w Hw). specialize (Hin w Hw). destruct Hin as [Hs He].
    rewrite py_slice_length by lia.
    replace (snd w + 1 - fst w)%Z with (L + 1)%Z by lia.
    now rewrite Nat.eqb_refl.
Qed.

Lemma cut_trials_bool_dispatch (b : list bool) (trial_lims : ndarray)
    (smp_rate : option Q) :
  cut_trials (BoolVec b) trial_lims smp_rate
  = rbind (cut_trials_spike_bool b trial_lims smp_rate)
          (fun c => Ok (CutBool c)).
Proof. reflexivity. Qed.

(** C3 (amended): on boolean data of 1000 samples at 1000 Hz, [cut_trials]
    raises a range error exactly when some trial limit rounds to a sample
    index outside 0..999.  The limits [[0,0.5],[0.5,1.0]] are rejected in
    this way, since the end 1.0 s is sample 1000; the limits
    [[0,0.499],[0.5,0.999]] give an array with a time axis of 500 samples
    and a trailing trial axis of length 2. *)
Theorem cut_trials_bool_1000_samples (b : list bool) :
  List.length b = 1000%nat ->
  (forall rows : windows,
     rows <> [] ->
     (exists e, cut_trials (BoolVec b) (windows_array rows) (Some 1000)
                = Raise e /\ range_error e)
     <-> ~ Forall (idx_in_range 1000) (trial_sample_idxs 1000 rows))
  /\ cut_trials (BoolVec b) (windows_array [(0, 1 # 2); (1 # 2, 1)])
       (Some 1000) = Raise err_beyond_end
  /\ cut_trials (BoolVec b)
       (windows_array [(0, 499 # 1000); (1 # 2, 999 # 1000)]) (Some 1000)
     = Ok (CutBool (mk_cut [500%nat; 2%nat] [firstn 500 b; skipn 500 b])).
Proof.
  intros Hlen. split; [|split].
  - intros rows Hne. rewrite cut_trials_bool_dispatch, <- Hlen.
    rewrite <- cut_trials_spike_bool_range_error by exact Hne.
    split; intros [e [He Hr]].
    + destruct (cut_trials_spike_bool b (windows_array rows) (Some 1000))
        as [e'|c]; cbn [rbind Ok Raise] in He; [|discriminate].
      injection He as <-. now exists e'.
    + exists e. rewrite He. now split.
  - rewrite cut_trials_bool_dispatch.
    pose proof (proj2 (cut_trials_spike_bool_range_error b
                         [(0, 1 # 2); (1 # 2, 1)] 1000 ltac:(discriminate)))
      as H.
    destruct H as [e [He Hr]].
    { rewrite Hlen. intros HF.
      inversion HF as [|? ? _ HF']; subst. inversion HF' as [|? ? Hw _]; subst.
      destruct Hw as [_ Hw]. vm_compute in Hw. destruct Hw as [_ Hw].
      discriminate Hw. }
    rewrite He. cbn [rbind Raise]. revert He.
    open_cut_trials_spike_bool 1000 [(0, 1 # 2); (1 # 2, 1)].
    rewrite Hlen. vm_compute. intros He. injection He as <-. reflexivity.
  - rewrite cut_trials_bool_dispatch.
    rewrite (cut_trials_spike_bool_uniform b _ 1000 499).
    + cbn [rbind Ok]. do 3 f_equal.
      change (trial_sample_idxs 1000 [(0, 499 # 1000); (1 # 2, 999 # 1000)])
        with [(0, 499)%Z; (500, 999)%Z].
      cbn [map fst snd]. unfold py_slice, clip_index. rewrite Hlen.
      change (firstn 500 (skipn 0 b) :: [firstn 500 (skipn 500 b)]
              = [firstn 500 b; skipn 500 b]).
      f_equal. f_equal. apply firstn_all2. rewrite length_skipn. lia.
    + cbn. lia.
    + rewrite Hlen. repeat constructor; vm_compute; congruence.
    + repeat constructor.
    + lia.
Qed.

Lemma cut_trials_bool_1000_samples_witness :
  List.length (repeat false 1000) = 1000%nat
  /\ cut_trials (BoolVec (repeat false 1000))
       (windows_array [(0, 499 # 1000); (1 # 2, 999 # 1000)]) (Some 1000)
     = Ok (CutBool (mk_cut [500%nat; 2%nat]
             [firstn 500 (repeat false 1000); skipn 500 (repeat false 1000)])).
Proof.
  split; [reflexivity|].
  exact (proj2 (proj2 (cut_trials_bool_1000_samples (repeat false 1000) eq_refl))).
Defined.

(** C3 as stated fails: on 1000 samples at 1000 Hz the trial limits
    [[0,0.5],[0.5,1.0]] give no array; the end 1.0 s rounds to sample 1000,
    which the bounds check refuses. *)
Lemma cut_trials_stated_limits_raise :
  cut_trials (BoolVec (repeat false 1000))
    (windows_array [(0, 1 # 2); (1 # 2, 1)]) (Some 1000)
  = Raise err_beyond_end
  /\ ~ (exists c, cut_trials (BoolVec (repeat false 1000))
                    (windows_array [(0, 1 # 2); (1 # 2, 1)]) (Some 1000)
                  = Ok c).
Proof.
  assert (H : cut_trials (BoolVec (repeat false 1000))
                (windows_array [(0, 1 # 2); (1 # 2, 1)]) (Some 1000)
              = Raise err_beyond_end) by (vm_compute; reflexivity).
  split; [exact H|]. intros [c Hc]. rewrite H in Hc. discriminate Hc.
Qed.

(** ** Realignment writes into the caller's collection *)

Lemma read_train_Some (h : heap) (c : loc) (v : list Q) :
  read_train h c = Some v <-> h !! c = Some (FloatArr v).
Proof.
  unfold read_train. destruct (h !! c) as [[w|cells]|]; split; congruence.
Qed.

Lemma fresh_not_allocated (h : heap) : h !! fresh (dom h) = None.
Proof. apply not_elem_of_dom, is_fresh. Qed.

(** One trial: the cell is rebound to a new array holding the shifted
    timestamps; every array that existed before is left as it was. *)
Lemma realign_trial_spec (h : heap) (st : loc) (cells : list loc)
    (trains : list (list Q)) (k : nat) (tr : list Q) (a : Q) :
  h !! st = Some (ObjArray cells) ->
  read_cells h cells = Some trains ->
  trains !! k = Some tr ->
  exists (h1 : heap) (cells1 : list loc),
    realign_trial h st k a = Ok h1
    /\ h1 !! st = Some (ObjArray cells1)
    /\ read_cells h1 cells1 = Some (<[k := map (fun x => x - a) tr]> trains)
    /\ (forall l, l <> st -> is_Some (h !! l) -> h1 !! l = h !! l).
Proof.
  intros Hst Hread Hk. unfold read_cells in *.
  apply mapM_Some in Hread.
  destruct (Forall2_lookup_r _ _ _ _ _ Hread Hk) as [c [Hc Hrc]].
  apply read_train_Some in Hrc.
  set (c' := fresh (dom h)).
  pose proof (fresh_not_allocated h) as Hfresh. fold c' in Hfresh.
  assert (Hc'st : c' <> st) by (intros ->; congruence).
  exists (<[st := ObjArray (<[k := c']> cells)]>
            (<[c' := FloatArr (map (fun x => x - a) tr)]> h)),
         (<[k := c']> cells).
  split; [|split; [|split]].
  - unfold realign_trial. rewrite Hst, Hc, Hrc. reflexivity.
  - apply lookup_insert_eq.
  - apply mapM_Some. apply Forall2_insert.
    + eapply Forall2_impl; [exact Hread|].
      intros l v Hl. apply read_train_Some in Hl. apply read_train_Some.
      rewrite lookup_insert_ne by (intros ->; congruence).
      rewrite lookup_insert_ne by (intros <-; congruence).
      exact Hl.
    + apply read_train_Some.
      rewrite lookup_insert_ne by congruence. apply lookup_insert_eq.
  - intros l Hl [o Ho].
    rewrite lookup_insert_ne by congruence.
    rewrite lookup_insert_ne by (intros <-; congruence).
    reflexivity.
Qed.

Lemma shift_trains_step (trains : list (list Q)) (k : nat) (tr : list Q)
    (a : Q) (rest : list Q) :
  trains !! k = Some tr ->
  take (S k) (<[k := map (fun x => x - a) tr]> trains)
  ++ shift_trains (drop (S k) (<[k := map (fun x => x - a) tr]> trains)) rest
  = take k trains ++ shift_trains (drop k trains) (a :: rest).
Proof.
  intros Hk. pose proof (lookup_lt_Some _ _ _ Hk) as Hlt.
  rewrite (take_S_r _ k (map (fun x => x - a) tr))
    by (now apply list_lookup_insert_eq).
  rewrite take_insert_ge by lia. rewrite drop_insert_lt by lia.
  rewrite (drop_S _ _ _ Hk). cbn [shift_trains].
  now rewrite <- app_assoc.
Qed.

Lemma realign_loop_spec (align : list Q) :
  forall (h : heap) (st : loc) (cells : list loc) (trains : list (list Q))
         (k : nat),
    h !! st = Some (ObjArray cells) ->
    read_cells h cells = Some trains ->
    (k + List.length align <= List.length trains)%nat ->
    exists (h' : heap) (cells' : list loc),
      realign_loop h st k align = (h', Ok tt)
      /\ h' !! st = Some (ObjArray cells')
      /\ read_cells h' cells'
         = Some (take k trains ++ shift_trains (drop k trains) align)
      /\ (forall l, l <> st -> is_Some (h !! l) -> h' !! l = h !! l).
Proof.
  induction align as [|a rest IH]; intros h st cells trains k Hst Hread Hlen.
  - exists h, cells. cbn [realign_loop]. repeat split; try assumption.
    rewrite Hread. f_equal.
    destruct (drop k trains) eqn:E; cbn [shift_trains]; rewrite <- E;
      now rewrite take_drop.
  - cbn [List.length] in Hlen.
    destruct (lookup_lt_is_Some_2 trains k ltac:(lia)) as [tr Hk].
    destruct (realign_trial_spec h st cells trains k tr a Hst Hread Hk)
      as [h1 [cells1 [Hstep [Hst1 [Hread1 Hframe1]]]]].
    destruct (IH h1 st cells1 _ (S k) Hst1 Hread1) as
      [h' [cells' [Hloop [Hst' [Hread' Hframe']]]]].
    { rewrite length_insert. lia. }
    exists h', cells'. cbn [realign_loop]. rewrite Hstep.
    split; [exact Hloop|]. split; [exact Hst'|]. split.
    + rewrite Hread'. f_equal. now apply shift_trains_step.
    + intros l Hl Hsome. rewrite Hframe' by
        (try assumption; rewrite Hframe1 by assumption; assumption).
      now apply Hframe1.
Qed.




(** ** Regular window sets *)

Lemma np_isclose_Qeq (a b : Q) : a == b -> np_isclose a b = true.
Proof.
  intros H. unfold np_isclose. apply Qle_bool_iff.
  assert (H0 : a - b == 0) by (rewrite H; ring). rewrite H0.
  pose proof (Qabs_nonneg b) as Hb. unfold np_atol, np_rtol.
  change (Qabs 0) with 0. lra.
Qed.

Lemma hist_edges_cons (b b' : Q * Q) (rest : windows) :
  hist_edges (b :: b' :: rest) = fst b :: hist_edges (b' :: rest).
Proof. reflexivity. Qed.

Lemma regular_tail (w : Q) (b : Q * Q) (rest : windows) :
  regular w (b :: rest) -> regular w rest.
Proof.
  intros [Hw Hc]. split; [now inversion Hw|].
  destruct rest as [|b' rest]; [exact I|]. now destruct Hc.
Qed.

Lemma regular_monotonic (w : Q) (bins : windows) :
  0 <= w -> regular w bins -> monotonic (hist_edges bins) = true.
Proof.
  intros Hw. induction bins as [|b rest IH]; intros Hr; [reflexivity|].
  destruct rest as [|b' rest].
  - destruct Hr as [Hwd _]. inversion Hwd as [|? ? Hb _]; subst.
    cbn. rewrite andb_true_r. apply Qle_bool_iff. lra.
  - rewrite hist_edges_cons.
    pose proof (IH (regular_tail _ _ _ Hr)) as IH'.
    destruct Hr as [Hwd [Hc _]]. inversion Hwd as [|? ? Hb _]; subst.
    assert (Hle : Qle_bool (fst b) (fst b') = true)
      by (apply Qle_bool_iff; lra).
    destruct rest as [|b'' rest];
      cbn [hist_edges map app monotonic] in *; now rewrite Hle.
Qed.

Lemma regular_std_bins (w : Q) (bins : windows) :
  regular w bins ->
  std_bins_test bins (bin_widths bins) (hd 0 (bin_widths bins)) = true.
Proof.
  intros [Hwd Hc]. unfold std_bins_test. apply andb_true_iff. split.
  - unfold np_allclose_scalar. apply forallb_forall. intros x Hx.
    unfold bin_widths in *. apply in_map_iff in Hx as [b [<- Hb]].
    rewrite List.Forall_forall in Hwd.
    destruct bins as [|b0 rest]; [destruct Hb|]. cbn [map hd].
    apply np_isclose_Qeq. rewrite (Hwd b Hb), (Hwd b0) by now left.
    reflexivity.
  - clear Hwd. unfold np_allclose.
    induction bins as [|b rest IH]; [reflexivity|].
    destruct rest as [|b' rest]; [reflexivity|].
    destruct Hc as [Hbb' Hc].
    change (tl (b :: b' :: rest)) with (b' :: rest).
    change (removelast (b :: b' :: rest)) with (b :: removelast (b' :: rest)).
    cbn [map combine forallb fst snd].
    rewrite (np_isclose_Qeq _ _ Hbb'). cbn [andb].
    specialize (IH Hc). exact IH.
Qed.

Lemma in_bin_Qeq_end (s e e' : Q) (t : Q) :
  e == e' -> in_bin s e t = in_bin s e' t.
Proof.
  intros H. unfold in_bin. f_equal.
  destruct (Qlt_bool t e) eqn:E1, (Qlt_bool t e') eqn:E2; try reflexivity;
    exfalso;
    repeat match goal with
    | H : Qlt_bool _ _ = true |- _ => apply Qlt_bool_iff in H
    | H : Qlt_bool _ _ = false |- _ => apply Qlt_bool_false_le in H
    end; lra.
Qed.

Lemma existsb_ext_all {A : Type} (p q : A -> bool) (l : list A) :
  (forall x, p x = q x) -> existsb p l = existsb q l.
Proof.
  intros H. induction l as [|x l IH]; [reflexivity|].
  cbn [existsb]. now rewrite H, IH.
Qed.

Lemma hist_spec_cons3 (a : list Q) (e0 e1 e2 : Q) (rest : list Q) :
  hist_spec a (e0 :: e1 :: e2 :: rest)
  = count_if (in_bin e0 e1) a :: hist_spec a (e1 :: e2 :: rest).
Proof. reflexivity. Qed.

Lemma bin_marks_cons2 (train : list Q) (b b' : Q * Q) (rest : windows) :
  bin_marks train (b :: b' :: rest)
  = existsb (in_bin (fst b) (snd b)) train :: bin_marks train (b' :: rest).
Proof. reflexivity. Qed.

(** On a regular WindowSet the histogram marks a bin exactly when a spike
    lies in [[start, end)], or in [[start, end]] for the last bin. *)
Lemma hist_spec_marks (w : Q) (train : list Q) (bins : windows) :
  regular w bins -> bins <> [] ->
  map (fun c : Z => negb (c =? 0)%Z) (hist_spec train (hist_edges bins))
  = bin_marks train bins.
Proof.
  induction bins as [|b rest IH]; intros Hr Hne; [congruence|].
  destruct rest as [|b' rest].
  - cbn. now rewrite count_if_pos_existsb.
  - rewrite hist_edges_cons.
    pose proof (IH (regular_tail _ _ _ Hr) ltac:(discriminate)) as IH'.
    destruct Hr as [_ [Hc _]].
    assert (He : hist_edges (b' :: rest)
                 = fst b' :: List.tl (hist_edges (b' :: rest)))
      by reflexivity.
    assert (Hne' : List.tl (hist_edges (b' :: rest)) <> []).
    { destruct rest; discriminate. }
    rewrite He in *.
    destruct (List.tl (hist_edges (b' :: rest))) as [|e2 es] eqn:Et;
      [congruence|].
    rewrite hist_spec_cons3, bin_marks_cons2. cbn [map]. rewrite IH'. f_equal.
    rewrite count_if_pos_existsb. apply existsb_ext_all.
    intros t. now apply in_bin_Qeq_end.
Qed.

Lemma hist_spec_length (a : list Q) (edges : list Q) :
  List.length (hist_spec a edges) = (List.length edges - 1)%nat.
Proof.
  induction edges as [|e0 tl IH]; [reflexivity|].
  destruct tl as [|e1 rest]; [reflexivity|].
  destruct rest as [|e2 rest']; [reflexivity|].
  cbn [hist_spec List.length] in *. lia.
Qed.

Lemma hist_edges_length (bins : windows) :
  List.length (hist_edges bins) = S (List.length bins).
Proof. unfold hist_edges. rewrite length_app, length_map. cbn. lia. Qed.

Lemma bin_marks_length (train : list Q) (bins : windows) :
  List.length (bin_marks train bins) = List.length bins.
Proof.
  induction bins as [|b rest IH]; [reflexivity|].
  destruct rest as [|b' rest]; [reflexivity|].
  cbn [bin_marks List.length] in *. lia.
Qed.

Lemma astype_true_divide (c : Z) (wd : Q) :
  ~ wd == 0 -> astype_bool (true_divide c wd) = negb (c =? 0)%Z.
Proof.
  intros Hwd. unfold true_divide.
  destruct (Qeq_bool wd 0) eqn:E; [apply Qeq_bool_iff in E; contradiction|].
  cbn [astype_bool]. f_equal.
  destruct (Z.eqb_spec c 0) as [->|Hc].
  - apply Qeq_bool_iff. unfold Qdiv. ring.
  - apply not_true_is_false. intros H. apply Qeq_bool_iff in H.
    assert (Hq : inject_Z c == 0).
    { assert (Hm : inject_Z c == inject_Z c / wd * wd)
        by (field; exact Hwd).
      rewrite Hm, H. ring. }
    apply Hc. unfold Qeq in Hq. cbn in Hq. lia.
Qed.

Lemma rates_astype_bool (counts : list Z) (widths : list Q) :
  List.length counts = List.length widths ->
  Forall (fun wd => ~ wd == 0) widths ->
  map astype_bool
      (map (fun p : Z * Q => true_divide (fst p) (snd p))
           (combine counts widths))
  = map (fun c : Z => negb (c =? 0)%Z) counts.
Proof.
  revert widths. induction counts as [|c counts IH]; intros widths Hl Hw;
    [reflexivity|].
  destruct widths as [|wd widths]; [discriminate|].
  inversion Hw; subst. cbn [combine map fst snd].
  rewrite astype_true_divide by assumption. f_equal.
  apply IH; [cbn in Hl; lia|assumption].
Qed.

Lemma mask_select_map {A : Type} (f : A -> Q) (marks : list bool)
    (xs : list A) :
  mask_select (map f xs) marks
  = map f (map snd (List.filter fst (combine marks xs))).
Proof.
  revert marks. induction xs as [|x xs IH]; intros marks.
  - destruct marks; reflexivity.
  - destruct marks as [|m marks]; [reflexivity|].
    cbn [map mask_select combine List.filter fst snd].
    destruct m; cbn [map snd]; now rewrite IH.
Qed.

Lemma combine_map_self {A B : Type} (f : A -> B) (l : list A) :
  combine l (map f l) = map (fun x => (x, f x)) l.
Proof. induction l as [|x l IH]; [reflexivity|]. cbn. now rewrite IH. Qed.

Lemma Qeq_bool_false (a b : Q) : ~ a == b -> Qeq_bool a b = false.
Proof.
  intros H. destruct (Qeq_bool a b) eqn:E; [|reflexivity].
  apply Qeq_bool_iff in E. contradiction.
Qed.

(** Without a reference, windows of width [w] start at [lims[0]] and follow
    one another for as long as they fit. *)
Lemma setup_sliding_windows_regular (lims : Q * Q) (w : Q)
    (step : option pynum) :
  ~ w == 0 -> step = None \/ step = Some (PyFloat w) ->
  setup_sliding_windows (PyFloat w) lims step None false None
  = Ok (regular_bins lims w).
Proof.
  intros Hw Hstep. unfold setup_sliding_windows.
  assert (Hs : match step with None => PyFloat w | Some s => s end = PyFloat w)
    by (destruct Hstep as [-> | ->]; reflexivity).
  rewrite Hs. cbn [_iarange isinstance_int num]. unfold np_arange.
  rewrite (Qeq_bool_false _ _ Hw). cbn [rbind Ok Raise].
  rewrite combine_map_self. reflexivity.
Qed.

Lemma regular_bins_length (lims : Q * Q) (w : Q) :
  List.length (regular_bins lims w) = n_windows lims w.
Proof. unfold regular_bins. now rewrite !length_map, length_seq. Qed.

Lemma inject_Z_of_nat_succ (k : nat) :
  inject_Z (Z.of_nat (S k)) == inject_Z (Z.of_nat k) + 1.
Proof. rewrite Nat2Z.inj_succ. unfold Z.succ. now rewrite inject_Z_plus. Qed.

Lemma regular_bins_regular (lims : Q * Q) (w : Q) :
  regular w (regular_bins lims w).
Proof.
  unfold regular_bins. generalize (n_windows lims w) as n.
  generalize 0%nat as k. intros k n. revert k.
  induction n as [|n IH]; intros k; [split; [constructor|exact I]|].
  destruct (IH (S k)) as [Hw Hc]. split.
  - cbn [seq map]. constructor; [cbn [fst snd]; ring|exact Hw].
  - cbn [seq map]. destruct n as [|n]; [exact I|].
    cbn [seq map contiguous fst snd] in *. split; [|exact Hc].
    rewrite inject_Z_of_nat_succ. ring.
Qed.

(** ** Binning non-boolean data in a regular WindowSet *)

Lemma spike_data_type_nonbinary (data : spike_data) :
  _isbinary data = false ->
  exists s, _spike_data_type data = Ok s /\ String.eqb s "bool" = false.
Proof.
  intros Hb. destruct data as [dt v|b|trains].
  - exists "rate"%string. split; [|reflexivity].
    now apply spike_data_type_nonbinary_vector.
  - discriminate.
  - exists "timestamp"%string. split; reflexivity.
Qed.

Lemma bin_rate_timestamps_nonbinary (data : spike_data) (axis : Z)
    (t : option (list Q)) :
  _isbinary data = false ->
  bin_rate_timestamps data axis t = Ok (false, axis, data).
Proof.
  intros Hb. destruct (spike_data_type_nonbinary data Hb) as [s [Hs Hn]].
  unfold bin_rate_timestamps. rewrite Hs. cbn [rbind Ok]. now rewrite Hn.
Qed.

Lemma regular_widths_nonzero (w : Q) (bins : windows) :
  0 < w -> regular w bins -> Forall (fun wd => ~ wd == 0) (bin_widths bins).
Proof.
  intros Hw [Hwd _]. unfold bin_widths. apply Forall_map.
  eapply List.Forall_impl; [|exact Hwd]. cbn. intros b Hb. rewrite Hb. lra.
Qed.

Lemma bin_rate_regular (data : spike_data) (lims : option (Q * Q))
    (width : pynum) (step : option pynum) (axis : Z) (t : option (list Q))
    (w : Q) (bins : windows) :
  _isbinary data = false -> 0 < w -> regular w bins ->
  (2 <= List.length bins)%nat ->
  bin_rate data lims width step (Some (windows_array bins)) false axis t
  = Ok (Rates
          (squeeze0 (single_train_of data)
             (map (fun train =>
                     map (fun p : Z * Q => true_divide (fst p) (snd p))
                         (combine (hist_spec train (hist_edges bins))
                                  (bin_widths bins)))
                  (_enclose_cells data)) []),
        windows_array bins).
Proof.
  intros Hb Hw Hr Hlen. unfold bin_rate.
  rewrite (bin_rate_timestamps_nonbinary data axis t Hb).
  cbn [rbind Ok Raise fst snd].
  change (py_assert _ _) with (@Ok unit tt). cbn [rbind Ok].
  rewrite bin_rows_windows_array.
  change (nth 0 (shape (windows_array bins)) 0%nat) with (List.length bins).
  destruct (Nat.ltb_spec (List.length bins) 2) as [Hlt|_]; [lia|].
  cbn [rbind Ok]. rewrite (regular_std_bins w bins Hr).
  rewrite (map_result_all_ok _
             (fun train => hist_spec train (hist_edges bins))).
  - cbn [rbind Ok andb]. now rewrite map_map.
  - intros train _. unfold count_spikes, _histogram_count.
    apply np_histogram_spec. apply (regular_monotonic w); [lra|exact Hr].
Qed.

Lemma batch_map_squeeze0 {A B : Type} (f : A -> B) (single : bool)
    (rows : list A) (d : A) :
  batch_map f (squeeze0 single rows d) = squeeze0 single (map f rows) (f d).
Proof. unfold squeeze0. destruct single; [destruct rows|]; reflexivity. Qed.

(** On a regular WindowSet [times_to_bool] marks, for each train, the bins
    that hold one of its spikes, and returns the bin centers. *)
Lemma times_to_bool_regular (data : spike_data) (lims : option (Q * Q))
    (width : pynum) (w : Q) (bins : windows) :
  _isbinary data = false -> 0 < w -> regular w bins ->
  (2 <= List.length bins)%nat ->
  times_to_bool data lims width (Some (windows_array bins))
  = Ok (squeeze0 (single_train_of data)
          (map (fun train => bin_marks train bins) (_enclose_cells data)) [],
        map bin_center bins).
Proof.
  intros Hb Hw Hr Hlen. unfold times_to_bool. cbn [rbind Ok Raise].
  change (ndim (windows_array bins) <? 2)%nat with false. cbn [rbind Ok].
  rewrite (bin_rate_regular data None _ None (-1)%Z None w bins Hb Hw Hr Hlen).
  cbn [rbind Ok fst snd]. rewrite rows2_flat_windows.
  rewrite batch_map_squeeze0, map_map. cbn [map].
  rewrite (map_ext _ (fun train => bin_marks train bins)); [reflexivity|].
  intros train.
  rewrite rates_astype_bool.
  - apply (hist_spec_marks w); [exact Hr|]. destruct bins; [cbn in Hlen; lia|discriminate].
  - rewrite hist_spec_length, hist_edges_length. unfold bin_widths.
    rewrite length_map. lia.
  - now apply (regular_widths_nonzero w).
Qed.

(** ** The round trip through a boolean train *)

Lemma times_to_bool_generated_bins (data : spike_data) (lims : Q * Q) (w : Q) :
  ~ w == 0 ->
  times_to_bool data (Some lims) (PyFloat w) None
  = times_to_bool data (Some lims) (PyFloat w)
      (Some (windows_array (regular_bins (effective_lims lims w) w))).
Proof.
  intros Hw. unfold times_to_bool. cbn [num].
  fold (effective_lims lims w).
  rewrite (setup_sliding_windows_regular _ w (Some (PyFloat w)) Hw)
    by (now right).
  reflexivity.
Qed.

Lemma round_trip_value (train : list Q) (lims : Q * Q) (w : Q) :
  0 < w -> _isbinary (NumVec d_float train) = false ->
  (2 <= n_windows (effective_lims lims w) w)%nat ->
  round_trip train lims w
  = Ok (map bin_center
          (marked_bins train (regular_bins (effective_lims lims w) w))).
Proof.
  intros Hw Hb Hn. unfold round_trip.
  rewrite times_to_bool_generated_bins by lra.
  set (bins := regular_bins (effective_lims lims w) w).
  rewrite (times_to_bool_regular _ _ _ w bins Hb Hw).
  - cbn [rbind Ok fst snd single_train_of _enclose_cells map squeeze0 hd
         bool_to_times].
    unfold index_bool.
    rewrite bin_marks_length, length_map, Nat.eqb_refl.
    unfold marked_bins. now rewrite mask_select_map.
  - apply regular_bins_regular.
  - subst bins. now rewrite regular_bins_length.
Qed.

Lemma existsb_impl {A : Type} (p q : A -> bool) (l : list A) :
  (forall x, p x = true -> q x = true) ->
  existsb p l = true -> existsb q l = true.
Proof.
  intros H Hp. apply existsb_exists in Hp as [x [Hx Hpx]].
  apply existsb_exists. exists x. split; [exact Hx|now apply H].
Qed.

Lemma in_bin_in_closed (s e t : Q) :
  in_bin s e t = true -> in_closed s e t = true.
Proof.
  unfold in_bin, in_closed. rewrite !andb_true_iff, !Qle_bool_iff, Qlt_bool_iff.
  intros [H1 H2]. split; [exact H1|lra].
Qed.

Lemma marked_bins_In (train : list Q) (bins : windows) (b : Q * Q) :
  In b bins -> existsb (in_bin (fst b) (snd b)) train = true ->
  In b (marked_bins train bins).
Proof.
  unfold marked_bins. induction bins as [|b0 rest IH]; intros Hin Hm;
    [destruct Hin|].
  destruct rest as [|b1 rest].
  - cbn [In] in Hin. destruct Hin as [->|[]].
    cbn [bin_marks combine List.filter fst].
    rewrite (existsb_impl _ (in_closed (fst b) (snd b)) _
               (in_bin_in_closed _ _) Hm).
    now left.
  - rewrite bin_marks_cons2. cbn [combine List.filter fst].
    destruct Hin as [->|Hin].
    + rewrite Hm. now left.
    + destruct (existsb (in_bin (fst b0) (snd b0)) train);
        cbn [map snd In]; [right|]; now apply IH.
Qed.

Lemma spike_near_center (s e w t : Q) :
  e - s == w -> s <= t -> t < e -> Qabs (t - (s + e) / 2) <= w / 2.
Proof.
  intros Hw Hs He. apply Qabs_Qle_condition.
  unfold Qdiv. change (/ 2) with (1 # 2). split; lra.
Qed.

Lemma regular_after_first (w : Q) (b : Q * Q) (rest : windows) :
  0 < w -> regular w (b :: rest) ->
  Forall (fun y : Q * Q => snd b <= fst y) rest.
Proof.
  intros Hw. revert b. induction rest as [|b' rest IH]; intros b Hr;
    [constructor|].
  pose proof (IH b' (regular_tail _ _ _ Hr)) as IH'.
  destruct Hr as [Hwd [Hc _]].
  inversion Hwd as [|? ? Hb Hwd']; subst.
  inversion Hwd' as [|? ? Hb' _]; subst.
  constructor; [lra|].
  eapply List.Forall_impl; [|exact IH']. cbn. intros y Hy. lra.
Qed.

Lemma regular_sorted (w : Q) (bins : windows) :
  0 < w -> regular w bins -> StronglySorted bin_before bins.
Proof.
  intros Hw. induction bins as [|b rest IH]; intros Hr; [constructor|].
  constructor; [apply IH; now apply (regular_tail w b)|].
  pose proof (regular_after_first w b rest Hw Hr) as Hafter.
  destruct Hr as [Hwd _]. inversion Hwd as [|? ? Hb Hwd']; subst.
  rewrite List.Forall_forall in *. intros y Hy. unfold bin_before.
  specialize (Hafter y Hy). specialize (Hwd' y Hy). cbn in Hwd'.
  repeat split; lra.
Qed.

Lemma marked_subset {A : Type} (marks : list bool) (xs : list A) (x : A) :
  In x (map snd (List.filter fst (combine marks xs))) -> In x xs.
Proof.
  intros H. apply in_map_iff in H as [[m y] [<- Hy]].
  apply filter_In in Hy as [Hy _]. now apply in_combine_r in Hy.
Qed.

Lemma marked_sorted {A : Type} (R : A -> A -> Prop) (marks : list bool)
    (xs : list A) :
  StronglySorted R xs ->
  StronglySorted R (map snd (List.filter fst (combine marks xs))).
Proof.
  revert marks. induction xs as [|x xs IH]; intros marks Hs.
  - destruct marks; constructor.
  - destruct marks as [|m marks]; [constructor|].
    inversion Hs as [|? ? Hs' Hall]; subst.
    cbn [combine List.filter fst]. destruct m; cbn [map snd]; [|now apply IH].
    constructor; [now apply IH|].
    rewrite List.Forall_forall in *. intros y Hy. apply Hall.
    now apply marked_subset in Hy.
Qed.

Lemma centers_sorted (bins : windows) :
  StronglySorted bin_before bins ->
  StronglySorted Qlt (map bin_center bins).
Proof.
  induction 1 as [|b rest Hs IH Hall]; [constructor|].
  cbn [map]. constructor; [exact IH|].
  apply Forall_map. eapply List.Forall_impl; [|exact Hall].
  intros y [H1 [H2 H3]]. unfold bin_center, Qdiv.
  change (/ 2) with (1 # 2). lra.
Qed.




(** ** Spike density of trains without spikes *)

Lemma existsb_false_forall {A : Type} (p : A -> bool) (l : list A) :
  existsb p l = false <-> Forall (fun x => p x = false) l.
Proof.
  induction l as [|x l IH]; cbn [existsb].
  - split; [constructor|reflexivity].
  - rewrite orb_false_iff, IH. split.
    + intros [H1 H2]. now constructor.
    + intros H. now inversion H.
Qed.

Lemma In_firstn {A : Type} (n : nat) (l : list A) (x : A) :
  In x (firstn n l) -> In x l.
Proof.
  revert l. induction n as [|n IH]; intros [|y l]; cbn; try tauto.
  intros [H|H]; [now left|right; now apply IH].
Qed.

Lemma In_skipn {A : Type} (n : nat) (l : list A) (x : A) :
  In x (skipn n l) -> In x l.
Proof.
  revert l. induction n as [|n IH]; intros [|y l]; cbn; try tauto.
  intros H. right. now apply IH.
Qed.

Lemma py_slice_subset {A : Type} (l : list A) (a b : Z) (x : A) :
  In x (py_slice l a b) -> In x l.
Proof.
  unfold py_slice. intros H.
  apply In_firstn in H. now apply In_skipn in H.
Qed.

Lemma remove_buffer_no_spike (d : list Q) (n : Z) :
  existsb nonzero d = false -> existsb nonzero (_remove_buffer d n) = false.
Proof.
  rewrite !existsb_false_forall, !List.Forall_forall.
  intros H x Hx. apply H. unfold _remove_buffer in Hx.
  now apply py_slice_subset in Hx.
Qed.

Lemma py_stride_ok {A : Type} (l : list A) (step : Z) :
  step <> 0%Z -> exists l', py_stride l step = Ok l'.
Proof.
  intros H. unfold py_stride.
  destruct (Z.eqb_spec step 0); [contradiction|].
  destruct (step <? 0)%Z; eexists; reflexivity.
Qed.

Lemma map_result_total {A B : Type} (f : A -> result B) (l : list A) :
  (forall x, exists y, f x = Ok y) ->
  exists ys, map_result f l = Ok ys /\ List.length ys = List.length l.
Proof.
  intros Hf. induction l as [|x l [ys [IH Hl]]].
  - exists []. split; reflexivity.
  - destruct (Hf x) as [y Hy]. exists (y :: ys).
    cbn [map_result]. rewrite Hy. cbn [rbind Ok]. rewrite IH.
    split; [reflexivity|cbn; lia].
Qed.

Section DensityFacts.

Context (V : Type) (vzero : V).

Lemma zero_row_no_spike (d : list Q) (r : list V) :
  existsb nonzero d = false ->
  Forall (fun x => x = vzero) (zero_row V vzero d r).
Proof.
  intros H. unfold zero_row. rewrite H. cbn [negb].
  apply Forall_map. apply List.Forall_forall. reflexivity.
Qed.

Lemma zero_no_spike_all_zero (data : batch (list Q)) (rates : batch (list V)) :
  same_shape data rates ->
  Forall (fun d => existsb nonzero d = false) (batch_rows data) ->
  exists r, zero_no_spike V vzero data rates = Ok r
            /\ all_zero vzero r /\ same_shape data r.
Proof.
  intros Hs Hd. destruct data as [d|ds], rates as [r|rs]; cbn in Hs;
    try contradiction.
  - exists (One (zero_row V vzero d r)). split; [reflexivity|].
    split; [|exact I]. unfold all_zero. cbn [batch_rows].
    constructor; [|constructor]. apply zero_row_no_spike.
    now inversion Hd.
  - cbn [zero_no_spike]. rewrite Hs, Nat.eqb_refl.
    eexists. split; [reflexivity|]. split.
    + unfold all_zero. cbn [batch_rows] in *.
      apply Forall_map. apply List.Forall_forall. intros [d r] Hin.
      cbn [fst snd]. apply zero_row_no_spike.
      rewrite List.Forall_forall in Hd. apply Hd.
      now apply in_combine_l in Hin.
    + cbn. rewrite length_map, length_combine. lia.
Qed.

Lemma finish_density_zero (with_buffer : bool) (n_buffer downsmp : Z)
    (data : batch (list Q)) (rates : batch (list V)) (t : list Q) :
  same_shape data rates -> downsmp <> 0%Z ->
  Forall (fun d => existsb nonzero d = false) (batch_rows data) ->
  exists r t',
    finish_density V vzero with_buffer n_buffer downsmp data rates t
    = Ok (r, t')
    /\ all_zero vzero r /\ same_shape data r.
Proof.
  intros Hs Hds Hd. unfold finish_density.
  set (data' := if with_buffer
                then batch_map (fun d => _remove_buffer d n_buffer) data
                else data).
  set (rates' := if with_buffer
                 then batch_map (fun r => _remove_buffer r n_buffer) rates
                 else rates).
  set (t1 := if with_buffer then _remove_buffer t n_buffer else t).
  assert (Hs' : same_shape data' rates').
  { subst data' rates'. destruct with_buffer; [|exact Hs].
    destruct data, rates; cbn in *; try contradiction; [exact I|].
    now rewrite !length_map. }
  assert (Hd' : Forall (fun d => existsb nonzero d = false)
                  (batch_rows data')).
  { subst data'. destruct with_buffer; [|exact Hd].
    destruct data as [d|ds]; cbn [batch_map batch_rows] in *.
    - constructor; [|constructor]. apply remove_buffer_no_spike.
      now inversion Hd.
    - apply Forall_map. eapply List.Forall_impl; [|exact Hd].
      intros d. apply remove_buffer_no_spike. }
  assert (Hdd : same_shape data data').
  { subst data'. destruct with_buffer, data; cbn; try exact I;
      try reflexivity. now rewrite length_map. }
  assert (Hrt : exists r2 t2,
             (if negb (downsmp =? 1)%Z then
                do r <~ batch_map_result (fun r => py_stride r downsmp) rates';
                do t' <~ py_stride t1 downsmp;
                Ok (r, t')
              else Ok (rates', t1)) = Ok (r2, t2)
             /\ same_shape data' r2).
  { destruct (negb (downsmp =? 1)%Z).
    - destruct (py_stride_ok t1 downsmp Hds) as [t2 Ht2].
      destruct rates' as [r|rs]; cbn [batch_map_result].
      + destruct (py_stride_ok r downsmp Hds) as [r2 Hr2].
        rewrite Hr2. cbn [rbind Ok]. rewrite Ht2. cbn [rbind Ok].
        exists (One r2), t2. split; [reflexivity|].
        destruct data'; [exact I|contradiction].
      + destruct (map_result_total (fun r => py_stride r downsmp) rs
                    (fun r => py_stride_ok r downsmp Hds))
          as [rs2 [Hrs2 Hl]].
        rewrite Hrs2. cbn [rbind Ok]. rewrite Ht2. cbn [rbind Ok].
        exists (Many rs2), t2. split; [reflexivity|].
        destruct data'; [contradiction|]. cbn in *. lia.
    - exists rates', t1. split; [reflexivity|exact Hs']. }
  destruct Hrt as [r2 [t2 [Hrt Hs2]]]. rewrite Hrt. cbn [rbind Ok fst snd].
  destruct (zero_no_spike_all_zero data' r2 Hs2 Hd') as [r [Hr [Hz Hsr]]].
  rewrite Hr. cbn [rbind Ok]. exists r, t2.
  split; [reflexivity|]. split; [exact Hz|].
  destruct data, data', r; cbn in *; try contradiction; try exact I.
  lia.
Qed.

End DensityFacts.

Lemma np_arange_ok (start stop step : Q) :
  ~ step == 0 -> exists l, np_arange start stop step = Ok l.
Proof.
  intros H. unfold np_arange. rewrite (Qeq_bool_false _ _ H).
  eexists. reflexivity.
Qed.

Lemma np_arange_Z_up (start stop i : Z) :
  In i (np_arange_Z start stop 1) -> (start <= i < stop)%Z.
Proof.
  unfold np_arange_Z. cbn [Z.ltb Z.compare]. intros H.
  apply in_map_iff in H as [k [<- Hk]]. apply in_seq in Hk.
  replace (stop - start + 1 - 1)%Z with (stop - start)%Z in Hk by lia.
  rewrite Z.div_1_r in Hk. lia.
Qed.

Lemma np_arange_Z_down (start stop i : Z) :
  In i (np_arange_Z start stop (-1)) -> (stop < i <= start)%Z.
Proof.
  unfold np_arange_Z. cbn [Z.ltb Z.compare Z.opp]. intros H.
  apply in_map_iff in H as [k [<- Hk]]. apply in_seq in Hk.
  replace (start - stop + 1 - 1)%Z with (start - stop)%Z in Hk by lia.
  rewrite Z.div_1_r in Hk. lia.
Qed.

Lemma np_take_ok {A : Type} (d : list A) (idxs : list Z) :
  Forall (fun i => (- Z.of_nat (List.length d) <= i < Z.of_nat (List.length d))%Z)
         idxs ->
  exists d', np_take d idxs = Ok d' /\ (forall x, In x d' -> In x d).
Proof.
  unfold np_take. induction idxs as [|i idxs IH]; intros H.
  - exists []. split; [reflexivity|]. intros x [].
  - inversion H as [|? ? Hi Hrest]; subst.
    destruct (IH Hrest) as [d' [Hd' Hin]].
    set (n := Z.of_nat (List.length d)) in *.
    set (j := Z.to_nat (if (i <? 0)%Z then (i + n)%Z else i)).
    assert (Hj : (j < List.length d)%nat).
    { subst j. destruct (Z.ltb_spec i 0); lia. }
    destruct (nth_error d j) as [x|] eqn:Ex;
      [|apply nth_error_None in Ex; lia].
    exists (x :: d'). cbn [map_result]. fold j. rewrite Ex.
    assert (Hr : ((- n <=? i) && (i <? n))%Z = true).
    { apply andb_true_iff. split; [apply Z.leb_le|apply Z.ltb_lt]; lia. }
    rewrite Hr. cbn [rbind Ok]. rewrite Hd'. cbn [rbind Ok].
    split; [reflexivity|].
    intros y [<-|Hy]; [now apply nth_error_In in Ex|now apply Hin].
Qed.

Lemma add_buffer_bool_no_spike (n_buffer : Z) (dt : Q) (t d : list Q) :
  ~ dt == 0 -> (0 <= n_buffer < Z.of_nat (List.length d))%Z ->
  existsb nonzero d = false ->
  exists t' d',
    add_buffer true 0 n_buffer dt t (One d) = Ok (t', One d')
    /\ existsb nonzero d' = false.
Proof.
  intros Hdt Hnb Hd. unfold add_buffer.
  destruct (np_arange_ok (hd 0 t - dt)
              (hd 0 t - inject_Z n_buffer * dt - eps12) (- dt)) as [before Hb].
  { intros H. apply Hdt. lra. }
  destruct (np_arange_ok (List.last t 0 + dt)
              (List.last t 0 + inject_Z n_buffer * dt + eps12) dt Hdt)
    as [after Ha].
  rewrite Hb, Ha. cbn [rbind Ok Z.leb Z.compare andb].
  match goal with
  | |- context [np_take d ?idxs] =>
      destruct (np_take_ok d idxs) as [d' [Hd' Hin]]
  end.
  { rewrite !Forall_app. repeat split; apply List.Forall_forall; intros i Hi.
    - apply in_rev, in_map_iff in Hi as [k [<- Hk]].
      apply np_arange_Z_up in Hk. lia.
    - apply np_arange_Z_up in Hi. lia.
    - apply np_arange_Z_down in Hi. lia. }
  rewrite Hd'. cbn [rbind Ok]. eexists _, d'. split; [reflexivity|].
  apply existsb_false_forall, List.Forall_forall. intros x Hx.
  apply existsb_false_forall in Hd. rewrite List.Forall_forall in Hd.
  apply Hd, Hin, Hx.
Qed.

Section DensityZero.

Context (V : Type) (vzero : V) (hann : Z -> list V)
        (gaussian : Z -> Q -> list V) (normalize : list V -> Z -> list V)
        (convolve : batch (list Q) -> list V -> batch (list V)).

Lemma str_to_kernel_ok (kernel : kernel_arg V) (width : Q) :
  kernel_known kernel = true ->
  exists k, _str_to_kernel V hann gaussian kernel width = Ok k.
Proof.
  intros Hk. destruct kernel as [name|k|f]; cbn [_str_to_kernel];
    [|eexists; reflexivity..].
  cbn [kernel_known str_in existsb] in Hk. cbn [str_in existsb].
  destruct (String.eqb (str_lower name) "hann");
    [eexists; reflexivity|].
  destruct (String.eqb (str_lower name) "hanning");
    [eexists; reflexivity|].
  destruct (String.eqb (str_lower name) "gaussian");
    [eexists; reflexivity|].
  destruct (String.eqb (str_lower name) "normal");
    [eexists; reflexivity|discriminate].
Qed.

Hypothesis convolve_same : forall d k, same_shape d (convolve d k).

(** A boolean train without spikes, given with its time vector. *)
Lemma density_boolean_no_spike (data : spike_data) (kernel : kernel_arg V)
    (width : Q) (lims : option (Q * Q)) (smp_rate : Q) (buffer : option Q)
    (downsmp axis : Z) (tv : list Q) :
  no_spike_vector data ->
  (2 <= List.length tv)%nat -> ~ time_step tv == 0 ->
  kernel_known kernel = true ->
  (axis = 0 \/ axis = -1)%Z ->
  downsmp <> 0%Z ->
  (resolved_buffer kernel width buffer == 0
   \/ (0 <= buffer_samples (resolved_buffer kernel width buffer) tv
       < Z.of_nat (List.length (train_cells data)))%Z) ->
  exists rates t',
    density V vzero hann gaussian normalize convolve data kernel width lims
      smp_rate buffer downsmp axis (Some tv) = Ok (One rates, t')
    /\ Forall (fun x => x = vzero) rates.
Proof.
  intros Hns Hlen Hdt Hk Hax Hds Hbuf.
  assert (Hbin : _isbinary data = true /\
                 existsb nonzero (train_cells data) = false
                 /\ match data with
                    | BoolVec b => One (map Q_of_bool b)
                    | NumVec _ v =>
                        One (if _isbinary data then v else sort_Q v)
                    | ObjArr trains => Many trains
                    end = One (train_cells data)).
  { destruct data; cbn [no_spike_vector] in Hns; try contradiction;
      destruct Hns as [H1 H2]; repeat split; try assumption.
    now rewrite H1. }
  destruct Hbin as [Hbin [Hzero Hcells]].
  unfold density.
  assert (Hty : _spike_data_type data = Ok "bool"%string)
    by (unfold _spike_data_type; now rewrite Hbin).
  rewrite Hty, Hcells.
  cbn [rbind Ok Raise String.eqb Ascii.eqb Bool.eqb is_some negb orb
       py_assert andb time_vector].
  fold (resolved_buffer kernel width buffer).
  set (buf := resolved_buffer kernel width buffer) in *.
  destruct (Nat.ltb_spec (List.length tv) 2) as [?|_]; [lia|].
  cbn [rbind Ok Raise]. fold (time_step tv).
  rewrite (Qeq_bool_false _ _ Hdt). cbn [rbind Ok Raise].
  fold (rounded_rate tv). fold (buffer_samples buf tv).
  set (nb := buffer_samples buf tv) in *.
  assert (Haxis : (if (axis <? 0)%Z then (1 + axis)%Z else axis) = 0%Z)
    by (destruct Hax as [-> | ->]; reflexivity).
  rewrite Haxis.
  assert (Htc : exists t1 d1,
             (if negb (Qeq_bool buf 0)
              then add_buffer true 0 nb (time_step tv) tv
                     (One (train_cells data))
              else Ok (tv, One (train_cells data))) = Ok (t1, One d1)
             /\ existsb nonzero d1 = false).
  { destruct (Qeq_bool buf 0) eqn:Eb; cbn [negb].
    - exists tv, (train_cells data). now split.
    - destruct Hbuf as [Hb0|Hnb];
        [apply Qeq_bool_iff in Hb0; congruence|].
      now apply add_buffer_bool_no_spike. }
  destruct Htc as [t1 [d1 [Htc Hd1]]]. rewrite Htc.
  cbn [rbind Ok fst snd].
  destruct (str_to_kernel_ok kernel
              (width * inject_Z (rounded_rate tv)) Hk) as [k Hker].
  rewrite Hker. cbn [rbind Ok fst snd Z.eqb orb].
  destruct (finish_density_zero V vzero (negb (Qeq_bool buf 0)) nb downsmp
              (One d1) (convolve (One d1) (normalize k (rounded_rate tv)))
              t1 (convolve_same _ _) Hds)
    as [r [t' [Hfin [Hz Hs]]]].
  { cbn [batch_rows]. constructor; [exact Hd1|constructor]. }
  rewrite Hfin. destruct r as [rates|rs]; [|contradiction].
  exists rates, t'. split; [reflexivity|].
  unfold all_zero in Hz. cbn [batch_rows] in Hz. now inversion Hz.
Qed.

End DensityZero.

(** ** Ascending time vectors *)

Lemma StronglySorted_app {A : Type} (R : A -> A -> Prop) (l1 l2 : list A) :
  StronglySorted R l1 -> StronglySorted R l2 ->
  (forall x y, In x l1 -> In y l2 -> R x y) ->
  StronglySorted R (l1 ++ l2).
Proof.
  intros H1 H2 H12. induction H1 as [|x l1 Hs IH Hall]; [exact H2|].
  cbn [app]. constructor.
  - apply IH. intros a b Ha Hb. apply H12; [now right|exact Hb].
  - apply Forall_app. split; [exact Hall|].
    apply List.Forall_forall. intros y Hy. apply H12; [now left|exact Hy].
Qed.

Lemma StronglySorted_rev {A : Type} (R : A -> A -> Prop) (l : list A) :
  StronglySorted (fun x y => R y x) l -> StronglySorted R (rev l).
Proof.
  induction 1 as [|x l Hs IH Hall]; [constructor|].
  cbn [rev]. apply StronglySorted_app; [exact IH|repeat constructor|].
  intros a b Ha Hb. cbn [In] in Hb. destruct Hb as [<-|[]].
  rewrite List.Forall_forall in Hall. apply Hall. now apply in_rev.
Qed.

Lemma StronglySorted_map_seq {A : Type} (R : A -> A -> Prop) (f : nat -> A)
    (k n : nat) :
  (forall i j, (i < j)%nat -> R (f i) (f j)) ->
  StronglySorted R (map f (seq k n)).
Proof.
  intros Hf. revert k. induction n as [|n IH]; intros k; [constructor|].
  cbn [seq map]. constructor; [apply IH|].
  apply Forall_map, List.Forall_forall. intros j Hj.
  apply in_seq in Hj. apply Hf. lia.
Qed.

Lemma arange_value_le (a step : Q) (i j : nat) :
  0 <= step -> (i <= j)%nat ->
  a + inject_Z (Z.of_nat i) * step <= a + inject_Z (Z.of_nat j) * step.
Proof.
  intros Hs Hij.
  assert (H : inject_Z (Z.of_nat i) * step <= inject_Z (Z.of_nat j) * step).
  { apply Qmult_le_compat_r; [|exact Hs]. rewrite <- Zle_Qle. lia. }
  lra.
Qed.

Lemma arange_offset_nonneg (step : Q) (j : nat) :
  0 <= step -> 0 <= inject_Z (Z.of_nat j) * step.
Proof.
  intros Hs. apply Qmult_le_0_compat; [|exact Hs].
  change 0 with (inject_Z 0). rewrite <- Zle_Qle. lia.
Qed.

Lemma np_arange_ascending (start stop step : Q) (l : list Q) :
  0 < step -> np_arange start stop step = Ok l -> StronglySorted Qle l.
Proof.
  intros Hs H. unfold np_arange in H.
  destruct (Qeq_bool step 0); [discriminate|]. injection H as <-.
  apply StronglySorted_map_seq. intros i j Hij.
  apply arange_value_le; [lra|lia].
Qed.

Lemma sorted_hd_le (l : list Q) (d x : Q) :
  StronglySorted Qle l -> In x l -> hd d l <= x.
Proof.
  intros Hs Hx. destruct Hs as [|y l Hs Hall]; [destruct Hx|].
  cbn [hd]. destruct Hx as [<-|Hx]; [lra|].
  rewrite List.Forall_forall in Hall. now apply Hall.
Qed.

Lemma sorted_le_last (l : list Q) (d x : Q) :
  StronglySorted Qle l -> In x l -> x <= List.last l d.
Proof.
  intros Hs. revert x. induction Hs as [|y l Hs IH Hall]; intros x Hx;
    [destruct Hx|].
  destruct l as [|z l'].
  - cbn [In] in Hx. destruct Hx as [<-|[]]. cbn. lra.
  - change (List.last (y :: z :: l') d) with (List.last (z :: l') d).
    destruct Hx as [<-|Hx]; [|now apply IH].
    rewrite List.Forall_forall in Hall.
    apply Qle_trans with z; [apply Hall; now left|apply IH; now left].
Qed.

Lemma sorted_monotonic (l : list Q) :
  StronglySorted Qle l -> monotonic l = true.
Proof.
  induction 1 as [|x l Hs IH Hall]; [reflexivity|].
  destruct l as [|y l']; [reflexivity|].
  change (monotonic (x :: y :: l'))
    with (Qle_bool x y && monotonic (y :: l')).
  rewrite IH, andb_true_r. apply Qle_bool_iff.
  now inversion Hall.
Qed.

Lemma last_In {A : Type} (l : list A) (d : A) : l <> [] -> In (List.last l d) l.
Proof.
  induction l as [|x l IH]; [congruence|]. intros _.
  destruct l as [|y l']; [now left|].
  right. apply IH. discriminate.
Qed.

(** The buffer keeps an ascending time vector ascending. *)
Lemma add_buffer_timestamps (axis n_buffer : Z) (dt : Q) (t : list Q)
    (cells : batch (list Q)) :
  0 < dt -> t <> [] -> StronglySorted Qle t ->
  exists t',
    add_buffer false axis n_buffer dt t cells = Ok (t', cells)
    /\ StronglySorted Qle t' /\ (List.length t <= List.length t')%nat.
Proof.
  intros Hdt Hne Hs. unfold add_buffer, np_arange.
  rewrite (Qeq_bool_false (- dt) 0) by lra.
  rewrite (Qeq_bool_false dt 0) by lra.
  cbn [rbind Ok]. eexists. split; [reflexivity|]. split.
  - apply StronglySorted_app; [|apply StronglySorted_app|].
    + apply StronglySorted_rev, StronglySorted_map_seq. intros i j Hij.
      pose proof (arange_value_le 0 dt i j ltac:(lra) ltac:(lia)). lra.
    + exact Hs.
    + apply StronglySorted_map_seq. intros i j Hij.
      apply arange_value_le; [lra|lia].
    + intros x y Hx Hy. apply in_map_iff in Hy as [j [<- _]].
      pose proof (sorted_le_last t 0 x Hs Hx).
      pose proof (arange_offset_nonneg dt j ltac:(lra)) as Hj. lra.
    + intros x y Hx Hy. apply in_rev, in_map_iff in Hx as [i [<- _]].
      pose proof (arange_offset_nonneg dt i ltac:(lra)) as Hi.
      assert (Hhd : hd 0 t <= y).
      { apply in_app_or in Hy as [Hy|Hy]; [now apply sorted_hd_le|].
        apply in_map_iff in Hy as [j [<- _]].
        pose proof (arange_offset_nonneg dt j ltac:(lra)) as Hj.
        pose proof (sorted_hd_le t 0 _ Hs (last_In t 0 Hne)). lra. }
      lra.
  - rewrite !length_app. lia.
Qed.

(** ** Binning trains without spikes *)

Lemma hist_spec_nil (edges : list Q) :
  hist_spec [] edges = map (fun _ => 0%Z) (List.tl edges).
Proof.
  induction edges as [|e0 tl IH]; [reflexivity|].
  destruct tl as [|e1 rest]; [reflexivity|].
  destruct rest as [|e2 rest']; [reflexivity|].
  rewrite hist_spec_cons3, IH. reflexivity.
Qed.

Lemma map_const_length {A B C : Type} (c : C) (l1 : list A) (l2 : list B) :
  List.length l1 = List.length l2 ->
  map (fun _ => c) l1 = map (fun _ => c) l2.
Proof.
  revert l2. induction l1 as [|x l1 IH]; intros [|y l2] H; try discriminate;
    [reflexivity|].
  cbn [map]. f_equal. apply IH. cbn in H. lia.
Qed.

Lemma count_spikes_empty (std : bool) (rows : windows) :
  rows <> [] -> monotonic (hist_edges rows) = true ->
  count_spikes std rows [] = Ok (map (fun _ => 0%Z) rows).
Proof.
  intros Hne Hm. unfold count_spikes, _histogram_count. destruct std.
  - rewrite np_histogram_spec by exact Hm. rewrite hist_spec_nil. f_equal.
    apply map_const_length.
    destruct rows as [|b rows]; [congruence|].
    unfold hist_edges. cbn [map app List.tl List.length].
    rewrite length_app, length_map. cbn. lia.
  - reflexivity.
Qed.

Lemma times_to_bool_empty_trains (trains : list (list Q)) (rows : windows)
    (lims : option (Q * Q)) (width : pynum) :
  Forall (fun tr => tr = []) trains ->
  (2 <= List.length rows)%nat ->
  monotonic (hist_edges rows) = true ->
  Forall (fun wd => ~ wd == 0) (bin_widths rows) ->
  times_to_bool (ObjArr trains) lims width (Some (windows_array rows))
  = Ok (Many (map (fun _ => map (fun _ => false) rows) trains),
        map bin_center rows).
Proof.
  intros Hempty Hlen Hm Hwd. unfold times_to_bool. cbn [rbind Ok Raise].
  change (ndim (windows_array rows) <? 2)%nat with false. cbn [rbind Ok].
  unfold bin_rate.
  rewrite (bin_rate_timestamps_nonbinary (ObjArr trains)) by reflexivity.
  cbn [rbind Ok Raise fst snd].
  change (py_assert _ _) with (@Ok unit tt). cbn [rbind Ok].
  rewrite bin_rows_windows_array.
  change (nth 0 (shape (windows_array rows)) 0%nat) with (List.length rows).
  destruct (Nat.ltb_spec (List.length rows) 2) as [Hlt|_]; [lia|].
  cbn [rbind Ok _enclose_cells single_train_of].
  rewrite (map_result_all_ok _ (fun _ => map (fun _ => 0%Z) rows)).
  - cbn [rbind Ok andb fst snd squeeze0 batch_map].
    rewrite rows2_flat_windows. do 3 f_equal.
    assert (Hrow : map astype_bool
                     (map (fun p : Z * Q => true_divide (fst p) (snd p))
                          (combine (map (fun _ => 0%Z) rows) (bin_widths rows)))
                   = map (fun _ => false) rows).
    { rewrite rates_astype_bool; [now rewrite map_map| |exact Hwd].
      unfold bin_widths. now rewrite !length_map. }
    clear Hempty. induction trains as [|tr trains IH]; [reflexivity|].
    cbn [map]. now rewrite Hrow, IH.
  - intros tr Htr. rewrite List.Forall_forall in Hempty.
    rewrite (Hempty tr Htr). apply count_spikes_empty; [|exact Hm].
    destruct rows; [cbn in Hlen; lia|discriminate].
Qed.

Lemma StronglySorted_map {A B : Type} (R : A -> A -> Prop)
    (R' : B -> B -> Prop) (f : A -> B) (l : list A) :
  (forall x y, R x y -> R' (f x) (f y)) ->
  StronglySorted R l -> StronglySorted R' (map f l).
Proof.
  intros Hf. induction 1 as [|x l Hs IH Hall]; [constructor|].
  cbn [map]. constructor; [exact IH|].
  apply Forall_map. eapply List.Forall_impl; [|exact Hall].
  intros y. apply Hf.
Qed.

Lemma last_map {A B : Type} (f : A -> B) (l : list A) (d : A) (d' : B) :
  l <> [] -> List.last (map f l) d' = f (List.last l d).
Proof.
  induction l as [|x l IH]; [congruence|]. intros _.
  destruct l as [|y l']; [reflexivity|].
  change (List.last (map f (x :: y :: l')) d')
    with (List.last (map f (y :: l')) d').
  change (List.last (x :: y :: l') d) with (List.last (y :: l') d).
  apply IH. discriminate.
Qed.

(** The bins [[t - dt/2, t + dt/2]] around the samples of an ascending time
    vector have ascending edges and the width [dt]. *)
Lemma sample_bins_monotonic (dt : Q) (t : list Q) :
  0 <= dt -> t <> [] -> StronglySorted Qle t ->
  monotonic (hist_edges (map (fun x => (x - dt / 2, x + dt / 2)) t)) = true.
Proof.
  intros Hdt Hne Hs. apply sorted_monotonic. unfold hist_edges.
  rewrite map_map. cbn [fst].
  rewrite (last_map _ t 0) by exact Hne. cbn [snd].
  apply StronglySorted_app.
  - eapply StronglySorted_map; [|exact Hs]. cbn. intros x y Hxy. lra.
  - repeat constructor.
  - intros x y Hx Hy. cbn [In] in Hy. destruct Hy as [<-|[]].
    apply in_map_iff in Hx as [z [<- Hz]].
    pose proof (sorted_le_last t 0 z Hs Hz).
    unfold Qdiv. change (/ 2) with (1 # 2). lra.
Qed.

Lemma sample_bins_widths (dt : Q) (t : list Q) :
  ~ dt == 0 ->
  Forall (fun wd => ~ wd == 0)
         (bin_widths (map (fun x => (x - dt / 2, x + dt / 2)) t)).
Proof.
  intros Hdt. unfold bin_widths. rewrite map_map. apply Forall_map.
  apply List.Forall_forall. intros x _. cbn [fst snd]. intros H. apply Hdt.
  unfold Qdiv in H. change (/ 2) with (1 # 2) in H. lra.
Qed.

Section DensityTimestamps.

Context (V : Type) (vzero : V) (hann : Z -> list V)
        (gaussian : Z -> Q -> list V) (normalize : list V -> Z -> list V)
        (convolve : batch (list Q) -> list V -> batch (list V)).

Hypothesis convolve_same : forall d k, same_shape d (convolve d k).

(** A collection of timestamp trains, none of which has a spike, over an
    ascending time vector. *)
Lemma density_empty_trains (trains : list (list Q)) (kernel : kernel_arg V)
    (width : Q) (lims : option (Q * Q)) (smp_rate : Q) (buffer : option Q)
    (downsmp axis : Z) (t : option (list Q)) (tv : list Q) :
  Forall (fun tr => tr = []) trains ->
  time_vector t lims smp_rate = Ok tv ->
  (2 <= List.length tv)%nat -> StronglySorted Qle tv -> 0 < time_step tv ->
  kernel_known kernel = true ->
  downsmp <> 0%Z ->
  exists rates t',
    density V vzero hann gaussian normalize convolve (ObjArr trains) kernel
      width lims smp_rate buffer downsmp axis t = Ok (Many rates, t')
    /\ List.length rates = List.length trains
    /\ Forall (Forall (fun x => x = vzero)) rates.
Proof.
  intros Hempty Htv Hlen Hs Hdt Hk Hds. unfold density.
  cbn [_spike_data_type _isbinary rbind Ok Raise String.eqb Ascii.eqb
       Bool.eqb negb orb py_assert].
  rewrite Htv. cbn [rbind Ok].
  fold (resolved_buffer kernel width buffer).
  set (buf := resolved_buffer kernel width buffer).
  destruct (Nat.ltb_spec (List.length tv) 2) as [?|_]; [lia|].
  cbn [rbind Ok Raise]. fold (time_step tv).
  rewrite (Qeq_bool_false (time_step tv) 0) by lra. cbn [rbind Ok Raise].
  fold (rounded_rate tv). fold (buffer_samples buf tv).
  set (nb := buffer_samples buf tv).
  set (ax := if (axis <? 0)%Z then (1 + axis)%Z else axis).
  assert (Hne : tv <> []) by (destruct tv; [cbn in Hlen; lia|discriminate]).
  assert (Htc : exists t1,
             (if negb (Qeq_bool buf 0)
              then add_buffer false ax nb (time_step tv) tv (Many trains)
              else Ok (tv, Many trains)) = Ok (t1, Many trains)
             /\ StronglySorted Qle t1
             /\ (List.length tv <= List.length t1)%nat).
  { destruct (negb (Qeq_bool buf 0)).
    - now apply add_buffer_timestamps.
    - exists tv. repeat split; [exact Hs|lia]. }
  destruct Htc as [t1 [Htc [Hs1 Hl1]]]. rewrite Htc.
  cbn [rbind Ok fst snd].
  destruct (str_to_kernel_ok V hann gaussian kernel
              (width * inject_Z (rounded_rate tv)) Hk) as [k Hker].
  rewrite Hker. cbn [rbind Ok fst snd].
  rewrite times_to_bool_empty_trains.
  - cbn [rbind Ok fst snd batch_map].
    match goal with
    | |- context [finish_density V vzero ?wb nb downsmp ?d ?r ?tt] =>
        destruct (finish_density_zero V vzero wb nb downsmp d r tt
                    (convolve_same _ _) Hds)
          as [r' [t' [Hfin [Hz Hsame]]]]
    end.
    { cbn [batch_rows]. rewrite map_map. apply Forall_map.
      apply List.Forall_forall. intros tr _.
      apply existsb_false_forall. apply Forall_map, Forall_map.
      apply List.Forall_forall. reflexivity. }
    rewrite Hfin. destruct r' as [r1|rates]; [contradiction|].
    exists rates, t'. split; [reflexivity|]. split; [|exact Hz].
    cbn in Hsame. rewrite !length_map in Hsame. now symmetry.
  - exact Hempty.
  - rewrite length_map. lia.
  - apply sample_bins_monotonic; [lra| |exact Hs1].
    destruct t1; [cbn in Hl1; lia|discriminate].
  - apply sample_bins_widths. lra.
Qed.

End DensityTimestamps.


Lemma convolve_Q_same (d : batch (list Q)) (k : list Q) :
  same_shape d (convolve_Q d k).
Proof. destruct d; cbn; [exact I|]. now rewrite length_map. Qed.



(** ** Counts as 16-bit unsigned integers *)

Lemma map_result_ok_map {A B : Type} (f : A -> result B) (g : A -> B)
    (l : list A) (ys : list B) :
  (forall x y, In x l -> f x = Ok y -> y = g x) ->
  map_result f l = Ok ys -> ys = map g l.
Proof.
  revert ys. induction l as [|x l IH]; intros ys Hf H.
  - cbn in H. injection H as <-. reflexivity.
  - cbn [map_result] in H.
    destruct (f x) as [e|y] eqn:Ex; [discriminate|]. cbn [rbind Ok Raise] in H.
    destruct (map_result f l) as [e|ys'] eqn:El; [discriminate|].
    cbn [rbind Ok Raise] in H. injection H as <-. cbn [map]. f_equal.
    + apply Hf; [now left|exact Ex].
    + apply IH; [|reflexivity]. intros x' y' Hin. apply Hf. now right.
Qed.

Lemma uint16_idem (z : Z) : uint16 (uint16 z) = uint16 z.
Proof. unfold uint16. apply Z.mod_mod. lia. Qed.

Lemma uint16_range (z : Z) : (0 <= uint16 z < 65536)%Z.
Proof. unfold uint16. apply Z.mod_pos_bound. lia. Qed.

Lemma count_spikes_attributed (std : bool) (rows : windows) (train : list Q)
    (c : list Z) :
  count_spikes std rows train = Ok c ->
  map uint16 c = map uint16 (attributed_counts std rows train).
Proof.
  unfold count_spikes, attributed_counts, _histogram_count.
  destruct std.
  - unfold np_histogram.
    destruct (monotonic (hist_edges rows)) eqn:Hm; cbn [negb]; [|discriminate].
    intros H. injection H as <-.
    now rewrite search_sorted_inclusive_sort, histogram_counts_spec.
  - intros H. injection H as <-. unfold _custom_bin_count.
    rewrite !map_map. apply map_ext. intros b. apply uint16_idem.
Qed.

Lemma bin_rate_counts_values
    (data : spike_data) (lims : option (Q * Q)) (width : pynum)
    (step : option pynum) (bins : option ndarray) (axis : Z)
    (t : option (list Q)) (r : rate_array) (b : ndarray) :
  bin_rate data lims width step bins true axis t = Ok (r, b) ->
  exists (is_bool : bool) (axis' : Z) (trains : spike_data),
    bin_rate_timestamps data axis t = Ok (is_bool, axis', trains)
    /\ let rows := bin_rows b in
       let std := std_bins_test rows (bin_widths rows) (hd 0 (bin_widths rows)) in
       r = Counts
             (squeeze0 (single_train_of trains)
                (map (fun train =>
                        map (fun n : Z => (n mod 65536)%Z)
                            (attributed_counts std rows train))
                     (_enclose_cells trains)) []).
Proof.
  unfold bin_rate. intros H.
  destruct (bin_rate_timestamps data axis t) as [e|[[is_bool axis'] trains]];
    [discriminate|].
  cbn [rbind Ok Raise fst snd] in H.
  exists is_bool, axis', trains. split; [reflexivity|].
  match type of H with
  | rbind ?c _ = _ => destruct c as [e|b'] eqn:Eb; [discriminate|]
  end.
  cbn [rbind Ok Raise] in H.
  destruct (py_assert _ _) as [e|[]]; [discriminate|]. cbn [rbind Ok Raise] in H.
  destruct (nth 0 (shape b') 0%nat <? 2)%nat; [discriminate|].
  cbn [rbind Ok Raise] in H.
  destruct (map_result _ _) as [e|counted] eqn:Ec; [discriminate|].
  cbn [rbind Ok Raise] in H.
  match type of H with
  | rbind ?c _ = _ => destruct c as [e|[]]; [discriminate|]
  end.
  cbn [rbind Ok Raise] in H. injection H as <- <-.
  cbn zeta. do 2 f_equal.
  revert counted Ec.
  induction (_enclose_cells trains) as [|train cells IH]; intros counted Ec.
  - cbn in Ec. injection Ec as <-. reflexivity.
  - cbn [map_result] in Ec.
    destruct (count_spikes _ _ train) as [e|c] eqn:E1; [discriminate|].
    cbn [rbind Ok Raise] in Ec.
    destruct (map_result _ cells) as [e|cs] eqn:E2; [discriminate|].
    cbn [rbind Ok Raise] in Ec. injection Ec as <-. cbn [map]. f_equal.
    + apply count_spikes_attributed in E1. exact E1.
    + now apply IH.
Qed.

Lemma count_spikes_total (std : bool) (rows : windows) (train : list Q) :
  (std = true -> monotonic (hist_edges rows) = true) ->
  exists c, count_spikes std rows train = Ok c.
Proof.
  intros Hm. unfold count_spikes, _histogram_count. destruct std.
  - rewrite np_histogram_spec by now apply Hm. eexists. reflexivity.
  - eexists. reflexivity.
Qed.

(** Timestamp data binned in at least two explicit bins is always counted:
    no number of spikes makes [bin_rate] raise. *)
Lemma bin_rate_counts_returned
    (data : spike_data) (lims : option (Q * Q)) (width : pynum)
    (step : option pynum) (rows : windows) (axis : Z) (t : option (list Q)) :
  _isbinary data = false -> (2 <= List.length rows)%nat ->
  (std_bins_test rows (bin_widths rows) (hd 0 (bin_widths rows)) = true ->
   monotonic (hist_edges rows) = true) ->
  exists r,
    bin_rate data lims width step (Some (windows_array rows)) true axis t
    = Ok (Counts r, windows_array rows).
Proof.
  intros Hb Hlen Hm. unfold bin_rate.
  rewrite (bin_rate_timestamps_nonbinary data axis t Hb).
  cbn [rbind Ok Raise fst snd].
  change (py_assert _ _) with (@Ok unit tt). cbn [rbind Ok].
  rewrite bin_rows_windows_array.
  change (nth 0 (shape (windows_array rows)) 0%nat) with (List.length rows).
  destruct (Nat.ltb_spec (List.length rows) 2) as [Hlt|_]; [lia|].
  cbn [rbind Ok].
  destruct (map_result_total
              (count_spikes
                 (std_bins_test rows (bin_widths rows) (hd 0 (bin_widths rows)))
                 rows)
              (_enclose_cells data)) as [counted [Hc _]].
  { intros train. now apply count_spikes_total. }
  rewrite Hc. cbn [rbind Ok andb]. eexists. reflexivity.
Qed.



(** ** Where the two counting paths agree *)

Lemma count_if_le_length (p : Q -> bool) (l : list Q) :
  (count_if p l <= Z.of_nat (List.length l))%Z.
Proof.
  unfold count_if. pose proof (filter_length_le p l). lia.
Qed.

Lemma in_closed_off_edge (s e t : Q) :
  ~ t == e -> in_closed s e t = in_bin s e t.
Proof.
  intros H. unfold in_closed, in_bin. f_equal.
  destruct (Qle_bool t e) eqn:E1, (Qlt_bool t e) eqn:E2; try reflexivity;
    exfalso.
  - apply Qle_bool_iff in E1. apply Qlt_bool_false_le in E2.
    apply H. lra.
  - apply Qle_bool_false_lt in E1. apply Qlt_bool_iff in E2. lra.
Qed.

Lemma hist_spec_off_final_edge (w : Q) (train : list Q) (bins : windows) :
  regular w bins -> bins <> [] ->
  Forall (fun t => ~ t == snd (List.last bins (0, 0))) train ->
  hist_spec train (hist_edges bins)
  = map (fun b : Q * Q => count_if (in_bin (fst b) (snd b)) train) bins.
Proof.
  induction bins as [|b rest IH]; intros Hr Hne Hoff; [congruence|].
  destruct rest as [|b' rest].
  - cbn. f_equal. apply count_if_ext. intros t Ht.
    rewrite List.Forall_forall in Hoff. apply in_closed_off_edge.
    now apply Hoff.
  - rewrite hist_edges_cons.
    pose proof (IH (regular_tail _ _ _ Hr) ltac:(discriminate) Hoff) as IH'.
    destruct Hr as [_ [Hc _]].
    assert (He : hist_edges (b' :: rest)
                 = fst b' :: List.tl (hist_edges (b' :: rest)))
      by reflexivity.
    assert (Hne' : List.tl (hist_edges (b' :: rest)) <> []).
    { destruct rest; discriminate. }
    rewrite He in *.
    destruct (List.tl (hist_edges (b' :: rest))) as [|e2 es] eqn:Et;
      [congruence|].
    rewrite hist_spec_cons3, IH'. cbn [map]. f_equal.
    apply count_if_ext. intros t _. now apply in_bin_Qeq_end.
Qed.

(** On a regular WindowSet the histogram path and the explicit-inclusion
    path give the same counts for every train of fewer than 65536 spikes
    none of which lies on the end of the last bin. *)
Lemma histogram_custom_agree_off_final_edge (w : Q) (train : list Q)
    (bins : windows) :
  0 < w -> regular w bins -> bins <> [] ->
  Forall (fun t => ~ t == snd (List.last bins (0, 0))) train ->
  (Z.of_nat (List.length train) < 65536)%Z ->
  _histogram_count train (hist_edges bins) = Ok (_custom_bin_count train bins).
Proof.
  intros Hw Hr Hne Hoff Hlen. unfold _histogram_count.
  rewrite np_histogram_spec by (apply (regular_monotonic w); [lra|exact Hr]).
  rewrite (hist_spec_off_final_edge w) by assumption.
  unfold _custom_bin_count. f_equal. apply map_ext. intros b.
  unfold uint16. symmetry. apply Z.mod_small.
  pose proof (count_if_nonneg (in_bin (fst b) (snd b)) train).
  pose proof (count_if_le_length (in_bin (fst b) (snd b)) train). lia.
Qed.

(** * Further properties of the code *)

(** ** Sliding windows without a reference *)

Lemma Qceiling_to_nat_upper (x : Q) :
  x <= inject_Z (Z.of_nat (Z.to_nat (Qceiling x))).
Proof.
  pose proof (Qle_ceiling x) as H.
  destruct (Z_le_gt_dec 0 (Qceiling x)) as [Hc|Hc].
  - rewrite Z2Nat.id by exact Hc. exact H.
  - eapply Qle_trans; [exact H|].
    rewrite <- Zle_Qle. lia.
Qed.

Lemma Qceiling_to_nat_lower (x : Q) (i : nat) :
  (i < Z.to_nat (Qceiling x))%nat -> inject_Z (Z.of_nat i) < x.
Proof.
  intros Hi. pose proof (Qceiling_lt x) as H.
  eapply Qle_lt_trans; [|exact H].
  rewrite <- Zle_Qle. lia.
Qed.



Lemma combine_map_both {A B C : Type} (f : A -> B) (g : A -> C)
    (l : list A) :
  combine (map f l) (map g l) = map (fun x => (f x, g x)) l.
Proof. induction l as [|x l IH]; [reflexivity|]. cbn. now rewrite IH. Qed.

Ltac push_inject_Z :=
  unfold Z.sub; rewrite ?inject_Z_plus, ?inject_Z_mult, ?inject_Z_opp.

Lemma round_half_even_Z (q : Q) (z : Z) :
  q == inject_Z z -> round_half_even q = z.
Proof.
  intros H. unfold round_half_even.
  rewrite (Qfloor_comp q (inject_Z z) H), Qfloor_Z.
  assert (E : q - inject_Z z == 0) by lra.
  rewrite (Qcompare_comp _ _ E _ _ (Qeq_refl (1 # 2))). reflexivity.
Qed.

(** X2.  Integer windows ([force_int=True], so the end point is excluded):
    for integer limits [a], [b], width [w] and step [s > 0] the windows are
    [[a + i*s, a + i*s + w - 1]], whole numbers naming the first and last
    sample of each window; every window ends at or before [b] and the next
    one of the series would end beyond it.  With [s = w] a window therefore
    starts one sample after the previous one ends. *)
Theorem sliding_windows_integer (a b w s : Z) :
  (0 < s)%Z ->
  exists n : nat,
    setup_sliding_windows (PyInt w) (inject_Z a, inject_Z b) (Some (PyInt s))
      None true None
    = Ok (map (int_window a w s) (seq 0 n))
    /\ (forall i, (i < n)%nat -> (a + Z.of_nat i * s + w - 1 <= b)%Z)
    /\ (b < a + Z.of_nat n * s + w - 1)%Z.
Proof.
  intros Hs.
  assert (HsQ : 0 < inject_Z s) by (change 0 with (inject_Z 0); rewrite <- Zlt_Qlt; exact Hs).
  assert (Hs0 : ~ inject_Z s == 0)
    by (intros E; rewrite E in HsQ; discriminate).
  set (x := (inject_Z b - inject_Z w + 1 + 1 - inject_Z a) / inject_Z s).
  exists (Z.to_nat (Qceiling x)).
  assert (Hx : x * inject_Z s == inject_Z (b - w + 2 - a)).
  { unfold x. push_inject_Z. change (inject_Z 2) with 2. field. exact Hs0. }
  split; [|split].
  - unfold setup_sliding_windows, _iarange, np_arange.
    cbn [isinstance_int num fst snd].
    rewrite (Qeq_bool_false _ _ Hs0). cbn [rbind Ok Raise]. fold x.
    rewrite !map_map, combine_map_both. f_equal.
    apply map_ext. intros i. unfold int_window. cbv zeta. f_equal; f_equal.
    + apply round_half_even_Z.
      push_inject_Z. reflexivity.
    + apply round_half_even_Z.
      push_inject_Z. change (inject_Z 1) with 1. ring.
  - intros i Hi. apply Qceiling_to_nat_lower in Hi.
    apply (proj2 (Qmult_lt_r _ _ _ HsQ)) in Hi. rewrite Hx in Hi.
    rewrite <- inject_Z_mult, <- Zlt_Qlt in Hi. lia.
  - pose proof (Qceiling_to_nat_upper x) as Hn.
    apply (proj2 (Qmult_le_r _ _ _ HsQ)) in Hn. rewrite Hx in Hn.
    rewrite <- inject_Z_mult, <- Zle_Qle in Hn. lia.
Qed.

Lemma sliding_windows_integer_witness :
  (0 < 100)%Z
  /\ exists n : nat,
       setup_sliding_windows (PyInt 100) (inject_Z 0, inject_Z 1000)
         (Some (PyInt 100)) None true None
       = Ok (map (int_window 0 100 100) (seq 0 n))
       /\ (forall i, (i < n)%nat -> (0 + Z.of_nat i * 100 + 100 - 1 <= 1000)%Z)
       /\ (1000 < 0 + Z.of_nat n * 100 + 100 - 1)%Z.
Proof.
  split; [lia|]. apply (sliding_windows_integer 0 1000 100 100). lia.
Defined.

(** ** Binning: edge behaviour and totals *)

(** X3.  [bin_rate] needs at least two bins: with explicit bins of fewer
    than two rows, or with limits in which fewer than two windows fit, it
    raises for every kind of data and never returns a result
    ([widths[0]] indexes the squeezed array of bin widths). *)
Theorem bin_rate_fewer_than_two_bins
    (data : spike_data) (lims : option (Q * Q)) (width : pynum)
    (step : option pynum) (bins : option ndarray) (count : bool) (axis : Z)
    (t : option (list Q)) (b : ndarray) :
  bins_in_use lims width step bins b ->
  (nth 0 (shape b) 0 < 2)%nat ->
  is_ok (bin_rate data lims width step bins count axis t) = false
  /\ (_isbinary data = false -> rank2_two_columns b = true ->
      exists msg,
        bin_rate data lims width step bins count axis t
        = Raise (IndexError msg)).
Proof.
  intros Hb Hn.
  assert (Hbins :
    match bins with
    | None =>
        match lims with
        | None => Raise err_missing_lims
        | Some l =>
            rbind (setup_sliding_windows width l step None false None)
                  (fun w => Ok (windows_array w))
        end
    | Some b0 => Ok b0
    end = Ok b).
  { destruct Hb as [-> | [-> [l [w [-> [Hw ->]]]]]]; [reflexivity|].
    rewrite Hw. reflexivity. }
  apply Nat.ltb_lt in Hn.
  split.
  - unfold bin_rate.
    destruct (bin_rate_timestamps data axis t) as [e|pre]; [reflexivity|].
    cbn [rbind Ok Raise]. unfold err_missing_lims in Hbins. rewrite Hbins.
    cbn [rbind Ok Raise].
    destruct (py_assert _ _) as [e|[]]; [reflexivity|].
    cbn [rbind Ok Raise]. rewrite Hn. reflexivity.
  - intros Hd Hs. unfold bin_rate.
    rewrite (bin_rate_timestamps_nonbinary data axis t Hd).
    cbn [rbind Ok Raise fst snd]. unfold err_missing_lims in Hbins.
    rewrite Hbins. cbn [rbind Ok Raise].
    unfold rank2_two_columns in Hs. rewrite Hs.
    cbn [py_assert rbind Ok Raise]. rewrite Hn. eexists. reflexivity.
Qed.

Lemma bin_rate_fewer_than_two_bins_witness :
  bins_in_use None (PyFloat 1) None (Some (windows_array [(0, 1)]))
    (windows_array [(0, 1)])
  /\ lt (nth 0 (shape (windows_array [(0, 1)])) 0%nat) 2
  /\ is_ok (bin_rate (ObjArr [[1 # 2]]) None (PyFloat 1) None
              (Some (windows_array [(0, 1)])) true (-1) None) = false.
Proof.
  assert (H1 : bins_in_use None (PyFloat 1) None
                 (Some (windows_array [(0, 1)])) (windows_array [(0, 1)]))
    by (left; reflexivity).
  assert (H2 : lt (nth 0 (shape (windows_array [(0, 1)])) 0%nat) 2)
    by (cbn; lia).
  split; [exact H1|]. split; [exact H2|].
  exact (proj1 (bin_rate_fewer_than_two_bins (ObjArr [[1 # 2]]) None (PyFloat 1)
                  None (Some (windows_array [(0, 1)])) true (-1) None
                  (windows_array [(0, 1)]) H1 H2)).
Defined.

Lemma in_closed_iff (s e t : Q) : in_closed s e t = true <-> s <= t /\ t <= e.
Proof.
  unfold in_closed. rewrite andb_true_iff, !Qle_bool_iff. tauto.
Qed.

Lemma bool_eq_iff (a b : bool) : (a = true <-> b = true) -> a = b.
Proof.
  destruct a, b; intros [H1 H2]; try reflexivity;
    [symmetry; apply H1; reflexivity|apply H2; reflexivity].
Qed.

Lemma count_if_split (p q r : Q -> bool) (l : list Q) :
  (forall x, r x = p x || q x) -> (forall x, p x && q x = false) ->
  (count_if p l + count_if q l = count_if r l)%Z.
Proof.
  intros Hr Hd. induction l as [|x l IH]; [reflexivity|].
  rewrite !count_if_cons, Hr. specialize (Hd x).
  destruct (p x), (q x); cbn [orb andb] in *; try discriminate; lia.
Qed.

Lemma monotonic_le_last (e : Q) (l : list Q) :
  monotonic (e :: l) = true -> e <= List.last (e :: l) 0.
Proof.
  revert e. induction l as [|x l IH]; intros e H; [cbn; lra|].
  change (monotonic (e :: x :: l)) with (Qle_bool e x && monotonic (x :: l)) in H.
  apply andb_true_iff in H as [H1 H2]. apply Qle_bool_iff in H1.
  change (List.last (e :: x :: l) 0) with (List.last (x :: l) 0).
  specialize (IH x H2). lra.
Qed.

(** A histogram over ascending edges counts every value between its first
    and its last edge once. *)
Lemma Zsum_hist_spec (a edges : list Q) :
  monotonic edges = true -> (2 <= List.length edges)%nat ->
  Zsum (hist_spec a edges)
  = count_if (in_closed (hd 0 edges) (List.last edges 0)) a.
Proof.
  induction edges as [|e0 tl IH]; intros Hm Hlen; [cbn in Hlen; lia|].
  destruct tl as [|e1 rest]; [cbn in Hlen; lia|].
  destruct rest as [|e2 rest].
  - cbn. lia.
  - rewrite hist_spec_cons3.
    change (monotonic (e0 :: e1 :: e2 :: rest))
      with (Qle_bool e0 e1 && monotonic (e1 :: e2 :: rest)) in Hm.
    apply andb_true_iff in Hm as [H01 Hm]. apply Qle_bool_iff in H01.
    cbn [Zsum fold_right]. fold (Zsum (hist_spec a (e1 :: e2 :: rest))).
    rewrite IH by (cbn [List.length]; try exact Hm; lia).
    change (List.last (e0 :: e1 :: e2 :: rest) 0)
      with (List.last (e1 :: e2 :: rest) 0).
    cbn [hd]. pose proof (monotonic_le_last _ _ Hm) as Hlast.
    apply count_if_split; intros x.
    + apply bool_eq_iff.
      rewrite orb_true_iff, in_bin_iff, !in_closed_iff.
      split; [intros [H1 H2]|intros [[H1 H2]|[H1 H2]]]; lra.
    + destruct (in_bin e0 e1 x) eqn:E1; [|reflexivity].
      destruct (in_closed e1 (List.last (e1 :: e2 :: rest) 0) x) eqn:E2;
        [|reflexivity].
      apply in_bin_iff in E1. apply in_closed_iff in E2. lra.
Qed.

Lemma bin_rate_generated_bins (data : spike_data) (lims : Q * Q) (w : Q)
    (count : bool) (axis : Z) (t : option (list Q)) :
  ~ w == 0 ->
  bin_rate data (Some lims) (PyFloat w) None None count axis t
  = bin_rate data (Some lims) (PyFloat w) None
      (Some (windows_array (regular_bins lims w))) count axis t.
Proof.
  intros Hw. unfold bin_rate.
  destruct (bin_rate_timestamps data axis t) as [e|pre]; [reflexivity|].
  cbn [rbind Ok Raise].
  rewrite (setup_sliding_windows_regular lims w None Hw) by (now left).
  reflexivity.
Qed.

Lemma regular_bins_last_end (lims : Q * Q) (w : Q) :
  (1 <= n_windows lims w)%nat ->
  snd (List.last (regular_bins lims w) (0, 0))
  == fst lims + inject_Z (Z.of_nat (n_windows lims w)) * w.
Proof.
  unfold regular_bins. generalize (n_windows lims w) as n. intros n Hn.
  destruct n as [|n]; [lia|].
  rewrite seq_S, !map_app. cbn [map]. rewrite last_last. cbn [snd Nat.add].
  rewrite inject_Z_of_nat_succ. ring.
Qed.

Lemma regular_bins_first_start (lims : Q * Q) (w : Q) :
  (1 <= n_windows lims w)%nat ->
  fst (hd (0, 0) (regular_bins lims w)) == fst lims.
Proof.
  unfold regular_bins. generalize (n_windows lims w) as n. intros n Hn.
  destruct n as [|n]; [lia|]. cbn [seq map hd fst].
  change (inject_Z (Z.of_nat 0)) with 0. ring.
Qed.

Lemma in_closed_Qeq (s s' e e' t : Q) :
  s == s' -> e == e' -> in_closed s e t = in_closed s' e' t.
Proof.
  intros Hs He. apply bool_eq_iff. rewrite !in_closed_iff.
  split; intros [H1 H2]; split; lra.
Qed.

Lemma hist_edges_hd (rows : windows) :
  rows <> [] -> hd 0 (hist_edges rows) = fst (hd (0, 0) rows).
Proof. destruct rows; [congruence|reflexivity]. Qed.

Lemma hist_edges_last (rows : windows) :
  List.last (hist_edges rows) 0 = snd (List.last rows (0, 0)).
Proof. unfold hist_edges. apply last_last. Qed.

Lemma hist_spec_bounds (a edges : list Q) :
  Forall (fun c => (0 <= c <= Z.of_nat (List.length a))%Z) (hist_spec a edges).
Proof.
  induction edges as [|e0 tl IH]; [constructor|].
  destruct tl as [|e1 rest]; [constructor|].
  destruct rest as [|e2 rest].
  - cbn [hist_spec]. constructor; [|constructor].
    split; [apply count_if_nonneg|apply count_if_le_length].
  - rewrite hist_spec_cons3. constructor; [|exact IH].
    split; [apply count_if_nonneg|apply count_if_le_length].
Qed.



(** ** Cutting timestamps into trials *)

Lemma in_bin_Qeq_start (s s' e : Q) (t : Q) :
  s == s' -> in_bin s e t = in_bin s' e t.
Proof.
  intros H. apply bool_eq_iff. rewrite !in_bin_iff.
  split; intros [H1 H2]; split; lra.
Qed.

Lemma filter_ext_all {A : Type} (p q : A -> bool) (l : list A) :
  (forall x, p x = q x) -> List.filter p l = List.filter q l.
Proof.
  intros H. induction l as [|x l IH]; [reflexivity|].
  cbn [List.filter]. now rewrite H, IH.
Qed.

Lemma filter_none {A : Type} (p : A -> bool) (l : list A) :
  (forall x, In x l -> p x = false) -> List.filter p l = [].
Proof.
  induction l as [|x l IH]; intros H; [reflexivity|].
  cbn [List.filter]. rewrite (H x) by now left.
  apply IH. intros y Hy. apply H. now right.
Qed.

(** Two adjoining intervals share out the values of their union. *)
Lemma filter_adjoining_perm (s m e : Q) (l : list Q) :
  s <= m -> m <= e ->
  Permutation (List.filter (in_bin s m) l ++ List.filter (in_bin m e) l)
              (List.filter (in_bin s e) l).
Proof.
  intros Hsm Hme. induction l as [|x l IH]; [constructor|].
  cbn [List.filter].
  destruct (in_bin s m x) eqn:E1, (in_bin m e x) eqn:E2,
           (in_bin s e x) eqn:E3;
    repeat match goal with
    | H : in_bin _ _ _ = true |- _ => apply in_bin_iff in H
    | H : in_bin _ _ _ = false |- _ =>
        apply not_true_iff_false in H; rewrite in_bin_iff in H
    end; try (exfalso; lra); try (exfalso; apply E3; lra).
  - cbn [app]. now constructor.
  - symmetry. apply Permutation_cons_app. now symmetry.
  - exact IH.
Qed.

Lemma filter_adjoining_sorted (s m e : Q) (l : list Q) :
  s <= m -> m <= e -> StronglySorted Qle l ->
  List.filter (in_bin s m) l ++ List.filter (in_bin m e) l
  = List.filter (in_bin s e) l.
Proof.
  intros Hsm Hme Hs. induction Hs as [|x l Hs IH Hall]; [reflexivity|].
  cbn [List.filter].
  destruct (in_bin s m x) eqn:E1, (in_bin m e x) eqn:E2,
           (in_bin s e x) eqn:E3;
    repeat match goal with
    | H : in_bin _ _ _ = true |- _ => apply in_bin_iff in H
    | H : in_bin _ _ _ = false |- _ =>
        apply not_true_iff_false in H; rewrite in_bin_iff in H
    end; try (exfalso; lra); try (exfalso; apply E3; lra).
  - cbn [app]. now rewrite IH.
  - assert (Hnil : List.filter (in_bin s m) l = []).
    { apply filter_none. intros y Hy. apply not_true_iff_false.
      rewrite in_bin_iff. rewrite List.Forall_forall in Hall.
      specialize (Hall y Hy). lra. }
    rewrite Hnil in *. cbn [app] in *. now rewrite IH.
  - exact IH.
Qed.

Lemma contiguous_tail (b : Q * Q) (rest : windows) :
  contiguous (b :: rest) -> contiguous rest.
Proof. destruct rest as [|b' rest]; [intros _; exact I|now intros [_ H]]. Qed.

Lemma contiguous_span_ordered (b : Q * Q) (rest : windows) :
  contiguous (b :: rest) -> Forall ordered (b :: rest) ->
  fst b <= snd (List.last (b :: rest) (0, 0)).
Proof.
  revert b. induction rest as [|b' rest IH]; intros b Hc Ho.
  - inversion Ho as [|? ? Hb _]; subst. exact Hb.
  - destruct Hc as [Hbb' Hc]. inversion Ho as [|? ? Hb Ho']; subst.
    change (List.last (b :: b' :: rest) (0, 0))
      with (List.last (b' :: rest) (0, 0)).
    specialize (IH b' Hc Ho'). unfold ordered in Hb. lra.
Qed.

Lemma trial_cuts_perm (train : list Q) (rows : windows) :
  contiguous rows -> Forall ordered rows ->
  Permutation
    (concat (map (fun r : Q * Q => List.filter (in_bin (fst r) (snd r)) train)
               rows))
    (within_span rows train).
Proof.
  unfold within_span, span.
  induction rows as [|b rest IH]; intros Hc Ho.
  - cbn. rewrite filter_none; [constructor|].
    intros x _. apply not_true_iff_false. rewrite in_bin_iff. lra.
  - destruct rest as [|b' rest].
    + cbn. rewrite app_nil_r. reflexivity.
    + pose proof (contiguous_span_ordered b' rest (contiguous_tail _ _ Hc)
                    ltac:(now inversion Ho)) as Hle.
      specialize (IH (contiguous_tail _ _ Hc) ltac:(now inversion Ho)).
      destruct Hc as [Hbb' _]. inversion Ho as [|? ? Hb _]; subst.
      unfold ordered in Hb.
      change (List.last (b :: b' :: rest) (0, 0))
        with (List.last (b' :: rest) (0, 0)).
      cbn [map concat hd fst snd] in *.
      rewrite IH.
      rewrite (filter_ext_all _ _ train
                 (fun x => in_bin_Qeq_start (fst b') (snd b) _ x Hbb')).
      apply filter_adjoining_perm; lra.
Qed.

Lemma trial_cuts_sorted (train : list Q) (rows : windows) :
  contiguous rows -> Forall ordered rows -> StronglySorted Qle train ->
  concat (map (fun r : Q * Q => List.filter (in_bin (fst r) (snd r)) train)
            rows)
  = within_span rows train.
Proof.
  unfold within_span, span. intros Hc Ho Hs.
  induction rows as [|b rest IH].
  - cbn. rewrite filter_none; [reflexivity|].
    intros x _. apply not_true_iff_false. rewrite in_bin_iff. lra.
  - destruct rest as [|b' rest].
    + cbn. now rewrite app_nil_r.
    + pose proof (contiguous_span_ordered b' rest (contiguous_tail _ _ Hc)
                    ltac:(now inversion Ho)) as Hle.
      specialize (IH (contiguous_tail _ _ Hc) ltac:(now inversion Ho)).
      destruct Hc as [Hbb' _]. inversion Ho as [|? ? Hb _]; subst.
      unfold ordered in Hb.
      change (List.last (b :: b' :: rest) (0, 0))
        with (List.last (b' :: rest) (0, 0)).
      cbn [map concat hd fst snd] in *.
      rewrite IH.
      rewrite (filter_ext_all _ _ train
                 (fun x => in_bin_Qeq_start (fst b') (snd b) _ x Hbb')).
      apply filter_adjoining_sorted; [lra|lra|exact Hs].
Qed.

Lemma map_combine_seq_snd {A B : Type} (g : A -> B) (l : list A) (k : nat) :
  map (fun it : nat * A => g (snd it)) (combine (seq k (List.length l)) l)
  = map g l.
Proof.
  revert k. induction l as [|x l IH]; intros k; [reflexivity|].
  cbn [List.length seq combine map snd]. now rewrite IH.
Qed.

(** X5.  Cutting timestamps at trial limits that follow one another (each
    trial starts where the one before ends, no trial ends before it starts)
    loses and duplicates no spike: for every train there is one cut per
    trial, and the cuts together hold exactly the spikes of the train from
    the first start (included) to the last end (excluded); for a train in
    ascending order, in the order of the train. *)
Theorem cut_trials_spike_times_contiguous (trains : list (list Q))
    (rows : windows) :
  contiguous rows -> Forall ordered rows ->
  exists cut : list (list (list Q)),
    cut_trials_spike_times (ObjArr trains) (windows_array rows) None = Ok cut
    /\ Forall2
         (fun train trials =>
            List.length trials = List.length rows
            /\ Permutation (concat trials) (within_span rows train)
            /\ (StronglySorted Qle train ->
                concat trials = within_span rows train))
         trains cut.
Proof.
  intros Hc Ho.
  exists (map (fun train =>
                 map (fun r : Q * Q =>
                        List.filter (in_bin (fst r) (snd r)) train) rows)
              trains).
  split.
  - unfold cut_trials_spike_times.
    change (py_assert _ _) with (@Ok unit tt). cbn [rbind Ok Raise].
    rewrite firstn_rows_windows_array.
    apply map_result_all_ok. intros train _.
    rewrite (map_result_all_ok _
               (fun it : nat * (Q * Q) =>
                  List.filter (in_bin (fst (snd it)) (snd (snd it))) train))
      by (intros it _; reflexivity).
    f_equal.
    apply (map_combine_seq_snd
             (fun r : Q * Q => List.filter (in_bin (fst r) (snd r)) train)).
  - induction trains as [|train trains IH]; [constructor|].
    cbn [map]. constructor; [|exact IH].
    split; [now rewrite length_map|]. split.
    + now apply trial_cuts_perm.
    + intros Hs. now apply trial_cuts_sorted.
Qed.

Lemma cut_trials_spike_times_contiguous_witness :
  contiguous [(0, 1); (1, 2)]
  /\ Forall ordered [(0, 1); (1, 2)]
  /\ exists cut : list (list (list Q)),
       cut_trials_spike_times (ObjArr [[1 # 2; 1; 3 # 2; 2]])
         (windows_array [(0, 1); (1, 2)]) None = Ok cut
       /\ Forall2
            (fun train trials =>
               List.length trials = List.length [(0, 1); (1, 2)]
               /\ Permutation (concat trials)
                    (within_span [(0, 1); (1, 2)] train)
               /\ (StronglySorted Qle train ->
                   concat trials = within_span [(0, 1); (1, 2)] train))
            [[1 # 2; 1; 3 # 2; 2]] cut.
Proof.
  assert (H1 : contiguous [(0, 1); (1, 2)]) by (split; [reflexivity|exact I]).
  assert (H2 : Forall ordered [(0, 1); (1, 2)])
    by (repeat constructor; unfold ordered; cbn; lra).
  split; [exact H1|]. split; [exact H2|].
  exact (cut_trials_spike_times_contiguous [[1 # 2; 1; 3 # 2; 2]]
           [(0, 1); (1, 2)] H1 H2).
Defined.

(** ** Trials of boolean data *)

(** X6.  [cut_trials] takes a single train only in an object array: a plain
    numeric vector of timestamps (one that holds a value other than 0 and 1)
    is classified 'rate' and refused, whatever the trial limits. *)
Theorem cut_trials_rejects_timestamp_vector (dt : dtype) (v : list Q)
    (trial_lims : ndarray) (smp_rate : option Q) :
  _isbinary (NumVec dt v) = false ->
  exists msg,
    cut_trials (NumVec dt v) trial_lims smp_rate = Raise (ValueError msg).
Proof.
  intros Hb. unfold cut_trials.
  rewrite (spike_data_type_nonbinary_vector dt v Hb).
  cbn [rbind Ok Raise]. eexists. reflexivity.
Qed.

Lemma cut_trials_rejects_timestamp_vector_witness :
  _isbinary (NumVec d_float [1 # 10; 3 # 10; 6 # 10]) = false
  /\ exists msg,
       cut_trials (NumVec d_float [1 # 10; 3 # 10; 6 # 10])
         (windows_array [(0, 1 # 2); (1 # 2, 1)]) None
       = Raise (ValueError msg).
Proof.
  split; [reflexivity|].
  apply (cut_trials_rejects_timestamp_vector d_float [1 # 10; 3 # 10; 6 # 10]).
  reflexivity.
Defined.

(** X7.  Boolean data cannot be cut into a single trial: with one row of
    trial limits [cut_trials] raises for every train and every sampling
    rate, and when the limits lie inside the data the error is the
    IndexError of [window_lengths[0]] in [_check_window_lengths]. *)
Theorem cut_trials_bool_single_trial (b : list bool) (row : Q * Q)
    (smp_rate : option Q) :
  is_ok (cut_trials (BoolVec b) (windows_array [row]) smp_rate) = false
  /\ (forall r : Q,
        smp_rate = Some r ->
        Forall (idx_in_range (List.length b)) (trial_sample_idxs r [row]) ->
        exists msg,
          cut_trials (BoolVec b) (windows_array [row]) smp_rate
          = Raise (IndexError msg)).
Proof.
  rewrite cut_trials_bool_dispatch. split.
  - destruct smp_rate as [r|]; [|reflexivity].
    open_cut_trials_spike_bool r [row].
    cbn [trial_sample_idxs map flat_map app hd rbind Ok Raise].
    destruct (py_assert (0 <=? _)%Z _) as [e|[]]; [reflexivity|].
    cbn [rbind Ok Raise].
    destruct (py_assert (_ <? _)%Z _) as [e|[]]; reflexivity.
  - intros r -> Hin. open_cut_trials_spike_bool r [row].
    pose proof (proj1 (in_range_all_idxs _ _) Hin) as [Hmin Hmax].
    cbn [trial_sample_idxs map flat_map app hd fst snd rbind Ok Raise] in *.
    set (i0 := round_half_even (r * fst row)) in *.
    set (i1 := round_half_even (r * snd row)) in *.
    assert (E1 : (0 <=? list_min i0 [i0; i1])%Z = true).
    { apply Z.leb_le, list_min_lower. split; [now inversion Hmin|exact Hmin]. }
    assert (E2 : (list_max i0 [i0; i1] <? Z.of_nat (List.length b))%Z = true).
    { apply Z.ltb_lt, list_max_upper. split; [now inversion Hmax|exact Hmax]. }
    rewrite E1, E2. cbn [py_assert rbind Ok Raise].
    eexists. reflexivity.
Qed.

Lemma cut_trials_bool_single_trial_witness :
  Forall (idx_in_range (List.length (repeat true 10)))
    (trial_sample_idxs 10 [(0, 1 # 2)])
  /\ exists msg,
       cut_trials (BoolVec (repeat true 10)) (windows_array [(0, 1 # 2)])
         (Some 10)
       = Raise (IndexError msg).
Proof.
  assert (H : Forall (idx_in_range (List.length (repeat true 10)))
                (trial_sample_idxs 10 [(0, 1 # 2)])).
  { repeat constructor; vm_compute; congruence. }
  split; [exact H|].
  exact (proj2 (cut_trials_bool_single_trial (repeat true 10) (0, 1 # 2)
                  (Some 10)) 10 eq_refl H).
Defined.

Lemma isclose_integers (l l0 : Z) :
  (Z.abs l0 < 99999)%Z ->
  np_isclose (inject_Z l) (inject_Z l0) = true -> l = l0.
Proof.
  intros Hl0 H. unfold np_isclose, np_atol, np_rtol in H.
  apply Qle_bool_iff, Qabs_Qle_condition in H. destruct H as [H1 H2].
  assert (Hb : Qabs (inject_Z l0) <= inject_Z 99998).
  { apply Qabs_Qle_condition. split.
    - change (- inject_Z 99998) with (inject_Z (- 99998)).
      rewrite <- Zle_Qle. lia.
    - rewrite <- Zle_Qle. lia. }
  change (inject_Z 99998) with 99998 in Hb.
  assert (Hlt : inject_Z l < inject_Z (l0 + 1)).
  { rewrite inject_Z_plus. change (inject_Z 1) with 1. lra. }
  assert (Hgt : inject_Z (l0 - 1) < inject_Z l).
  { unfold Z.sub. rewrite inject_Z_plus. change (inject_Z (- (1))) with (- 1).
    lra. }
  rewrite <- Zlt_Qlt in Hlt, Hgt. lia.
Qed.

(** X8.  When [_check_window_lengths] returns (first window shorter than
    99999 samples), the windows it returns keep their starts, all have the
    same length, and no end has moved by more than the tolerance. *)
Theorem check_window_lengths_result (wins wins' : idx_windows) (tol : Z) :
  _check_window_lengths wins tol = Ok wins' ->
  (Z.abs (snd (hd (0, 0)%Z wins) - fst (hd (0, 0)%Z wins)) < 99999)%Z ->
  map fst wins' = map fst wins
  /\ (exists L : Z, Forall (fun w : Z * Z => (snd w - fst w)%Z = L) wins')
  /\ Forall2 (fun w w' : Z * Z => (Z.abs (snd w' - snd w) <= Z.max 0 tol)%Z)
       wins wins'.
Proof.
  unfold _check_window_lengths. intros H Hsmall.
  destruct wins as [|w1 [|w2 ws]]; cbn [rbind Ok Raise] in H;
    [discriminate|discriminate|].
  set (wins := w1 :: w2 :: ws) in *.
  set (lengths := map (fun w : Z * Z => (snd w - fst w)%Z) wins) in *.
  destruct (np_allclose_scalar _ _) eqn:Ec.
  - injection H as <-. split; [reflexivity|]. split.
    + exists (hd 0%Z lengths). apply List.Forall_forall. intros w Hw.
      unfold np_allclose_scalar in Ec. rewrite forallb_forall in Ec.
      apply (isclose_integers _ _ Hsmall). apply Ec.
      apply in_map. unfold lengths.
      apply (in_map (fun w : Z * Z => (snd w - fst w)%Z)). exact Hw.
    + clearbody wins. clear. induction wins as [|w ws IH]; constructor.
      * rewrite Z.sub_diag. cbn. lia.
      * exact IH.
  - destruct (Z.leb_spec
                (list_max 0
                   (map (fun l => Z.abs (l - mode_Z lengths)) lengths)) tol)
      as [Hm|Hm]; cbn [py_assert rbind Ok Raise] in H; [|discriminate].
    assert (Hw' : wins'
                  = map (fun w : Z * Z =>
                           (fst w,
                            (snd w + (mode_Z lengths - (snd w - fst w)))%Z))
                        wins)
      by (unfold Ok in H; congruence).
    rewrite Hw'. clear H Hw'. split; [|split].
    + rewrite map_map. reflexivity.
    + exists (mode_Z lengths). apply Forall_map.
      apply List.Forall_forall. intros w _. cbn [fst snd]. lia.
    + apply Z.lt_succ_r, list_max_upper in Hm as [_ Hm].
      assert (Hall : Forall (fun w : Z * Z =>
                (Z.abs ((snd w - fst w) - mode_Z lengths) <= tol)%Z) wins).
      { apply List.Forall_forall. intros w Hw.
        rewrite List.Forall_forall in Hm. apply Z.lt_succ_r. apply Hm.
        apply in_map_iff. exists (snd w - fst w)%Z. split; [reflexivity|].
        unfold lengths.
        apply (in_map (fun w : Z * Z => (snd w - fst w)%Z)). exact Hw. }
      clearbody wins lengths. clear -Hall.
      induction Hall as [|w ws Hw Hall IH]; cbn [map]; constructor.
      * cbn [snd fst]. lia.
      * exact IH.
Qed.

Lemma check_window_lengths_result_witness :
  _check_window_lengths [(0, 10); (10, 21); (21, 31)]%Z 1
  = Ok [(0, 10); (10, 20); (21, 31)]%Z
  /\ map fst [(0, 10); (10, 20); (21, 31)]%Z
     = map fst [(0, 10); (10, 21); (21, 31)]%Z
  /\ (exists L : Z,
        Forall (fun w : Z * Z => (snd w - fst w)%Z = L)
          [(0, 10); (10, 20); (21, 31)]%Z)
  /\ Forall2 (fun w w' : Z * Z => (Z.abs (snd w' - snd w) <= Z.max 0 1)%Z)
       [(0, 10); (10, 21); (21, 31)]%Z [(0, 10); (10, 20); (21, 31)]%Z.
Proof.
  assert (H : _check_window_lengths [(0, 10); (10, 21); (21, 31)]%Z 1
              = Ok [(0, 10); (10, 20); (21, 31)]%Z) by (vm_compute; reflexivity).
  split; [exact H|].
  apply (check_window_lengths_result _ _ 1 H). cbn. lia.
Defined.

(** ** Trains that look boolean, and the two counting paths *)

Lemma bin_rate_binary_train_raises (dt : dtype) (v : list Q)
    (lims : option (Q * Q)) (width : pynum) (step : option pynum)
    (bins : option ndarray) (count : bool) (axis : Z) :
  _isbinary (NumVec dt v) = true ->
  exists msg,
    bin_rate (NumVec dt v) lims width step bins count axis None
    = Raise (AssertionError msg).
Proof.
  intros Hb. unfold bin_rate, bin_rate_timestamps, _spike_data_type.
  rewrite Hb. cbn [rbind Ok Raise String.eqb Ascii.eqb Bool.eqb].
  eexists. reflexivity.
Qed.

(** X9.  A single train given as a plain numeric vector that holds no spike
    at all, or only spikes at exactly 0 and 1, is taken for a boolean train:
    [bin_rate] then asks for the time vector [t] and raises without it,
    whatever the limits and bins. *)
Theorem bin_rate_binary_vector_needs_t (dt : dtype) (v : list Q)
    (lims : option (Q * Q)) (width : pynum) (step : option pynum)
    (bins : option ndarray) (count : bool) (axis : Z) :
  _isbinary (NumVec dt v) = true ->
  exists msg,
    bin_rate (NumVec dt v) lims width step bins count axis None
    = Raise (AssertionError msg).
Proof. apply bin_rate_binary_train_raises. Qed.

Lemma bin_rate_binary_vector_needs_t_witness :
  _isbinary (NumVec d_float []) = true
  /\ exists msg,
       bin_rate (NumVec d_float []) (Some (0, 1)) (PyFloat (1 # 10)) None None
         true (-1) None
       = Raise (AssertionError msg).
Proof.
  split; [reflexivity|].
  apply (bin_rate_binary_vector_needs_t d_float []). reflexivity.
Defined.

(** X10.  On a regular WindowSet (equal widths, each bin starting where the
    one before ends) the histogram path and the explicit-inclusion path give
    the same counts for every train of fewer than 65536 spikes none of which
    lies on the end of the last bin. *)
Theorem counting_paths_agree_off_final_edge (w : Q) (train : list Q)
    (bins : windows) :
  0 < w -> regular w bins -> bins <> [] ->
  Forall (fun t => ~ t == snd (List.last bins (0, 0))) train ->
  (Z.of_nat (List.length train) < 65536)%Z ->
  _histogram_count train (hist_edges bins) = Ok (_custom_bin_count train bins).
Proof. apply histogram_custom_agree_off_final_edge. Qed.

Lemma counting_paths_agree_off_final_edge_witness :
  0 < 1
  /\ regular 1 [(0, 1); (1, 2)]
  /\ [(0, 1); (1, 2)] <> []
  /\ Forall (fun t => ~ t == snd (List.last [(0, 1); (1, 2)] (0, 0)))
       [1 # 2; 1; 3 # 2]
  /\ Z.lt (Z.of_nat (List.length [1 # 2; 1; 3 # 2])) 65536
  /\ _histogram_count [1 # 2; 1; 3 # 2] (hist_edges [(0, 1); (1, 2)])
     = Ok (_custom_bin_count [1 # 2; 1; 3 # 2] [(0, 1); (1, 2)]).
Proof.
  assert (H1 : 0 < 1) by reflexivity.
  assert (H2 : regular 1 [(0, 1); (1, 2)]).
  { split; [repeat constructor|split; [reflexivity|exact I]]. }
  assert (H3 : [(0, 1); (1, 2)] <> []) by discriminate.
  assert (H4 : Forall (fun t => ~ t == snd (List.last [(0, 1); (1, 2)] (0, 0)))
                 [1 # 2; 1; 3 # 2]).
  { repeat constructor; cbn; intros H; discriminate H. }
  assert (H5 : Z.lt (Z.of_nat (List.length [1 # 2; 1; 3 # 2])) 65536)
    by (cbn; lia).
  repeat (split; [assumption|]).
  exact (counting_paths_agree_off_final_edge 1 [1 # 2; 1; 3 # 2]
           [(0, 1); (1, 2)] H1 H2 H3 H4 H5).
Defined.

(** X11.  [times_to_bool] on a regular WindowSet of at least two bins of
    positive width: for every train, bin [k] is True exactly when the train
    has a spike with [start_k <= t < end_k] (for the last bin,
    [start <= t <= end]), and the time points returned are the bin
    centers. *)
Theorem times_to_bool_marks_bins (data : spike_data)
    (lims : option (Q * Q)) (width : pynum) (w : Q) (bins : windows) :
  _isbinary data = false -> 0 < w -> regular w bins ->
  (2 <= List.length bins)%nat ->
  times_to_bool data lims width (Some (windows_array bins))
  = Ok (squeeze0 (single_train_of data)
          (map (fun train => bin_marks train bins) (_enclose_cells data)) [],
        map bin_center bins).
Proof. apply times_to_bool_regular. Qed.

Lemma times_to_bool_marks_bins_witness :
  _isbinary (ObjArr [[1 # 2; 2]; []]) = false
  /\ 0 < 1
  /\ regular 1 [(0, 1); (1, 2)]
  /\ le 2 (List.length [(0, 1); (1, 2)])
  /\ times_to_bool (ObjArr [[1 # 2; 2]; []]) None (PyFloat 1)
       (Some (windows_array [(0, 1); (1, 2)]))
     = Ok (squeeze0 (single_train_of (ObjArr [[1 # 2; 2]; []]))
             (map (fun train => bin_marks train [(0, 1); (1, 2)])
                (_enclose_cells (ObjArr [[1 # 2; 2]; []]))) [],
           map bin_center [(0, 1); (1, 2)]).
Proof.
  assert (H1 : _isbinary (ObjArr [[1 # 2; 2]; []]) = false) by reflexivity.
  assert (H2 : 0 < 1) by reflexivity.
  assert (H3 : regular 1 [(0, 1); (1, 2)]).
  { split; [repeat constructor|split; [reflexivity|exact I]]. }
  assert (H4 : le 2 (List.length [(0, 1); (1, 2)])) by (cbn; lia).
  repeat (split; [assumption|]).
  exact (times_to_bool_marks_bins (ObjArr [[1 # 2; 2]; []]) None (PyFloat 1) 1
           [(0, 1); (1, 2)] H1 H2 H3 H4).
Defined.

(** ** Realignment: composition and failure *)

Lemma realign_spike_times_spec (h : heap) (spike_times : loc)
    (trains : list (list Q)) (align_times : list Q) :
  read_collection h spike_times = Some trains ->
  (List.length align_times <= List.length trains)%nat ->
  exists h' : heap,
    realign_spike_times h spike_times align_times 0 = (h', Ok spike_times)
    /\ read_collection h' spike_times = Some (shift_trains trains align_times)
    /\ (forall l, l <> spike_times -> is_Some (h !! l) -> h' !! l = h !! l).
Proof.
  intros Hread Hlen. unfold read_collection in Hread.
  destruct (h !! spike_times) as [[v|cells]|] eqn:Hst; try discriminate.
  destruct (realign_loop_spec align_times h spike_times cells trains 0
              Hst Hread ltac:(lia))
    as [h' [cells' [Hloop [Hst' [Hread' Hframe]]]]].
  exists h'. unfold realign_spike_times. cbn [Z.eqb orb negb].
  rewrite Hloop. split; [reflexivity|]. split; [|exact Hframe].
  unfold read_collection. rewrite Hst'. rewrite Hread'.
  now rewrite take_0, drop_0.
Qed.

Lemma shift_trains_length (trains : list (list Q)) (a : list Q) :
  List.length (shift_trains trains a) = List.length trains.
Proof.
  revert a. induction trains as [|tr trs IH]; intros a; [reflexivity|].
  destruct a as [|x a]; [reflexivity|]. cbn. now rewrite IH.
Qed.

Lemma shift_twice (trains : list (list Q)) (a b : list Q) :
  List.length a = List.length b ->
  same_trains (shift_trains (shift_trains trains a) b)
              (shift_trains trains (add_align a b)).
Proof.
  unfold same_trains. revert a b.
  induction trains as [|tr trs IH]; intros a b Hlen; [constructor|].
  destruct a as [|x a], b as [|y b]; try discriminate.
  - cbn. apply Forall2_same_length_lookup_2; [reflexivity|].
    intros i u v Hu Hv. rewrite Hu in Hv. injection Hv as <-.
    apply Forall2_same_length_lookup_2; [reflexivity|].
    intros j p q Hp Hq. rewrite Hp in Hq. injection Hq as <-. reflexivity.
  - cbn [shift_trains add_align]. constructor.
    + rewrite map_map. clear. induction tr as [|t tr IH]; constructor.
      * ring.
      * exact IH.
    + apply IH. cbn in Hlen. lia.
Qed.



Lemma realign_loop_app (a1 a2 : list Q) :
  forall (h : heap) (st : loc) (k : nat),
    realign_loop h st k (a1 ++ a2)
    = match realign_loop h st k a1 with
      | (h1, inr _) => realign_loop h1 st (k + List.length a1) a2
      | (h1, inl e) => (h1, inl e)
      end.
Proof.
  induction a1 as [|a a1 IH]; intros h st k.
  - cbn [app realign_loop List.length]. now rewrite Nat.add_0_r.
  - cbn [app realign_loop List.length].
    destruct (realign_trial h st k a) as [e|h']; [reflexivity|].
    rewrite IH. now rewrite Nat.add_succ_r.
Qed.

Lemma shift_trains_firstn (trains : list (list Q)) (a : list Q) :
  shift_trains trains (firstn (List.length trains) a) = shift_trains trains a.
Proof.
  revert a. induction trains as [|tr trs IH]; intros a; [now destruct a|].
  destruct a as [|x a]; [reflexivity|]. cbn. now rewrite IH.
Qed.



(** ** Boolean trains and their timestamps *)

Lemma mask_select_length (t : list Q) (b : list bool) :
  List.length b = List.length t ->
  List.length (mask_select t b) = count_true b.
Proof.
  revert b. induction t as [|x t IH]; intros [|y b] Hlen; try discriminate;
    [reflexivity|].
  injection Hlen as Hlen. unfold count_true in *. cbn [mask_select List.filter].
  destruct y; cbn [List.length]; now rewrite IH.
Qed.

Lemma mask_select_In (t : list Q) (b : list bool) (x : Q) :
  In x (mask_select t b) -> In x t.
Proof.
  revert b. induction t as [|y t IH]; intros [|c b] H; cbn in H;
    try contradiction.
  destruct c; [destruct H as [<-|H]|]; [now left|right; eauto|right; eauto].
Qed.

Lemma mask_select_sorted (R : Q -> Q -> Prop) (t : list Q) (b : list bool) :
  StronglySorted R t -> StronglySorted R (mask_select t b).
Proof.
  intros Hs. revert b. induction Hs as [|x t Hs IH Hall]; intros [|c b];
    cbn [mask_select]; try constructor.
  destruct c; [|apply IH]. constructor; [apply IH|].
  apply List.Forall_forall. intros y Hy.
  rewrite List.Forall_forall in Hall. apply Hall.
  eapply mask_select_In, Hy.
Qed.



Lemma uniform_step (t0 dt : Q) (j k : nat) :
  0 < dt -> (j < k)%nat ->
  t0 + inject_Z (Z.of_nat j) * dt + dt <= t0 + inject_Z (Z.of_nat k) * dt.
Proof.
  intros Hdt Hjk.
  assert (H : inject_Z (Z.of_nat j) + 1 <= inject_Z (Z.of_nat k)).
  { change 1 with (inject_Z 1). rewrite <- inject_Z_plus, <- Zle_Qle. lia. }
  apply (proj2 (Qmult_le_r _ _ _ Hdt)) in H. lra.
Qed.

Lemma sample_bin_holds_own_sample (t0 dt : Q) (j k : nat) (closed : bool) :
  0 < dt ->
  let x := t0 + inject_Z (Z.of_nat k) * dt in
  (if closed then in_closed (x - dt / 2) (x + dt / 2)
   else in_bin (x - dt / 2) (x + dt / 2))
    (t0 + inject_Z (Z.of_nat j) * dt)
  = (j =? k)%nat.
Proof.
  intros Hdt x. subst x. apply bool_eq_iff. rewrite Nat.eqb_eq.
  assert (Hh : dt / 2 == (1 # 2) * dt) by (field).
  split.
  - intros H.
    assert (Hb : t0 + inject_Z (Z.of_nat k) * dt - dt / 2
                 <= t0 + inject_Z (Z.of_nat j) * dt
                 /\ t0 + inject_Z (Z.of_nat j) * dt
                    <= t0 + inject_Z (Z.of_nat k) * dt + dt / 2).
    { destruct closed.
      - now apply in_closed_iff in H.
      - apply in_bin_iff in H. split; lra. }
    destruct (lt_eq_lt_dec j k) as [[Hlt|Heq]|Hgt]; [|exact Heq|].
    + pose proof (uniform_step t0 dt j k Hdt Hlt). lra.
    + pose proof (uniform_step t0 dt k j Hdt Hgt). lra.
  - intros ->. destruct closed.
    + apply in_closed_iff. lra.
    + apply in_bin_iff. lra.
Qed.

Lemma existsb_ext_In {A : Type} (p q : A -> bool) (l : list A) :
  (forall x, In x l -> p x = q x) -> existsb p l = existsb q l.
Proof.
  induction l as [|x l IH]; intros H; [reflexivity|].
  cbn [existsb]. rewrite (H x) by now left.
  rewrite IH; [reflexivity|]. intros y Hy. apply H. now right.
Qed.

Lemma existsb_mask_select (p : Q -> bool) (f : nat -> Q) (b : list bool)
    (s : nat) :
  existsb p (mask_select (map f (seq s (List.length b))) b)
  = existsb (fun i => nth (i - s) b false && p (f i)) (seq s (List.length b)).
Proof.
  revert s. induction b as [|c b IH]; intros s; [reflexivity|].
  cbn [List.length seq map mask_select existsb].
  assert (Hext : existsb (fun i => nth (i - s) (c :: b) false && p (f i))
                   (seq (S s) (List.length b))
                 = existsb (fun i => nth (i - S s) b false && p (f i))
                     (seq (S s) (List.length b))).
  { apply existsb_ext_In. intros i Hi. apply in_seq in Hi.
    replace (i - s)%nat with (S (i - S s)) by lia. reflexivity. }
  rewrite Hext, <- IH, Nat.sub_diag. destruct c; reflexivity.
Qed.

Lemma existsb_single (n k : nat) (c : nat -> bool) :
  (k < n)%nat ->
  existsb (fun i => c i && (i =? k)%nat) (seq 0 n) = c k.
Proof.
  intros Hk. apply bool_eq_iff. rewrite existsb_exists. split.
  - intros [i [_ Hi]]. apply andb_true_iff in Hi as [Hc He].
    apply Nat.eqb_eq in He. now subst.
  - intros Hc. exists k. split; [apply in_seq; lia|].
    now rewrite Hc, Nat.eqb_refl.
Qed.

Lemma bin_marks_open_closed (train : list Q) (bins : windows) :
  (forall b, In b bins ->
     existsb (in_closed (fst b) (snd b)) train
     = existsb (in_bin (fst b) (snd b)) train) ->
  bin_marks train bins
  = map (fun b : Q * Q => existsb (in_bin (fst b) (snd b)) train) bins.
Proof.
  induction bins as [|b rest IH]; intros H; [reflexivity|].
  destruct rest as [|b' rest].
  - cbn [bin_marks map]. now rewrite (H b) by now left.
  - rewrite bin_marks_cons2. cbn [map]. f_equal.
    apply IH. intros x Hx. apply H. now right.
Qed.

Lemma map_nth_seq {A : Type} (l : list A) (d : A) :
  map (fun i => nth i l d) (seq 0 (List.length l)) = l.
Proof.
  induction l as [|x l IH]; [reflexivity|].
  cbn [List.length seq map nth]. f_equal.
  rewrite <- seq_shift, map_map. exact IH.
Qed.

(** The bins around the samples of a uniform time vector mark exactly the
    samples whose timestamps a boolean train selects. *)
Lemma bin_marks_sample_bins (b : list bool) (t0 dt : Q) :
  0 < dt ->
  bin_marks (mask_select (uniform_times t0 dt (List.length b)) b)
    (sample_bins dt (uniform_times t0 dt (List.length b)))
  = b.
Proof.
  intros Hdt. unfold uniform_times, sample_bins.
  set (f := fun i : nat => t0 + inject_Z (Z.of_nat i) * dt).
  set (train := mask_select (map f (seq 0 (List.length b))) b).
  assert (Hmark : forall (closed : bool) (k : nat),
            (k < List.length b)%nat ->
            existsb (if closed then in_closed (f k - dt / 2) (f k + dt / 2)
                     else in_bin (f k - dt / 2) (f k + dt / 2)) train
            = nth k b false).
  { intros closed k Hk. unfold train. rewrite existsb_mask_select.
    rewrite <- (existsb_single (List.length b) k (fun i => nth i b false) Hk).
    apply existsb_ext_In. intros i _. rewrite Nat.sub_0_r. f_equal.
    apply (sample_bin_holds_own_sample t0 dt i k closed Hdt). }
  rewrite bin_marks_open_closed.
  - rewrite !map_map. cbn [fst snd].
    transitivity (map (fun i => nth i b false) (seq 0 (List.length b)));
      [|apply map_nth_seq].
    apply map_ext_in. intros k Hk. apply in_seq in Hk.
    apply (Hmark false k). lia.
  - intros bin Hbin. rewrite map_map in Hbin.
    apply in_map_iff in Hbin as [k [<- Hk]]. apply in_seq in Hk.
    cbn [fst snd].
    rewrite (Hmark true k) by lia. now rewrite (Hmark false k) by lia.
Qed.

Lemma sample_bins_regular (t0 dt : Q) (n : nat) :
  regular dt (sample_bins dt (uniform_times t0 dt n)).
Proof.
  unfold sample_bins, uniform_times.
  generalize 0%nat as k. revert n.
  induction n as [|n IH]; intros k; [split; [constructor|exact I]|].
  destruct (IH (S k)) as [Hw Hc]. split.
  - cbn [seq map]. constructor; [cbn [fst snd]; field|exact Hw].
  - cbn [seq map]. destruct n as [|n]; [exact I|].
    cbn [seq map contiguous fst snd] in *. split; [|exact Hc].
    rewrite inject_Z_of_nat_succ. field.
Qed.

Lemma sample_bins_centers (dt : Q) (t : list Q) :
  Forall2 Qeq (map bin_center (sample_bins dt t)) t.
Proof.
  unfold sample_bins. rewrite map_map.
  induction t as [|x t IH]; constructor; [|exact IH].
  unfold bin_center. cbn [fst snd]. field.
Qed.

(** X15.  From a boolean train to timestamps and back.  For a train over a
    uniform time vector ([n >= 2] samples, [dt > 0] apart),
    [bool_to_times] followed by [times_to_bool] on the bins
    [[t - dt/2, t + dt/2]] gives the train back, with the time vector as bin
    centers, provided some spike lies at a time other than 0 and 1.  When
    the train has no spike, or only spikes at the times 0 and 1, the
    timestamps are taken for a boolean train and [times_to_bool] raises. *)
Theorem bool_times_bool_round_trip (b : list bool) (t0 dt : Q)
    (lims : option (Q * Q)) (width : pynum) :
  0 < dt -> (2 <= List.length b)%nat ->
  let t := uniform_times t0 dt (List.length b) in
  let bins := windows_array (sample_bins dt t) in
  exists st : list Q,
    bool_to_times (BoolVec b) t (-1) = Ok st
    /\ (_isbinary (NumVec d_float st) = false ->
        exists timepts,
          times_to_bool (NumVec d_float st) lims width (Some bins)
          = Ok (One b, timepts)
          /\ Forall2 Qeq timepts t)
    /\ (_isbinary (NumVec d_float st) = true ->
        exists msg,
          times_to_bool (NumVec d_float st) lims width (Some bins)
          = Raise (AssertionError msg)).
Proof.
  intros Hdt Hn t bins.
  exists (mask_select t b). split.
  - unfold bool_to_times, index_bool, t, uniform_times.
    now rewrite length_map, length_seq, Nat.eqb_refl.
  - split; intros Hb.
    + exists (map bin_center (sample_bins dt t)).
      split; [|apply sample_bins_centers].
      unfold bins.
      rewrite (times_to_bool_regular _ lims width dt (sample_bins dt t) Hb Hdt
                 (sample_bins_regular t0 dt _)).
      * cbn [single_train_of _enclose_cells map squeeze0 hd].
        unfold t. now rewrite bin_marks_sample_bins.
      * unfold sample_bins, t, uniform_times.
        now rewrite !length_map, length_seq.
    + unfold times_to_bool. cbn [rbind Ok Raise].
      change (ndim bins <? 2)%nat with false. cbn [rbind Ok Raise].
      destruct (bin_rate_binary_train_raises d_float (mask_select t b) None
                  (PyFloat (50 # 1000)) None (Some bins) false (-1) Hb)
        as [msg Hmsg].
      rewrite Hmsg. cbn [rbind Ok Raise]. exists msg. reflexivity.
Qed.

Lemma bool_times_bool_round_trip_witness :
  0 < 1 # 10
  /\ le 2 (List.length [false; true; true; false])
  /\ exists st : list Q,
       bool_to_times (BoolVec [false; true; true; false])
         (uniform_times 0 (1 # 10) (List.length [false; true; true; false]))
         (-1) = Ok st
       /\ _isbinary (NumVec d_float st) = false
       /\ exists timepts,
            times_to_bool (NumVec d_float st) None (PyFloat (1 # 10))
              (Some (windows_array
                       (sample_bins (1 # 10)
                          (uniform_times 0 (1 # 10)
                             (List.length [false; true; true; false])))))
            = Ok (One [false; true; true; false], timepts).
Proof.
  split; [reflexivity|]. split; [cbn; lia|].
  destruct (bool_times_bool_round_trip [false; true; true; false] 0 (1 # 10)
              None (PyFloat (1 # 10)) eq_refl ltac:(cbn; lia))
    as [st [Hst [Hok _]]].
  exists st. split; [exact Hst|].
  assert (Hb : _isbinary (NumVec d_float st) = false).
  { vm_compute in Hst. injection Hst as <-. reflexivity. }
  split; [exact Hb|].
  destruct (Hok Hb) as [timepts [Ht _]]. exists timepts. exact Ht.
Defined.

(** ** Spike density: buffers and kernels *)

Section DensityEdges.

Context (V : Type) (vzero : V) (hann : Z -> list V)
        (gaussian : Z -> Q -> list V) (normalize : list V -> Z -> list V)
        (convolve : batch (list Q) -> list V -> batch (list V)).

Hypothesis convolve_same : forall d k, same_shape d (convolve d k).

Lemma remove_buffer_zero {A : Type} (l : list A) : _remove_buffer l 0 = [].
Proof.
  unfold _remove_buffer, py_slice. cbn [Z.opp].
  now rewrite Z.sub_diag.
Qed.

(** X16.  A buffer that is not zero but rounds to zero samples empties the
    result: for every boolean train given with its time vector, [density]
    then returns no rate and no time point at all, since
    [_remove_buffer(x, 0)] is [x[0:-0]], the empty slice. *)
Theorem density_buffer_below_one_sample (b : list bool)
    (kernel : kernel_arg V) (width : Q) (lims : option (Q * Q))
    (smp_rate : Q) (buffer : option Q) (downsmp axis : Z) (tv : list Q) :
  (2 <= List.length tv)%nat -> ~ time_step tv == 0 ->
  kernel_known kernel = true ->
  (axis = 0 \/ axis = -1)%Z ->
  downsmp <> 0%Z ->
  ~ resolved_buffer kernel width buffer == 0 ->
  buffer_samples (resolved_buffer kernel width buffer) tv = 0%Z ->
  density V vzero hann gaussian normalize convolve (BoolVec b) kernel width
    lims smp_rate buffer downsmp axis (Some tv)
  = Ok (One [], []).
Proof.
  intros Hlen Hdt Hk Hax Hds Hbuf Hnb.
  unfold density.
  cbn [_spike_data_type _isbinary rbind Ok Raise String.eqb Ascii.eqb
       Bool.eqb is_some negb orb py_assert andb time_vector].
  fold (resolved_buffer kernel width buffer).
  set (buf := resolved_buffer kernel width buffer) in *.
  destruct (Nat.ltb_spec (List.length tv) 2) as [?|_]; [lia|].
  cbn [rbind Ok Raise]. fold (time_step tv).
  rewrite (Qeq_bool_false _ _ Hdt). cbn [rbind Ok Raise].
  fold (rounded_rate tv). fold (buffer_samples buf tv). rewrite Hnb.
  assert (Haxis : (if (axis <? 0)%Z then (1 + axis)%Z else axis) = 0%Z)
    by (destruct Hax as [-> | ->]; reflexivity).
  rewrite Haxis. rewrite (Qeq_bool_false _ _ Hbuf). cbn [negb].
  unfold add_buffer.
  destruct (np_arange_ok (hd 0 tv - time_step tv)
              (hd 0 tv - inject_Z 0 * time_step tv - eps12) (- time_step tv))
    as [before Hb].
  { intros H. apply Hdt. lra. }
  destruct (np_arange_ok (List.last tv 0 + time_step tv)
              (List.last tv 0 + inject_Z 0 * time_step tv + eps12)
              (time_step tv) Hdt) as [after Ha].
  rewrite Hb, Ha. cbn [rbind Ok Z.leb Z.compare andb].
  match goal with
  | |- context [np_take ?d ?idxs] =>
      destruct (np_take_ok d idxs) as [d' [Hd' _]]
  end.
  { rewrite !Forall_app. repeat split; apply List.Forall_forall; intros i Hi.
    - change (np_arange_Z 0 0 1) with (@nil Z) in Hi. destruct Hi.
    - apply np_arange_Z_up in Hi. lia.
    - apply np_arange_Z_down in Hi. lia. }
  rewrite Hd'. cbn [rbind Ok fst snd].
  destruct (str_to_kernel_ok V hann gaussian kernel
              (width * inject_Z (rounded_rate tv)) Hk) as [k Hker].
  rewrite Hker. cbn [rbind Ok fst snd Z.eqb orb].
  unfold finish_density.
  pose proof (convolve_same (One d') (normalize k (rounded_rate tv))) as Hs.
  destruct (convolve (One d') (normalize k (rounded_rate tv))) as [r|rs];
    [|contradiction].
  cbn [batch_map]. rewrite !remove_buffer_zero.
  destruct (negb (downsmp =? 1)%Z).
  - cbn [batch_map_result]. unfold py_stride.
    destruct (Z.eqb_spec downsmp 0) as [?|_]; [contradiction|].
    destruct (downsmp <? 0)%Z; reflexivity.
  - reflexivity.
Qed.

(** X17.  A kernel name that is not one of 'hann', 'hanning', 'gaussian',
    'normal' (in any case) gives no result, whatever the data and the other
    arguments. *)
Theorem density_unknown_kernel (data : spike_data) (name : string)
    (width : Q) (lims : option (Q * Q)) (smp_rate : Q) (buffer : option Q)
    (downsmp axis : Z) (t : option (list Q)) :
  kernel_known (KStr V name) = false ->
  is_ok (density V vzero hann gaussian normalize convolve data (KStr V name)
           width lims smp_rate buffer downsmp axis t) = false.
Proof.
  intros Hk. unfold density.
  destruct (_spike_data_type data) as [e|ty]; [reflexivity|].
  cbn [rbind Ok Raise].
  destruct (py_assert _ _) as [e|[]]; [reflexivity|]. cbn [rbind Ok Raise].
  destruct (time_vector t lims smp_rate) as [e|tv]; [reflexivity|].
  cbn [rbind Ok Raise].
  destruct (List.length tv <? 2)%nat; [reflexivity|]. cbn [rbind Ok Raise].
  destruct (Qeq_bool _ 0); [reflexivity|]. cbn [rbind Ok Raise].
  match goal with
  | |- is_ok (rbind ?c _) = false => destruct c as [e|tc]; [reflexivity|]
  end.
  cbn [rbind Ok Raise].
  assert (Hker : forall w, _str_to_kernel V hann gaussian (KStr V name) w
                           = Raise (ValueError
      "Unsupported value given for kernel. Should be 'hanning'|'gaussian'")).
  { intros w. cbn [_str_to_kernel].
    cbn [kernel_known str_in existsb] in Hk. cbn [str_in existsb].
    destruct (String.eqb (str_lower name) "hann"); [discriminate|].
    destruct (String.eqb (str_lower name) "hanning"); [discriminate|].
    destruct (String.eqb (str_lower name) "gaussian"); [discriminate|].
    destruct (String.eqb (str_lower name) "normal"); [discriminate|].
    reflexivity. }
  rewrite Hker. reflexivity.
Qed.

End DensityEdges.

Lemma density_buffer_below_one_sample_witness :
  le 2 (List.length tenths)
  /\ ~ time_step tenths == 0
  /\ ~ resolved_buffer (KStr Q "hann") (4 # 100) None == 0
  /\ buffer_samples (resolved_buffer (KStr Q "hann") (4 # 100) None) tenths
     = 0%Z
  /\ density_Q (BoolVec [false; true; false; false; false; true; false;
                         false; false; false; false])
       (KStr Q "hann") (4 # 100) None 1000 None 1 (-1) (Some tenths)
     = Ok (One [], []).
Proof.
  assert (H1 : le 2 (List.length tenths)) by (cbn; lia).
  assert (H2 : ~ time_step tenths == 0) by (vm_compute; discriminate).
  assert (H3 : ~ resolved_buffer (KStr Q "hann") (4 # 100) None == 0)
    by (vm_compute; discriminate).
  assert (H4 : buffer_samples (resolved_buffer (KStr Q "hann") (4 # 100) None)
                 tenths = 0%Z) by (vm_compute; reflexivity).
  repeat (split; [assumption|]).
  apply (density_buffer_below_one_sample Q 0 boxcar (fun M _ => boxcar M)
           normalize_Q convolve_Q convolve_Q_same); try assumption.
  - reflexivity.
  - now right.
  - discriminate.
Defined.

Lemma density_unknown_kernel_witness :
  kernel_known (KStr Q "boxcar") = false
  /\ is_ok (density_Q (ObjArr [[1 # 10; 3 # 10]]) (KStr Q "boxcar") (5 # 100)
              (Some (0, 1)) 1000 None 1 (-1) None) = false.
Proof.
  split; [reflexivity|].
  apply (density_unknown_kernel Q 0 boxcar (fun M _ => boxcar M) normalize_Q
           convolve_Q).
  reflexivity.
Defined.

(** ** Spike density: the shape of the result *)

Lemma Qceiling_unique (q : Q) (z : Z) :
  inject_Z z - 1 < q -> q <= inject_Z z -> Qceiling q = z.
Proof.
  intros Hlo Hhi.
  pose proof (Qle_ceiling q) as H1. pose proof (Qceiling_lt q) as H2.
  assert (Ha : inject_Z (z - 1) < inject_Z (Qceiling q)).
  { unfold Z.sub. rewrite inject_Z_plus. change (inject_Z (- (1))) with (- 1).
    lra. }
  assert (Hb : inject_Z (Qceiling q - 1) < inject_Z z) by lra.
  rewrite <- Zlt_Qlt in Ha, Hb. lia.
Qed.

Lemma buffer_times_length (start stop step x : Q) (nb : Z) (l : list Q) :
  0 < x -> x <= 1 -> (1 <= nb)%Z ->
  (stop - start) / step == inject_Z nb - 1 + x ->
  np_arange start stop step = Ok l ->
  List.length l = Z.to_nat nb.
Proof.
  intros Hlo Hhi Hnb Hq. unfold np_arange.
  destruct (Qeq_bool step 0); [discriminate|].
  intros H. injection H as <-. rewrite length_map, length_seq.
  f_equal. rewrite (Qceiling_comp _ _ Hq).
  apply Qceiling_unique; lra.
Qed.

Lemma eps12_over_step (dt : Q) :
  eps12 <= dt -> 0 < eps12 / dt /\ eps12 / dt <= 1.
Proof.
  intros H. assert (Hdt : 0 < dt) by (unfold eps12 in H; lra).
  split.
  - apply Qlt_shift_div_l; [exact Hdt|]. unfold eps12. lra.
  - apply Qle_shift_div_r; [exact Hdt|]. lra.
Qed.

Lemma py_slice_middle {A : Type} (l1 l2 l3 : list A) (nb : Z) :
  (1 <= nb)%Z -> List.length l1 = Z.to_nat nb ->
  List.length l3 = Z.to_nat nb ->
  py_slice (l1 ++ l2 ++ l3) nb (- nb) = l2.
Proof.
  intros Hnb H1 H3. unfold py_slice, clip_index.
  rewrite !length_app, H1, H3.
  destruct (Z.ltb_spec nb 0); [lia|]. destruct (Z.ltb_spec (- nb) 0); [|lia].
  match goal with
  | |- firstn ?n (skipn ?m _) = _ =>
      replace m with (List.length l1) by lia;
      replace n with (List.length l2 + 0)%nat by lia
  end.
  rewrite skipn_app, skipn_all, Nat.sub_diag. cbn [app]. rewrite skipn_O.
  rewrite firstn_app_2. cbn [firstn]. apply app_nil_r.
Qed.

Lemma py_slice_trim_length {A : Type} (l : list A) (nb : Z) :
  (1 <= nb)%Z -> (2 * nb <= Z.of_nat (List.length l))%Z ->
  List.length (py_slice l nb (- nb)) = (List.length l - 2 * Z.to_nat nb)%nat.
Proof.
  intros Hnb Hl. unfold py_slice, clip_index.
  destruct (Z.ltb_spec nb 0); [lia|]. destruct (Z.ltb_spec (- nb) 0); [|lia].
  rewrite length_firstn, length_skipn. lia.
Qed.

Lemma map_result_length {A B : Type} (f : A -> result B) (l : list A)
    (ys : list B) :
  map_result f l = Ok ys -> List.length ys = List.length l.
Proof.
  revert ys. induction l as [|x l IH]; intros ys H.
  - cbn in H. injection H as <-. reflexivity.
  - cbn [map_result] in H. destruct (f x) as [e|y]; [discriminate|].
    cbn [rbind Ok Raise] in H.
    destruct (map_result f l) as [e|ys']; [discriminate|].
    cbn [rbind Ok Raise] in H. injection H as <-. cbn. f_equal. now apply IH.
Qed.

Lemma np_arange_Z_length_up (n : Z) :
  (0 <= n)%Z -> List.length (np_arange_Z 0 n 1) = Z.to_nat n.
Proof.
  intros Hn. unfold np_arange_Z. cbn [Z.ltb Z.compare].
  rewrite length_map, length_seq. f_equal.
  rewrite Z.div_1_r. lia.
Qed.

Lemma np_arange_Z_length_down (start k : Z) :
  (0 <= k)%Z -> List.length (np_arange_Z start (start - k) (-1)) = Z.to_nat k.
Proof.
  intros Hk. unfold np_arange_Z. cbn [Z.ltb Z.compare Z.opp].
  rewrite length_map, length_seq. f_equal.
  rewrite Z.div_1_r. lia.
Qed.

Lemma stride_index_length {A B : Type} (l1 : list A) (l2 : list B) (k s : nat) :
  List.length l1 = List.length l2 ->
  List.length
    (List.filter (fun p : nat * A => (fst p mod k =? 0)%nat)
       (combine (seq s (List.length l1)) l1))
  = List.length
      (List.filter (fun p : nat * B => (fst p mod k =? 0)%nat)
         (combine (seq s (List.length l2)) l2)).
Proof.
  revert l2 s. induction l1 as [|x l1 IH]; intros [|y l2] s Hlen;
    try discriminate; [reflexivity|].
  injection Hlen as Hlen.
  cbn [List.length seq combine List.filter fst].
  destruct (s mod k =? 0)%nat; cbn [List.length]; now rewrite (IH l2 (S s)).
Qed.

Lemma py_stride_same_length {A B : Type} (l1 : list A) (l2 : list B)
    (step : Z) :
  (0 < step)%Z -> List.length l1 = List.length l2 ->
  exists r1 r2,
    py_stride l1 step = Ok r1 /\ py_stride l2 step = Ok r2
    /\ List.length r1 = List.length r2.
Proof.
  intros Hs Hlen. unfold py_stride.
  destruct (Z.eqb_spec step 0); [lia|]. destruct (Z.ltb_spec step 0); [lia|].
  eexists _, _. split; [reflexivity|]. split; [reflexivity|].
  rewrite !length_map. now apply stride_index_length.
Qed.

Lemma stride_all {A : Type} (l : list A) (s : nat) :
  map snd
    (List.filter (fun p : nat * A => (fst p mod 1 =? 0)%nat)
       (combine (seq s (List.length l)) l))
  = l.
Proof.
  revert s. induction l as [|x l IH]; intros s; [reflexivity|].
  cbn [List.length seq combine List.filter fst].
  rewrite Nat.mod_1_r. cbn [Nat.eqb map snd]. now rewrite IH.
Qed.

Lemma py_stride_one {A : Type} (l : list A) : py_stride l 1 = Ok l.
Proof. unfold py_stride. cbn [Z.eqb Z.ltb Z.compare]. now rewrite stride_all. Qed.

Section DensityShape.

Context (V : Type) (vzero : V) (hann : Z -> list V)
        (gaussian : Z -> Q -> list V) (normalize : list V -> Z -> list V)
        (convolve : batch (list Q) -> list V -> batch (list V)).

Hypothesis convolve_lengths : forall d k, same_lengths d (convolve d k).

Lemma zero_row_length (d : list Q) (r : list V) :
  List.length (zero_row V vzero d r) = List.length r.
Proof. unfold zero_row. destruct (negb _); [apply length_map|reflexivity]. Qed.

(** After the buffer has been removed: downsampling and the zeroing of
    trains without spikes keep rates and time points in step. *)
Lemma finish_density_lengths (downsmp : Z) (d : list Q) (r : list V)
    (t : list Q) :
  (0 < downsmp)%Z -> List.length r = List.length t ->
  exists rates t',
    finish_density V vzero false 0 downsmp (One d) (One r) t
    = Ok (One rates, t')
    /\ py_stride t downsmp = Ok t'
    /\ List.length rates = List.length t'.
Proof.
  intros Hds Hlen. unfold finish_density.
  destruct (Z.eqb_spec downsmp 1) as [->|Hne]; cbn [negb].
  - cbn [rbind Ok fst snd zero_no_spike]. eexists _, t.
    split; [reflexivity|]. split; [apply py_stride_one|].
    now rewrite zero_row_length.
  - destruct (py_stride_same_length r t downsmp Hds Hlen)
      as [r2 [t2 [Hr2 [Ht2 Hl]]]].
    cbn [batch_map_result]. rewrite Hr2. cbn [rbind Ok]. rewrite Ht2.
    cbn [rbind Ok fst snd zero_no_spike]. eexists _, t2.
    split; [reflexivity|]. split; [reflexivity|].
    now rewrite zero_row_length.
Qed.

Lemma finish_density_remove_buffer (nb downsmp : Z) (d : list Q)
    (r : list V) (t : list Q) :
  finish_density V vzero true nb downsmp (One d) (One r) t
  = finish_density V vzero false 0 downsmp (One (_remove_buffer d nb))
      (One (_remove_buffer r nb)) (_remove_buffer t nb).
Proof. reflexivity. Qed.


End DensityShape.

Lemma convolve_Q_lengths (d : batch (list Q)) (k : list Q) :
  same_lengths d (convolve_Q d k).
Proof.
  destruct d as [d|ds]; cbn.
  - unfold convolve_row. now rewrite length_map, length_seq.
  - induction ds as [|d ds IH]; constructor; [|exact IH].
    unfold convolve_row. now rewrite length_map, length_seq.
Qed.


(** ** Realignment of boolean data *)

Lemma realign_epochs_spec (n_out : nat) (epochs : idx_windows) :
  forall (cols_done cols_rest : list (list Q))
         (done : list (option (list Q))),
    List.length done = List.length cols_done ->
    (List.length epochs <= List.length cols_rest)%nat ->
    Forall2 (fun (e : Z * Z) (c : list Q) =>
               List.length (py_slice c (fst e) (snd e + 1)%Z) = n_out)
            epochs (firstn (List.length epochs) cols_rest) ->
    realign_epochs (cols_done ++ cols_rest) n_out (List.length cols_done)
      epochs (done ++ repeat None (List.length cols_rest))
    = Ok (done
          ++ map (fun p : (Z * Z) * list Q =>
                    Some (py_slice (snd p) (fst (fst p)) (snd (fst p) + 1)%Z))
                 (combine epochs cols_rest)
          ++ repeat None (List.length cols_rest - List.length epochs)).
Proof.
  induction epochs as [|e es IH]; intros cols_done cols_rest done Hd Hlen Hf.
  - cbn [realign_epochs combine map app List.length]. now rewrite Nat.sub_0_r.
  - destruct cols_rest as [|c cr]; [cbn in Hlen; lia|].
    cbn [List.length firstn] in *. apply Forall2_cons_1 in Hf as [Hc Hf'].
    cbn [realign_epochs].
    rewrite nth_error_app2, Nat.sub_diag by lia. cbn [nth_error].
    unfold assign_segment. rewrite Hc, Nat.eqb_refl. cbn [rbind Ok Raise].
    cbn [repeat].
    rewrite <- Hd, (insert_app_r_alt done _ (List.length done)) by lia.
    rewrite Nat.sub_diag. cbn [insert list_insert].
    specialize (IH (cols_done ++ [c]) cr
                   (done ++ [Some (py_slice c (fst e) (snd e + 1)%Z)])).
    rewrite !length_app in IH. cbn [List.length] in IH.
    rewrite <- !app_assoc in IH. cbn [app] in IH.
    replace (S (List.length done)) with (List.length cols_done + 1)%nat by lia.
    rewrite IH; [|lia|lia|exact Hf'].
    cbn [combine map fst snd app Nat.sub]. reflexivity.
Qed.

(** X19.  [realign_spike_bool] on a [(n_timepts, n_trials)] array with the
    default axes, when every epoch lies inside the time vector and the time
    range does not run backwards: the result has one sample per sample of
    the time range (both ends included) and, for every trial that has an
    align time, holds the samples [align + range[0] .. align + range[1]] of
    that trial, exactly that many.  A trial without an align time is never
    written: the function does not check that there is an align time for
    every trial. *)
Theorem realign_spike_bool_epochs (int_of_nonfinite : bool -> Q -> Z)
    (cols : list (list Q)) (align_times : list Q) (time_range : Q * Q)
    (timepts : list Q) :
  (2 <= List.length timepts)%nat -> ~ time_step timepts == 0 ->
  Forall (fun c => List.length c = List.length timepts) cols ->
  (List.length align_times <= List.length cols)%nat ->
  Forall (epoch_in_range (List.length timepts))
    (map (epoch_of int_of_nonfinite timepts time_range) align_times) ->
  (0 <= epoch_length int_of_nonfinite timepts time_range)%Z ->
  let epochs := map (epoch_of int_of_nonfinite timepts time_range) align_times in
  let n_out := Z.to_nat (epoch_length int_of_nonfinite timepts time_range) in
  realign_spike_bool int_of_nonfinite
    (mk_cut [List.length timepts; List.length cols] cols) align_times
    (Some time_range) (Some timepts)
  = Ok (mk_realigned [n_out; List.length cols]
          (map (fun p : (Z * Z) * list Q => Some (epoch_samples (fst p) (snd p)))
               (combine epochs cols)
           ++ repeat None (List.length cols - List.length align_times)))
  /\ Forall (fun p : (Z * Z) * list Q =>
               List.length (epoch_samples (fst p) (snd p)) = n_out)
            (combine epochs cols).
Proof.
  intros Hlen Hdt Hcols Hal Hin Hn epochs n_out.
  assert (Hslices : Forall (fun p : (Z * Z) * list Q =>
               List.length (epoch_samples (fst p) (snd p)) = n_out)
            (combine epochs cols)).
  { apply List.Forall_forall. intros [e c] Hp. cbn [fst snd].
    pose proof (in_combine_l _ _ _ _ Hp) as He.
    pose proof (in_combine_r _ _ _ _ Hp) as Hc.
    rewrite List.Forall_forall in Hin, Hcols.
    specialize (Hin e He). specialize (Hcols c Hc). destruct Hin as [H0 H1].
    unfold epochs in He. apply in_map_iff in He as [a [<- _]].
    unfold epoch_samples. unfold epoch_of in *. cbn [fst snd] in *.
    unfold n_out, epoch_length in *.
    rewrite py_slice_length by lia. f_equal. lia. }
  split; [|exact Hslices].
  unfold realign_spike_bool. cbn [rbind Ok Raise].
  destruct timepts as [|t0 tl]; [cbn in Hlen; lia|].
  cbn [rbind Ok Raise].
  rewrite map_map.
  change (map _ align_times) with epochs.
  assert (E1 : forallb (fun t : Z * Z => (0 <=? fst t)%Z) epochs = true).
  { apply forallb_forall. intros e He. rewrite List.Forall_forall in Hin.
    apply Z.leb_le. now apply Hin. }
  assert (E2 : forallb (fun t : Z * Z =>
                  (snd t <? Z.of_nat (List.length (t0 :: tl)))%Z) epochs = true).
  { apply forallb_forall. intros e He. rewrite List.Forall_forall in Hin.
    apply Z.ltb_lt. now apply Hin. }
  rewrite E1, E2. cbn [py_assert rbind Ok Raise fst snd].
  fold (epoch_length int_of_nonfinite (t0 :: tl) time_range).
  destruct (Z.ltb_spec (epoch_length int_of_nonfinite (t0 :: tl) time_range) 0);
    [lia|].
  cbn [rbind Ok Raise cut_shape cut_trial nth List.tl].
  fold n_out.
  pose proof (realign_epochs_spec n_out epochs [] cols [] eq_refl) as Hspec.
  cbn [app List.length] in Hspec. rewrite Hspec.
  - cbn [rbind Ok]. unfold epoch_samples.
    replace (List.length epochs) with (List.length align_times)
      by (unfold epochs; now rewrite length_map).
    reflexivity.
  - unfold epochs. rewrite length_map. exact Hal.
  - assert (Hle : (List.length epochs <= List.length cols)%nat)
      by (unfold epochs; rewrite length_map; exact Hal).
    clear -Hslices Hle. revert cols Hslices Hle.
    induction epochs as [|e es IH]; intros cols Hs Hle; [constructor|].
    destruct cols as [|c cr]; [cbn in Hle; lia|].
    cbn [List.length firstn combine] in *.
    inversion Hs as [|? ? Hc Hs']; subst. constructor; [exact Hc|].
    apply IH; [exact Hs'|lia].
Qed.

Lemma realign_spike_bool_epochs_witness :
  le 2 (List.length [0; 1; 2; 3; 4])
  /\ ~ time_step [0; 1; 2; 3; 4] == 0
  /\ Forall (epoch_in_range (List.length [0; 1; 2; 3; 4]))
       (map (epoch_of (fun _ _ => 0%Z) [0; 1; 2; 3; 4] (-1, 1)) [1; 3])
  /\ realign_spike_bool (fun _ _ => 0%Z)
       (mk_cut [5%nat; 3%nat]
          [[0; 1; 0; 0; 0]; [0; 0; 0; 1; 0]; [1; 1; 1; 1; 1]])
       [1; 3] (Some (-1, 1)) (Some [0; 1; 2; 3; 4])
     = Ok (mk_realigned [3%nat; 3%nat]
             [Some [0; 1; 0]; Some [0; 1; 0]; None]).
Proof.
  assert (H1 : le 2 (List.length [0; 1; 2; 3; 4])) by (cbn; lia).
  assert (H2 : ~ time_step [0; 1; 2; 3; 4] == 0) by (vm_compute; discriminate).
  assert (H3 : Forall (epoch_in_range (List.length [0; 1; 2; 3; 4]))
                 (map (epoch_of (fun _ _ => 0%Z) [0; 1; 2; 3; 4] (-1, 1))
                    [1; 3])).
  { repeat constructor; vm_compute; congruence. }
  repeat (split; [assumption|]).
  refine (eq_trans
            (proj1 (realign_spike_bool_epochs (fun _ _ => 0%Z)
                      [[0; 1; 0; 0; 0]; [0; 0; 0; 1; 0]; [1; 1; 1; 1; 1]]
                      [1; 3] (-1, 1) [0; 1; 2; 3; 4] H1 H2 _ _ H3 _)) _).
  - repeat constructor.
  - cbn. lia.
  - vm_compute. discriminate.
  - vm_compute. reflexivity.
Defined.

Lemma realign_epochs_no_assertion (data : list (list Q)) (n_out : nat)
    (epochs : idx_windows) :
  forall (i : nat) (realigned : list (option (list Q))) (e : exn),
    realign_epochs data n_out i epochs realigned = Raise e ->
    forall msg, e <> AssertionError msg.
Proof.
  induction epochs as [|t rest IH]; intros i realigned e H msg;
    cbn [realign_epochs] in H; [discriminate|].
  destruct (nth_error data i) as [trial|];
    [|unfold Raise in H; injection H as <-; discriminate].
  unfold assign_segment in H.
  destruct (_ =? n_out)%nat; cbn [rbind Ok Raise] in H;
    [exact (IH _ _ _ H msg)|].
  destruct (py_slice trial (fst t) (snd t + 1)%Z) as [|x [|y l]];
    cbn [rbind Ok Raise] in H;
    [unfold Raise in H; injection H as <-; discriminate
    |exact (IH _ _ _ H msg)
    |unfold Raise in H; injection H as <-; discriminate].
Qed.

(** X20.  The bounds check of [realign_spike_bool]: one of the two
    assertions on the epochs fails exactly when some epoch starts before
    sample 0 or ends at or beyond [len(timepts)]; the first of them when
    some epoch starts before sample 0. *)
Theorem realign_spike_bool_range_check (int_of_nonfinite : bool -> Q -> Z)
    (data : cut_array Q) (align_times : list Q) (time_range : Q * Q)
    (timepts : list Q) :
  timepts <> [] ->
  let epochs := map (epoch_of int_of_nonfinite timepts time_range) align_times in
  let res := realign_spike_bool int_of_nonfinite data align_times
               (Some time_range) (Some timepts) in
  ((exists msg, res = Raise (AssertionError msg))
   <-> ~ Forall (epoch_in_range (List.length timepts)) epochs)
  /\ (res = Raise err_epoch_before_start
      <-> ~ Forall (fun e : Z * Z => (0 <= fst e)%Z) epochs).
Proof.
  intros Hne epochs res. subst res. unfold realign_spike_bool.
  destruct timepts as [|t0 tl]; [congruence|]. cbn [rbind Ok Raise].
  rewrite map_map. change (map _ align_times) with epochs.
  set (n := List.length (t0 :: tl)).
  destruct (forallb (fun t : Z * Z => (0 <=? fst t)%Z) epochs) eqn:E1.
  - assert (H1 : Forall (fun e : Z * Z => (0 <= fst e)%Z) epochs).
    { apply List.Forall_forall. intros e He.
      rewrite forallb_forall in E1. apply Z.leb_le. now apply E1. }
    cbn [py_assert rbind Ok Raise].
    destruct (forallb (fun t : Z * Z => (snd t <? Z.of_nat n)%Z) epochs)
      eqn:E2; cbn [py_assert rbind Ok Raise].
    + assert (H2 : Forall (epoch_in_range n) epochs).
      { apply List.Forall_forall. intros e He.
        rewrite forallb_forall in E2. rewrite List.Forall_forall in H1.
        split; [now apply H1|]. apply Z.ltb_lt. now apply E2. }
      match goal with
      | |- ((exists msg, ?r = _) <-> _) /\ _ => set (rest := r)
      end.
      assert (Hno : forall e, rest = Raise e ->
                              forall msg, e <> AssertionError msg).
      { intros e H msg. subst rest.
        destruct (_ <? 0)%Z; cbn [rbind Ok Raise] in H;
          [unfold Raise in H; injection H as <-; discriminate|].
        destruct (realign_epochs _ _ _ _ _) as [e'|trials] eqn:Er;
          cbn [rbind Ok Raise] in H; [|discriminate].
        unfold Raise in H. injection H as <-.
        eapply realign_epochs_no_assertion, Er. }
      split; split.
      * intros [msg Hm]. exfalso. now apply (Hno _ Hm msg).
      * intros Hn. contradiction.
      * intros Hm. exfalso. eapply (Hno _ Hm). reflexivity.
      * intros Hn. contradiction.
    + split; split.
      * intros _ HF. apply not_true_iff_false in E2. apply E2.
        apply forallb_forall. intros e He. rewrite List.Forall_forall in HF.
        apply Z.ltb_lt. now apply HF.
      * intros _. eexists. reflexivity.
      * intros H. discriminate H.
      * intros Hn. contradiction.
  - assert (H1 : ~ Forall (fun e : Z * Z => (0 <= fst e)%Z) epochs).
    { intros HF. apply not_true_iff_false in E1. apply E1.
      apply forallb_forall. intros e He. rewrite List.Forall_forall in HF.
      apply Z.leb_le. now apply HF. }
    cbn [py_assert rbind Ok Raise]. split; split.
    + intros _ HF. apply H1. eapply List.Forall_impl; [|exact HF].
      intros e [He _]. exact He.
    + intros _. eexists. reflexivity.
    + intros _. exact H1.
    + intros _. reflexivity.
Qed.

Lemma realign_spike_bool_range_check_witness :
  [0; 1; 2; 3; 4] <> []
  /\ ~ Forall (fun e : Z * Z => (0 <= fst e)%Z)
         (map (epoch_of (fun _ _ => 0%Z) [0; 1; 2; 3; 4] (-2, 1)) [1; 3])
  /\ realign_spike_bool (fun _ _ => 0%Z)
       (mk_cut [5%nat; 2%nat] [[0; 1; 0; 0; 0]; [0; 0; 0; 1; 0]])
       [1; 3] (Some (-2, 1)) (Some [0; 1; 2; 3; 4])
     = Raise err_epoch_before_start.
Proof.
  assert (H1 : [0; 1; 2; 3; 4] <> []) by discriminate.
  assert (H2 : ~ Forall (fun e : Z * Z => (0 <= fst e)%Z)
                   (map (epoch_of (fun _ _ => 0%Z) [0; 1; 2; 3; 4] (-2, 1))
                      [1; 3])).
  { intros HF. inversion HF as [|? ? He _]; subst. vm_compute in He.
    now apply He. }
  split; [exact H1|]. split; [exact H2|].
  apply (proj2 (realign_spike_bool_range_check (fun _ _ => 0%Z)
                  (mk_cut [5%nat; 2%nat] [[0; 1; 0; 0; 0]; [0; 0; 0; 1; 0]])
                  [1; 3] (-2, 1) [0; 1; 2; 3; 4] H1)).
  exact H2.
Defined.

(** ** The set of electrodes *)

Lemma insert_unique_In (x y : Z) (l : list Z) :
  In y (insert_unique x l) <-> y = x \/ In y l.
Proof.
  induction l as [|z l IH]; cbn [insert_unique In]; [intuition|].
  destruct (Z.ltb_spec x z); [cbn [In]; intuition|].
  destruct (Z.eqb_spec x z) as [->|Hne]; cbn [In]; [intuition|].
  rewrite IH. intuition.
Qed.

Lemma np_unique_In (x : Z) (data : list Z) :
  In x (np_unique data) <-> In x data.
Proof.
  induction data as [|y data IH]; [reflexivity|].
  cbn [np_unique fold_right In]. fold (np_unique data).
  rewrite insert_unique_In, IH. intuition.
Qed.

Lemma insert_unique_sorted (x : Z) (l : list Z) :
  StronglySorted Z.lt l -> StronglySorted Z.lt (insert_unique x l).
Proof.
  induction 1 as [|z l Hs IH Hall]; cbn [insert_unique];
    [repeat constructor|].
  destruct (Z.ltb_spec x z).
  - constructor; [now constructor|].
    constructor; [exact H|]. eapply List.Forall_impl; [|exact Hall].
    intros a Ha. lia.
  - destruct (Z.eqb_spec x z); [now constructor|].
    constructor; [exact IH|].
    apply List.Forall_forall. intros a Ha. apply insert_unique_In in Ha.
    rewrite List.Forall_forall in Hall. destruct Ha as [->|Ha]; [lia|].
    now apply Hall.
Qed.

Lemma np_unique_sorted (data : list Z) : StronglySorted Z.lt (np_unique data).
Proof.
  induction data as [|y data IH]; [constructor|].
  cbn [np_unique fold_right]. now apply insert_unique_sorted.
Qed.

Lemma first_index_spec (x : Z) (data : list Z) :
  In x data ->
  (first_index x data < List.length data)%nat
  /\ nth (first_index x data) data 0%Z = x.
Proof.
  induction data as [|y data IH]; intros Hin; [destruct Hin|].
  cbn [first_index]. destruct (Z.eqb_spec x y) as [->|Hne].
  - cbn. split; [lia|reflexivity].
  - destruct Hin as [->|Hin]; [congruence|].
    destruct (IH Hin) as [H1 H2]. cbn [List.length nth]. split; [lia|exact H2].
Qed.

Lemma insert_nat_In (x y : nat) (l : list nat) :
  In y (insert_nat x l) <-> y = x \/ In y l.
Proof.
  induction l as [|z l IH]; cbn [insert_nat In]; [intuition|].
  destruct (x <=? z)%nat; cbn [In]; [intuition|].
  rewrite IH. intuition.
Qed.

Lemma sort_nat_In (x : nat) (l : list nat) : In x (sort_nat l) <-> In x l.
Proof.
  induction l as [|y l IH]; [reflexivity|].
  cbn [sort_nat fold_right In]. fold (sort_nat l).
  rewrite insert_nat_In, IH. intuition.
Qed.

Lemma insert_nat_sorted (x : nat) (l : list nat) :
  ~ In x l -> StronglySorted lt l -> StronglySorted lt (insert_nat x l).
Proof.
  intros Hx Hs. induction Hs as [|z l Hs IH Hall]; cbn [insert_nat];
    [repeat constructor|].
  destruct (Nat.leb_spec x z).
  - assert (x <> z) by (intros ->; apply Hx; now left).
    constructor; [now constructor|].
    constructor; [lia|]. eapply List.Forall_impl; [|exact Hall].
    intros a Ha. lia.
  - constructor; [apply IH; intros Hin; apply Hx; now right|].
    apply List.Forall_forall. intros a Ha. apply insert_nat_In in Ha.
    rewrite List.Forall_forall in Hall. destruct Ha as [->|Ha]; [lia|].
    now apply Hall.
Qed.

Lemma sort_nat_sorted (l : list nat) :
  List.NoDup l -> StronglySorted lt (sort_nat l).
Proof.
  induction 1 as [|x l Hx Hnd IH]; [constructor|].
  cbn [sort_nat fold_right]. apply insert_nat_sorted; [|exact IH].
  intros Hin. apply Hx. apply sort_nat_In. exact Hin.
Qed.

(** Two strictly ascending lists with the same members are equal. *)
Lemma sorted_lt_unique (l1 l2 : list nat) :
  StronglySorted lt l1 -> StronglySorted lt l2 ->
  (forall x, In x l1 <-> In x l2) -> l1 = l2.
Proof.
  intros H1. revert l2. induction H1 as [|x l1 Hs1 IH Hall1];
    intros l2 H2 Hiff.
  - destruct l2 as [|y l2]; [reflexivity|].
    destruct (proj2 (Hiff y) ltac:(now left)).
  - destruct H2 as [|y l2 Hs2 Hall2].
    { destruct (proj1 (Hiff x) ltac:(now left)). }
    rewrite List.Forall_forall in Hall1, Hall2.
    assert (Hxy : x = y).
    { destruct (proj1 (Hiff x) ltac:(now left)) as [->|Hx]; [reflexivity|].
      destruct (proj2 (Hiff y) ltac:(now left)) as [->|Hy]; [reflexivity|].
      specialize (Hall1 y Hy). specialize (Hall2 x Hx). lia. }
    subst y. f_equal. apply IH; [exact Hs2|].
    intros z. split; intros Hz.
    + destruct (proj1 (Hiff z) ltac:(now right)) as [<-|Hz']; [|exact Hz'].
      specialize (Hall1 x Hz). lia.
    + destruct (proj2 (Hiff z) ltac:(now right)) as [<-|Hz']; [|exact Hz'].
      specialize (Hall2 x Hz). lia.
Qed.

(** The positions at which a value appears for the first time. *)
Lemma first_index_le (x : Z) (data : list Z) (i : nat) :
  (i < List.length data)%nat -> nth i data 0%Z = x ->
  (first_index x data <= i)%nat.
Proof.
  revert i. induction data as [|y data IH]; intros i Hi Hn;
    [cbn in Hi; lia|].
  cbn [first_index]. destruct (Z.eqb_spec x y); [lia|].
  destruct i as [|i]; [cbn in Hn; congruence|].
  cbn [nth List.length] in *. specialize (IH i ltac:(lia) Hn). lia.
Qed.

Lemma filter_map_comm {A B : Type} (f : A -> B) (q : B -> bool) (l : list A) :
  List.filter q (map f l) = map f (List.filter (fun x => q (f x)) l).
Proof.
  induction l as [|x l IH]; [reflexivity|].
  cbn [map List.filter]. destruct (q (f x)); cbn [map]; now rewrite IH.
Qed.

Lemma first_positions_values (l : list Z) :
  map (fun i => nth i l 0%Z) (first_positions l) = keep_first l.
Proof.
  induction l as [|x rest IH]; [reflexivity|].
  cbn [first_positions keep_first map nth]. f_equal.
  rewrite map_map. cbn [nth].
  rewrite <- IH, filter_map_comm. reflexivity.
Qed.

Lemma StronglySorted_filter {A : Type} (R : A -> A -> Prop) (p : A -> bool)
    (l : list A) :
  StronglySorted R l -> StronglySorted R (List.filter p l).
Proof.
  induction 1 as [|x l Hs IH Hall]; [constructor|].
  cbn [List.filter]. destruct (p x); [|exact IH].
  constructor; [exact IH|].
  apply List.Forall_forall. intros y Hy. apply filter_In in Hy as [Hy _].
  rewrite List.Forall_forall in Hall. now apply Hall.
Qed.

Lemma first_positions_sorted (l : list Z) :
  StronglySorted lt (first_positions l).
Proof.
  induction l as [|x rest IH]; [constructor|].
  cbn [first_positions]. constructor.
  - apply (StronglySorted_map lt lt S); [intros a b; lia|].
    now apply StronglySorted_filter.
  - apply Forall_map. apply List.Forall_forall. intros i _. lia.
Qed.

Lemma first_positions_In (l : list Z) (i : nat) :
  In i (first_positions l)
  <-> (i < List.length l)%nat /\ first_index (nth i l 0%Z) l = i.
Proof.
  revert i. induction l as [|x rest IH]; intros i.
  - cbn. split; [intros []|intros [H _]; lia].
  - cbn [first_positions In List.length]. split.
    + intros [<-|Hi].
      * cbn [nth first_index]. rewrite Z.eqb_refl. split; [lia|reflexivity].
      * apply in_map_iff in Hi as [j [<- Hj]].
        apply filter_In in Hj as [Hj Hne]. apply IH in Hj as [Hlt Hf].
        cbn [nth first_index]. apply negb_true_iff in Hne. rewrite Hne.
        split; [lia|now rewrite Hf].
    + intros [Hlt Hf]. destruct i as [|j]; [now left|right].
      cbn [nth first_index] in Hf.
      destruct (nth j rest 0 =? x)%Z eqn:E; [discriminate|].
      injection Hf as Hf. apply in_map. apply filter_In. split.
      * apply IH. split; [lia|exact Hf].
      * now rewrite E.
Qed.

Lemma np_unique_index_In (data : list Z) (i : nat) :
  In i (np_unique_index data)
  <-> (i < List.length data)%nat /\ first_index (nth i data 0%Z) data = i.
Proof.
  unfold np_unique_index. rewrite in_map_iff. split.
  - intros [v [<- Hv]]. apply (proj1 (np_unique_In _ _)) in Hv.
    destruct (first_index_spec v data Hv) as [H1 H2].
    split; [exact H1|now rewrite H2].
  - intros [Hlt Hf]. exists (nth i data 0%Z). split; [exact Hf|].
    apply np_unique_In. now apply nth_In.
Qed.

Lemma sorted_lt_NoDup (l : list Z) : StronglySorted Z.lt l -> List.NoDup l.
Proof.
  induction 1 as [|x l Hs IH Hall]; constructor; [|exact IH].
  intros Hin. rewrite List.Forall_forall in Hall. specialize (Hall x Hin). lia.
Qed.

Lemma NoDup_map_on {A B : Type} (f : A -> B) (l : list A) :
  (forall x y, In x l -> In y l -> f x = f y -> x = y) ->
  List.NoDup l -> List.NoDup (map f l).
Proof.
  intros Hinj Hnd. induction Hnd as [|x l Hx Hnd IH]; [constructor|].
  cbn [map]. constructor.
  - intros Hin. apply in_map_iff in Hin as [y [Hy Hin]].
    apply Hx. rewrite (Hinj x y); [exact Hin|now left|now right|now symmetry].
  - apply IH. intros a b Ha Hb. apply Hinj; now right.
Qed.

Lemma np_unique_index_NoDup (data : list Z) :
  List.NoDup (np_unique_index data).
Proof.
  unfold np_unique_index. apply NoDup_map_on.
  - intros v w Hv Hw Heq.
    apply (proj1 (np_unique_In _ _)) in Hv.
    apply (proj1 (np_unique_In _ _)) in Hw.
    destruct (first_index_spec v data Hv) as [_ H1].
    destruct (first_index_spec w data Hw) as [_ H2].
    rewrite <- H1, <- H2, Heq. reflexivity.
  - apply sorted_lt_NoDup, np_unique_sorted.
Qed.

Lemma sorted_first_indices (data : list Z) :
  sort_nat (np_unique_index data) = first_positions data.
Proof.
  apply sorted_lt_unique.
  - apply sort_nat_sorted, np_unique_index_NoDup.
  - apply first_positions_sorted.
  - intros i. now rewrite sort_nat_In, np_unique_index_In, first_positions_In.
Qed.

Lemma keep_first_In (x : Z) (l : list Z) : In x (keep_first l) <-> In x l.
Proof.
  induction l as [|y l IH]; [reflexivity|].
  cbn [keep_first In]. rewrite filter_In, IH, negb_true_iff, Z.eqb_neq.
  destruct (Z.eq_dec y x); intuition.
Qed.

Lemma keep_first_NoDup (l : list Z) : List.NoDup (keep_first l).
Proof.
  induction l as [|y l IH]; [constructor|].
  cbn [keep_first]. constructor.
  - intros Hin. apply filter_In in Hin as [_ Hne].
    now rewrite Z.eqb_refl in Hne.
  - now apply List.NoDup_filter.
Qed.

Lemma unsorted_unique_keep_first (data : list Z) :
  _unsorted_unique data = keep_first data.
Proof.
  unfold _unsorted_unique. cbv zeta.
  now rewrite sorted_first_indices, first_positions_values.
Qed.

(** X21.  [_unsorted_unique] returns the distinct values of its argument in
    the order in which they first appear: every value once, each value of
    the data among them. *)
Theorem unsorted_unique_first_appearance (data : list Z) :
  _unsorted_unique data = keep_first data
  /\ List.NoDup (_unsorted_unique data)
  /\ (forall x, In x (_unsorted_unique data) <-> In x data).
Proof.
  rewrite unsorted_unique_keep_first.
  split; [reflexivity|]. split; [apply keep_first_NoDup|].
  intros x. apply keep_first_In.
Qed.

(** ** Two-dimensional arrays: transposition and the reshaping helpers *)

Lemma cons_column_length {A : Type} (col : list A) (rows : list (list A)) :
  List.length col = List.length rows ->
  List.length (cons_column col rows) = List.length rows.
Proof.
  revert rows. induction col as [|x col IH]; intros [|r rows] H;
    try discriminate; [reflexivity|].
  cbn [cons_column List.length]. f_equal. apply IH. now injection H.
Qed.

Lemma transpose_rows_length {A : Type} (n_cols : nat) (rows : list (list A)) :
  Forall (fun r => List.length r = n_cols) rows ->
  List.length (transpose_rows n_cols rows) = n_cols.
Proof.
  induction 1 as [|r rows Hr Hall IH]; cbn [transpose_rows];
    [apply repeat_length|].
  rewrite cons_column_length; [exact IH|]. now rewrite IH.
Qed.

Lemma cons_column_rows {A : Type} (k : nat) (col : list A)
    (rows : list (list A)) :
  Forall (fun r => List.length r = k) rows ->
  Forall (fun r => List.length r = S k) (cons_column col rows).
Proof.
  intros H. revert col. induction H as [|r rows Hr Hall IH]; intros [|x col];
    cbn [cons_column]; try constructor.
  - cbn. now rewrite Hr.
  - apply IH.
Qed.

Lemma transpose_rows_rows {A : Type} (n_cols : nat) (rows : list (list A)) :
  Forall (fun r => List.length r = List.length rows)
         (transpose_rows n_cols rows).
Proof.
  induction rows as [|r rows IH]; cbn [transpose_rows List.length].
  - apply List.Forall_forall. intros x Hx. apply repeat_spec in Hx. now subst.
  - now apply cons_column_rows.
Qed.

Lemma transpose_cons_column {A : Type} (k : nat) (r : list A)
    (T : list (list A)) :
  List.length r = List.length T ->
  transpose_rows (S k) (cons_column r T) = r :: transpose_rows k T.
Proof.
  revert T. induction r as [|x r IH]; intros [|t T] H; try discriminate;
    [reflexivity|].
  cbn [cons_column transpose_rows]. rewrite IH by (now injection H).
  reflexivity.
Qed.

Lemma transpose_rows_empty {A : Type} (n : nat) :
  transpose_rows 0 (repeat (@nil A) n) = [].
Proof. destruct n; reflexivity. Qed.

Lemma transpose_rows_involutive {A : Type} (n_cols : nat)
    (rows : list (list A)) :
  Forall (fun r => List.length r = n_cols) rows ->
  transpose_rows (List.length rows) (transpose_rows n_cols rows) = rows.
Proof.
  induction 1 as [|r rows Hr Hall IH]; cbn [transpose_rows List.length].
  - apply transpose_rows_empty.
  - rewrite transpose_cons_column, IH; [reflexivity|].
    now rewrite transpose_rows_length.
Qed.

Lemma transpose_wf {A : Type} (m : matrix A) :
  wf_matrix m -> wf_matrix (transpose m).
Proof.
  intros [Hr Hc]. unfold wf_matrix, transpose. cbn [m_shape m_rows fst snd].
  split; [now apply transpose_rows_length|].
  rewrite <- Hr. apply transpose_rows_rows.
Qed.

Lemma transpose_involutive {A : Type} (m : matrix A) :
  wf_matrix m -> transpose (transpose m) = m.
Proof.
  intros [Hr Hc]. destruct m as [[n_rows n_cols] rows].
  unfold transpose. cbn [m_shape m_rows fst snd] in *. f_equal.
  rewrite <- Hr. now apply transpose_rows_involutive.
Qed.

Lemma reshape_unreshape_2d {A : Type} (f_contiguous : bool)
    (m : matrix A) (axis : Z) :
  wf_matrix m ->
  ((-2 <= axis < 2)%Z ->
   exists m' : matrix A,
     _reshape_data f_contiguous m axis = Ok (m', m_shape m)
     /\ m' = (if (axis mod 2 =? 1)%Z then m else transpose m)
     /\ _unreshape_data m' (m_shape m) axis = Ok m)
  /\ (~ (-2 <= axis < 2)%Z ->
      exists msg, _reshape_data f_contiguous m axis = Raise (AxisError msg)).
Proof.
  intros Hwf. pose proof (transpose_involutive m Hwf) as Hinv. split.
  - intros Hax.
    assert (Hcases : axis = (-2)%Z \/ axis = (-1)%Z \/ axis = 0%Z \/ axis = 1%Z)
      by lia.
    assert (Nm2 : normalize_axis2 (-2) = Ok 0%Z) by reflexivity.
    assert (Nm1 : normalize_axis2 (-1) = Ok 1%Z) by reflexivity.
    assert (N0 : normalize_axis2 0 = Ok 0%Z) by reflexivity.
    assert (N1 : normalize_axis2 1 = Ok 1%Z) by reflexivity.
    exists (if (axis mod 2 =? 1)%Z then m else transpose m).
    destruct Hcases as [-> | [-> | [-> | ->]]];
      [change ((-2) mod 2 =? 1)%Z with false
      |change ((-1) mod 2 =? 1)%Z with true
      |change (0 mod 2 =? 1)%Z with false
      |change (1 mod 2 =? 1)%Z with true];
      destruct f_contiguous;
      unfold _reshape_data, _unreshape_data, np_moveaxis2;
      rewrite ?Nm2, ?Nm1, ?N0, ?N1;
      cbn [rbind Ok Raise Z.eqb Pos.eqb negb orb];
      rewrite ?Hinv; repeat split; reflexivity.
  - intros Hax.
    assert (Hr : ((-2 <=? axis) && (axis <? 2))%Z = false).
    { apply andb_false_iff.
      destruct (Z.leb_spec (-2) axis); [right; apply Z.ltb_ge; lia|now left]. }
    assert (H0 : (axis =? 0)%Z = false) by (apply Z.eqb_neq; lia).
    assert (H1 : (axis =? 1)%Z = false) by (apply Z.eqb_neq; lia).
    assert (H2 : (axis =? -1)%Z = false) by (apply Z.eqb_neq; lia).
    unfold _reshape_data, np_moveaxis2, normalize_axis2.
    rewrite Hr, H0, H1, H2. destruct f_contiguous; eexists; reflexivity.
Qed.

(** X22.  The reshaping helpers on a two-dimensional array, whatever its
    memory layout: for each of the four valid values of [axis],
    [_reshape_data] returns the array with that axis last (the array itself
    or its transpose) together with the original shape, and
    [_unreshape_data] takes the result back to the original array.  Any
    other [axis] raises an AxisError. *)
Theorem reshape_unreshape_round_trip {A : Type} (f_contiguous : bool)
    (m : matrix A) (axis : Z) :
  wf_matrix m ->
  ((-2 <= axis < 2)%Z ->
   exists m' : matrix A,
     _reshape_data f_contiguous m axis = Ok (m', m_shape m)
     /\ m' = (if (axis mod 2 =? 1)%Z then m else transpose m)
     /\ _unreshape_data m' (m_shape m) axis = Ok m)
  /\ (~ (-2 <= axis < 2)%Z ->
      exists msg, _reshape_data f_contiguous m axis = Raise (AxisError msg)).
Proof. apply reshape_unreshape_2d. Qed.

Lemma reshape_unreshape_round_trip_witness :
  wf_matrix (mk_matrix (2%nat, 3%nat) [[1; 2; 3]; [4; 5; 6]])
  /\ exists m' : matrix Q,
       _reshape_data false (mk_matrix (2%nat, 3%nat) [[1; 2; 3]; [4; 5; 6]]) 0
       = Ok (m', (2%nat, 3%nat))
       /\ m' = mk_matrix (3%nat, 2%nat) [[1; 4]; [2; 5]; [3; 6]]
       /\ _unreshape_data m' (2%nat, 3%nat) 0
          = Ok (mk_matrix (2%nat, 3%nat) [[1; 2; 3]; [4; 5; 6]]).
Proof.
  assert (H : wf_matrix (mk_matrix (2%nat, 3%nat) [[1; 2; 3]; [4; 5; 6]]))
    by (split; [reflexivity|repeat constructor]).
  split; [exact H|].
  exact (proj1 (reshape_unreshape_round_trip false
                  (mk_matrix (2%nat, 3%nat) [[1; 2; 3]; [4; 5; 6]]) 0 H)
           ltac:(lia)).
Defined.

(** ** Pooling timestamps across the units of an electrode *)

Lemma insert_sorted_perm (x : Q) (l : list Q) :
  Permutation (insert_sorted x l) (x :: l).
Proof.
  induction l as [|y l IH]; cbn [insert_sorted]; [reflexivity|].
  destruct (Qle_bool x y); [reflexivity|].
  rewrite IH. apply perm_swap.
Qed.

Lemma sort_Q_perm (l : list Q) : Permutation (sort_Q l) l.
Proof.
  induction l as [|x l IH]; [reflexivity|].
  cbn [sort_Q fold_right]. fold (sort_Q l).
  rewrite insert_sorted_perm. now constructor.
Qed.

Lemma insert_sorted_In (x y : Q) (l : list Q) :
  In y (insert_sorted x l) -> y = x \/ In y l.
Proof.
  intros H. apply (Permutation_in _ (insert_sorted_perm x l)) in H.
  destruct H as [<-|H]; [now left|now right].
Qed.

Lemma insert_sorted_sorted (x : Q) (l : list Q) :
  StronglySorted Qle l -> StronglySorted Qle (insert_sorted x l).
Proof.
  induction 1 as [|y l Hs IH Hall]; cbn [insert_sorted];
    [repeat constructor|].
  destruct (Qle_bool x y) eqn:E.
  - apply Qle_bool_iff in E. constructor; [now constructor|].
    constructor; [exact E|]. eapply List.Forall_impl; [|exact Hall].
    intros a Ha. lra.
  - apply Qle_bool_false_lt in E. constructor; [exact IH|].
    apply List.Forall_forall. intros a Ha. apply insert_sorted_In in Ha.
    rewrite List.Forall_forall in Hall. destruct Ha as [->|Ha]; [lra|].
    now apply Hall.
Qed.

Lemma sort_Q_sorted (l : list Q) : StronglySorted Qle (sort_Q l).
Proof.
  induction l as [|x l IH]; [constructor|].
  cbn [sort_Q fold_right]. now apply insert_sorted_sorted.
Qed.

Lemma cons_column_map {A B : Type} (f : A -> B) (h : A -> list B)
    (l : list A) :
  cons_column (map f l) (map h l) = map (fun x => f x :: h x) l.
Proof.
  induction l as [|x l IH]; [reflexivity|].
  cbn [map cons_column]. now rewrite IH.
Qed.

Lemma repeat_map_const {A B : Type} (y : B) (l : list A) :
  repeat y (List.length l) = map (fun _ => y) l.
Proof. induction l as [|x l IH]; [reflexivity|]. cbn. now rewrite IH. Qed.

(** A table built electrode by electrode, read series by series. *)
Lemma transpose_rows_table {A E B : Type} (g : E -> A -> B) (es : list E)
    (rows : list A) :
  transpose_rows (List.length rows) (map (fun e => map (g e) rows) es)
  = map (fun s => map (fun e => g e s) es) rows.
Proof.
  induction es as [|e es IH]; cbn [map transpose_rows].
  - apply repeat_map_const.
  - rewrite IH. apply cons_column_map.
Qed.

Lemma mask_cells_none {A : Type} (cells : list A) (mask : list bool) :
  Forall (fun b => b = false) mask -> mask_cells cells mask = [].
Proof.
  intros H. revert cells. induction H as [|b mask Hb Hall IH];
    intros [|x cells]; try reflexivity.
  cbn [mask_cells]. rewrite Hb. apply IH.
Qed.

Lemma units_on_absent {A : Type} (electrodes : list Z) (elec : Z)
    (units : list A) :
  ~ In elec electrodes -> units_on electrodes elec units = [].
Proof.
  intros Hn. unfold units_on, on_electrode. apply mask_cells_none.
  apply Forall_map. apply List.Forall_forall. intros e He.
  apply Z.eqb_neq. intros ->. contradiction.
Qed.

Lemma units_on_present {A : Type} (electrodes : list Z) (elec : Z)
    (units : list A) :
  List.length units = List.length electrodes -> In elec electrodes ->
  units_on electrodes elec units <> [].
Proof.
  unfold units_on, on_electrode. revert units.
  induction electrodes as [|e es IH]; intros [|u units] Hlen Hin;
    try discriminate; [destruct Hin|].
  cbn [map mask_cells]. destruct (Z.eqb_spec e elec) as [->|Hne];
    [discriminate|].
  destruct Hin as [->|Hin]; [congruence|].
  apply IH; [now injection Hlen|exact Hin].
Qed.

Lemma units_on_cons {A : Type} (x : Z) (es : list Z) (elec : Z) (u : A)
    (units : list A) :
  units_on (x :: es) elec (u :: units)
  = if (x =? elec)%Z then u :: units_on es elec units
    else units_on es elec units.
Proof. reflexivity. Qed.

Lemma filter_absent (x : Z) (l : list Z) :
  ~ In x l -> List.filter (fun y => negb (y =? x)%Z) l = l.
Proof.
  induction l as [|y l IH]; intros Hn; [reflexivity|].
  cbn [List.filter]. destruct (Z.eqb_spec y x) as [->|Hne].
  - exfalso. apply Hn. now left.
  - cbn [negb]. f_equal. apply IH. intros Hin. apply Hn. now right.
Qed.

(** The groups of a list of distinct keys share out what one key and the
    other keys hold. *)
Lemma groups_split {B : Type} (h : Z -> list B) (x : Z) (U : list Z) :
  List.NoDup U -> (~ In x U -> h x = []) ->
  Permutation (h x ++ flat_map h (List.filter (fun y => negb (y =? x)%Z) U))
              (flat_map h U).
Proof.
  intros Hnd. induction Hnd as [|u U Hu Hnd IH]; intros Hx.
  - cbn. rewrite Hx by (intros []). reflexivity.
  - cbn [List.filter flat_map]. destruct (Z.eqb_spec u x) as [->|Hne].
    + cbn [negb]. now rewrite (filter_absent x U Hu).
    + cbn [negb flat_map]. rewrite Permutation_app_swap_app.
      apply Permutation_app_head. apply IH.
      intros Hn. apply Hx. intros [->|Hin]; [congruence|contradiction].
Qed.

Lemma flat_map_ext_In {A B : Type} (f g : A -> list B) (l : list A) :
  (forall x, In x l -> f x = g x) -> flat_map f l = flat_map g l.
Proof.
  induction l as [|x l IH]; intros H; [reflexivity|].
  cbn [flat_map]. rewrite (H x) by now left.
  rewrite IH; [reflexivity|]. intros y Hy. apply H. now right.
Qed.

(** Every unit belongs to exactly one electrode of the set. *)
Lemma electrode_groups_perm {A : Type} (electrodes : list Z)
    (units : list A) :
  List.length units = List.length electrodes ->
  Permutation
    (flat_map (fun elec => units_on electrodes elec units)
       (keep_first electrodes))
    units.
Proof.
  revert units. induction electrodes as [|x es IH]; intros [|u units] Hlen;
    try discriminate; [reflexivity|].
  injection Hlen as Hlen. cbn [keep_first flat_map].
  rewrite units_on_cons, Z.eqb_refl. cbn [app]. constructor.
  rewrite (flat_map_ext_In _ (fun elec => units_on es elec units)).
  - pose proof (groups_split (fun elec => units_on es elec units) x
                  (keep_first es) (keep_first_NoDup es)) as Hg.
    cbv beta in Hg. rewrite Hg; [now apply IH|].
    intros Hn. apply units_on_absent. intros Hin. apply Hn.
    now apply keep_first_In.
  - intros elec Hin. apply filter_In in Hin as [_ Hne].
    rewrite units_on_cons. apply negb_true_iff in Hne.
    rewrite Z.eqb_sym in Hne. now rewrite Hne.
Qed.

Lemma Forall2_map_self {A B : Type} (P : A -> B -> Prop) (F : A -> B)
    (l : list A) :
  (forall x, In x l -> P x (F x)) -> Forall2 P l (map F l).
Proof.
  induction l as [|x l IH]; intros H; [constructor|].
  cbn [map]. constructor; [apply H; now left|].
  apply IH. intros y Hy. apply H. now right.
Qed.

Lemma concat_map_perm {A B : Type} (f g : A -> list B) (l : list A) :
  (forall x, In x l -> Permutation (f x) (g x)) ->
  Permutation (concat (map f l)) (flat_map g l).
Proof.
  induction l as [|x l IH]; intros H; [reflexivity|].
  cbn [map concat flat_map]. apply Permutation_app.
  - apply H. now left.
  - apply IH. intros y Hy. apply H. now right.
Qed.

Lemma concat_flat_map {A B : Type} (h : A -> list (list B)) (l : list A) :
  flat_map (fun x => concat (h x)) l = concat (flat_map h l).
Proof.
  induction l as [|x l IH]; [reflexivity|].
  cbn [flat_map]. now rewrite concat_app, IH.
Qed.

Lemma Permutation_concat_lists {B : Type} (l1 l2 : list (list B)) :
  Permutation l1 l2 -> Permutation (concat l1) (concat l2).
Proof.
  induction 1 as [|x l1 l2 H IH|x y l|l1 l2 l3 H1 IH1 H2 IH2];
    cbn [concat]; [reflexivity| | |].
  - now apply Permutation_app_head.
  - rewrite !app_assoc. apply Permutation_app_tail, Permutation_app_comm.
  - now rewrite IH1.
Qed.

Lemma pool_series_ok (sort : bool) (electrodes : list Z) (elec : Z)
    (series : list (list Q)) :
  List.length series = List.length electrodes -> In elec electrodes ->
  (do units <~ index_mask series (on_electrode electrodes elec);
   do ts <~ concatenate_trains units;
   Ok (if sort then sort_Q ts else ts))
  = Ok (if sort then sort_Q (concat (units_on electrodes elec series))
        else concat (units_on electrodes elec series)).
Proof.
  intros Hlen Hin. unfold index_mask, on_electrode.
  rewrite length_map, <- Hlen, Nat.eqb_refl. cbn [rbind Ok Raise].
  pose proof (units_on_present electrodes elec series Hlen Hin) as Hne.
  unfold units_on, on_electrode in *.
  destruct (mask_cells series _) as [|u units]; [congruence|].
  reflexivity.
Qed.

(** X23.  Pooling timestamps with the default set of electrodes and the
    units along the last axis: the result has one column per distinct
    electrode, in the order in which the electrodes first appear; each
    pooled train is in ascending order and holds exactly the timestamps of
    the units of its electrode; and in every data series the pooled trains
    together hold exactly the timestamps of all units, so that no spike is
    lost or counted twice. *)
Theorem pool_spike_times_conserves_spikes (f_contiguous : bool)
    (data_sua : matrix (list Q)) (electrodes : list Z) (axis : Z) :
  wf_matrix data_sua ->
  List.length electrodes = snd (m_shape data_sua) ->
  (axis = -1 \/ axis = 1)%Z ->
  exists data_mua : matrix (list Q),
    pool_electrode_units_spike_times f_contiguous data_sua electrodes axis
      None false true = Ok (data_mua, None)
    /\ m_shape data_mua
       = (fst (m_shape data_sua), List.length (keep_first electrodes))
    /\ Forall2
         (fun series pooled =>
            Forall2
              (fun elec train =>
                 StronglySorted Qle train
                 /\ Permutation train
                      (concat (units_on electrodes elec series)))
              (keep_first electrodes) pooled
            /\ Permutation (concat pooled) (concat series))
         (m_rows data_sua) (m_rows data_mua).
Proof.
  intros Hwf Hel Hax.
  set (g := fun (elec : Z) (series : list (list Q)) =>
              sort_Q (concat (units_on electrodes elec series))).
  exists (mk_matrix (fst (m_shape data_sua), List.length (keep_first electrodes))
            (map (fun s => map (fun e => g e s) (keep_first electrodes))
                 (m_rows data_sua))).
  destruct Hwf as [Hrows Hcols].
  split; [|split].
  - unfold pool_electrode_units_spike_times.
    rewrite unsorted_unique_keep_first.
    destruct (proj1 (reshape_unreshape_2d f_contiguous data_sua axis
                       (conj Hrows Hcols)) ltac:(lia)) as [m' [Hr [Hm' _]]].
    rewrite Hr. cbn [rbind Ok Raise fst snd].
    assert (Em : m' = data_sua)
      by (rewrite Hm'; destruct Hax as [-> | ->]; reflexivity).
    rewrite Em. clear Hr Hm' Em m'.
    rewrite (map_result_all_ok _
               (fun elec => map (g elec) (m_rows data_sua))).
    + cbn [rbind Ok Raise]. rewrite <- Hrows, transpose_rows_table.
      destruct Hax as [-> | ->]; reflexivity.
    + intros elec He. apply (proj1 (keep_first_In _ _)) in He.
      apply map_result_all_ok. intros series Hs.
      rewrite List.Forall_forall in Hcols.
      apply (pool_series_ok true); [|exact He].
      rewrite (Hcols series Hs). now symmetry.
  - reflexivity.
  - cbn [m_rows]. apply Forall2_map_self. intros series Hs.
    rewrite List.Forall_forall in Hcols.
    assert (Hlen : List.length series = List.length electrodes)
      by (rewrite (Hcols series Hs); now symmetry).
    split.
    + apply Forall2_map_self. intros elec _. unfold g.
      split; [apply sort_Q_sorted|apply sort_Q_perm].
    + rewrite (concat_map_perm _
                 (fun e => concat (units_on electrodes e series)))
        by (intros e _; apply sort_Q_perm).
      rewrite concat_flat_map. apply Permutation_concat_lists.
      now apply electrode_groups_perm.
Qed.

Lemma pool_spike_times_conserves_spikes_witness :
  wf_matrix (mk_matrix (1%nat, 3%nat) [[[3; 5]; [1]; [2; 4]]])
  /\ exists data_mua : matrix (list Q),
       pool_electrode_units_spike_times false
         (mk_matrix (1%nat, 3%nat) [[[3; 5]; [1]; [2; 4]]]) [7; 4; 7]%Z (-1)
         None false true = Ok (data_mua, None)
       /\ m_shape data_mua = (1%nat, 2%nat)
       /\ m_rows data_mua = [[[2; 3; 4; 5]; [1]]].
Proof.
  assert (H : wf_matrix (mk_matrix (1%nat, 3%nat) [[[3; 5]; [1]; [2; 4]]]))
    by (split; [reflexivity|repeat constructor]).
  split; [exact H|].
  destruct (pool_spike_times_conserves_spikes false
              (mk_matrix (1%nat, 3%nat) [[[3; 5]; [1]; [2; 4]]]) [7; 4; 7]%Z
              (-1) H eq_refl ltac:(now left)) as [mua [Hp [Hs _]]].
  exists mua. split; [exact Hp|]. split; [exact Hs|].
  vm_compute in Hp. injection Hp as <-. reflexivity.
Defined.

Lemma map_result_raises {A B : Type} (f : A -> result B) (e0 : exn)
    (l : list A) :
  (forall x, In x l -> is_ok (f x) = true \/ f x = Raise e0) ->
  (exists x, In x l /\ f x = Raise e0) ->
  map_result f l = Raise e0.
Proof.
  induction l as [|x l IH]; intros Hall [y [Hy Hf]]; [destruct Hy|].
  cbn [map_result].
  destruct (Hall x ltac:(now left)) as [Hok|Hr].
  - destruct (f x) as [e|v] eqn:Ex; [discriminate|]. cbn [rbind Ok Raise].
    rewrite IH; [reflexivity| |].
    + intros z Hz. apply Hall. now right.
    + destruct Hy as [->|Hy]; [unfold Raise in Hf; congruence|].
      now exists y.
  - now rewrite Hr.
Qed.

Lemma first_index_before (x : Z) (data : list Z) (j : nat) :
  (j < first_index x data)%nat -> nth j data 0%Z <> x.
Proof.
  revert j. induction data as [|y data IH]; intros j Hj; [cbn in Hj; lia|].
  cbn [first_index] in Hj. destruct (Z.eqb_spec x y) as [->|Hne]; [lia|].
  destruct j as [|j]; [cbn; congruence|]. cbn [nth]. apply IH. lia.
Qed.

Lemma first_unit_spec (electrodes : list Z) (elec : Z) :
  In elec electrodes ->
  exists i, first_unit electrodes elec = Ok i
            /\ first_occurrence electrodes elec i.
Proof.
  intros Hin. unfold first_unit.
  assert (He : existsb (fun e => (e =? elec)%Z) electrodes = true).
  { apply existsb_exists. exists elec. split; [exact Hin|apply Z.eqb_refl]. }
  rewrite He. eexists. split; [reflexivity|].
  destruct (first_index_spec elec electrodes Hin) as [H1 H2].
  unfold first_occurrence. rewrite Nat2Z.id.
  split; [lia|]. split; [exact H2|].
  intros j Hj. apply first_index_before. lia.
Qed.

Lemma first_units_spec (electrodes : list Z) (s : list Z) :
  Forall (fun e => In e electrodes) s ->
  exists idxs, map_result (first_unit electrodes) s = Ok idxs
               /\ Forall2 (first_occurrence electrodes) s idxs.
Proof.
  induction 1 as [|e s He Hall [idxs [Hm Hf]]].
  - exists []. split; [reflexivity|constructor].
  - destruct (first_unit_spec electrodes e He) as [i [Hi Ho]].
    exists (i :: idxs). cbn [map_result]. rewrite Hi. cbn [rbind Ok].
    rewrite Hm. split; [reflexivity|now constructor].
Qed.

(** X24.  Pooling timestamps for an explicit set of electrodes (units along
    the last axis, at least one data series): when the set names an
    electrode that none of the units is on, the function raises the
    ValueError of [np.concatenate] on an empty list; when every electrode of
    the set has a unit, it returns, and the indexes asked for with
    [return_idxs] are those at which each electrode first appears in
    [electrodes]. *)
Theorem pool_spike_times_explicit_electrodes (f_contiguous : bool)
    (data_sua : matrix (list Q)) (electrodes : list Z) (axis : Z)
    (elec_set : list Z) (sort : bool) :
  wf_matrix data_sua ->
  List.length electrodes = snd (m_shape data_sua) ->
  (axis = -1 \/ axis = 1)%Z ->
  m_rows data_sua <> [] ->
  (~ Forall (fun e => In e electrodes) elec_set ->
   forall return_idxs,
     pool_electrode_units_spike_times f_contiguous data_sua electrodes axis
       (Some elec_set) return_idxs sort = Raise err_no_unit)
  /\ (Forall (fun e => In e electrodes) elec_set ->
      exists (data_mua : matrix (list Q)) (elec_idxs : list Z),
        pool_electrode_units_spike_times f_contiguous data_sua electrodes axis
          (Some elec_set) true sort = Ok (data_mua, Some elec_idxs)
        /\ m_shape data_mua = (fst (m_shape data_sua), List.length elec_set)
        /\ Forall2 (first_occurrence electrodes) elec_set elec_idxs).
Proof.
  intros Hwf Hel Hax Hne.
  destruct (proj1 (reshape_unreshape_2d f_contiguous data_sua axis Hwf)
              ltac:(lia)) as [m' [Hr [Hm' _]]].
  assert (Em : m' = data_sua)
    by (rewrite Hm'; destruct Hax as [-> | ->]; reflexivity).
  rewrite Em in Hr. clear Hm' Em m'.
  destruct Hwf as [Hrows Hcols]. rewrite List.Forall_forall in Hcols.
  assert (Hlen : forall series, In series (m_rows data_sua) ->
                   List.length series = List.length electrodes)
    by (intros series Hs; rewrite (Hcols series Hs); now symmetry).
  set (g := fun (elec : Z) (series : list (list Q)) =>
              if sort then sort_Q (concat (units_on electrodes elec series))
              else concat (units_on electrodes elec series)).
  assert (Hpresent : forall elec, In elec electrodes ->
            map_result
              (fun series =>
                 do units <~ index_mask series (on_electrode electrodes elec);
                 do ts <~ concatenate_trains units;
                 Ok (if sort then sort_Q ts else ts)) (m_rows data_sua)
            = Ok (map (g elec) (m_rows data_sua))).
  { intros elec He. apply map_result_all_ok. intros series Hs.
    apply pool_series_ok; [now apply Hlen|exact He]. }
  split.
  - intros Hmiss return_idxs. unfold pool_electrode_units_spike_times.
    rewrite Hr. cbn [rbind Ok Raise fst snd].
    rewrite (map_result_raises _ err_no_unit); [reflexivity| |].
    + intros elec _. destruct (in_dec Z.eq_dec elec electrodes) as [He|He].
      * left. now rewrite Hpresent.
      * right. destruct (m_rows data_sua) as [|series rows] eqn:Erows;
          [congruence|].
        cbn [map_result]. unfold index_mask, on_electrode.
        rewrite length_map, <- (Hlen series) by (now left).
        rewrite Nat.eqb_refl. cbn [rbind Ok Raise].
        pose proof (units_on_absent electrodes elec series He) as Hnone.
        unfold units_on, on_electrode in Hnone. rewrite Hnone. reflexivity.
    + apply neg_Forall_Exists_neg in Hmiss;
        [|intros e; apply (in_dec Z.eq_dec)].
      apply List.Exists_exists in Hmiss as [elec [Hin He]].
      exists elec. split; [exact Hin|].
      destruct (m_rows data_sua) as [|series rows] eqn:Erows; [congruence|].
      cbn [map_result]. unfold index_mask, on_electrode.
      rewrite length_map, <- (Hlen series) by (now left).
      rewrite Nat.eqb_refl. cbn [rbind Ok Raise].
      pose proof (units_on_absent electrodes elec series He) as Hnone.
      unfold units_on, on_electrode in Hnone. rewrite Hnone. reflexivity.
  - intros Hall. destruct (first_units_spec electrodes elec_set Hall)
      as [idxs [Hidx Hocc]].
    exists (mk_matrix (fst (m_shape data_sua), List.length elec_set)
              (map (fun s => map (fun e => g e s) elec_set)
                   (m_rows data_sua))), idxs.
    split; [|split; [reflexivity|exact Hocc]].
    unfold pool_electrode_units_spike_times.
    rewrite Hr. cbn [rbind Ok Raise fst snd].
    rewrite (map_result_all_ok _
               (fun elec => map (g elec) (m_rows data_sua))).
    + cbn [rbind Ok Raise]. rewrite <- Hrows, transpose_rows_table.
      destruct Hax as [-> | ->]; cbn [_unreshape_data Z.eqb Pos.eqb negb];
        [|change (np_moveaxis2 ?m (-1) 1) with (Ok m)];
        cbn [rbind Ok Raise]; rewrite Hidx; reflexivity.
    + intros elec He. rewrite List.Forall_forall in Hall.
      apply Hpresent. now apply Hall.
Qed.

Lemma pool_spike_times_explicit_electrodes_witness :
  wf_matrix (mk_matrix (1%nat, 3%nat) [[[3; 5]; [1]; [2; 4]]])
  /\ ~ Forall (fun e => In e [7; 4; 7]%Z) [7; 9]%Z
  /\ pool_electrode_units_spike_times false
       (mk_matrix (1%nat, 3%nat) [[[3; 5]; [1]; [2; 4]]]) [7; 4; 7]%Z (-1)
       (Some [7; 9]%Z) false true = Raise err_no_unit.
Proof.
  assert (H : wf_matrix (mk_matrix (1%nat, 3%nat) [[[3; 5]; [1]; [2; 4]]]))
    by (split; [reflexivity|repeat constructor]).
  assert (Hm : ~ Forall (fun e => In e [7; 4; 7]%Z) [7; 9]%Z).
  { intros HF. inversion HF as [|? ? _ HF']; subst.
    inversion HF' as [|? ? H9 _]; subst. cbn in H9.
    destruct H9 as [H9|[H9|[H9|[]]]]; discriminate H9. }
  split; [exact H|]. split; [exact Hm|].
  apply (proj1 (pool_spike_times_explicit_electrodes false
                  (mk_matrix (1%nat, 3%nat) [[[3; 5]; [1]; [2; 4]]])
                  [7; 4; 7]%Z (-1) [7; 9]%Z true H eq_refl
                  ltac:(now left) ltac:(discriminate)) Hm).
Defined.

(** ** Pooling boolean trains and rates *)

Lemma nth_seq_self {A : Type} (d : A) (r : list A) :
  map (fun t => nth t r d) (seq 0 (List.length r)) = r.
Proof.
  induction r as [|x r IH]; [reflexivity|].
  cbn [List.length seq map nth]. f_equal.
  rewrite <- seq_shift, map_map. exact IH.
Qed.

Lemma transpose_rows_samples {A : Type} (d : A) (n : nat)
    (rows : list (list A)) :
  Forall (fun r => List.length r = n) rows ->
  transpose_rows n rows = map (fun t => at_sample d t rows) (seq 0 n).
Proof.
  induction 1 as [|r rows Hr Hall IH]; cbn [transpose_rows].
  - unfold at_sample. cbn [map].
    now rewrite <- (repeat_map_const (@nil A) (seq 0 n)), length_seq.
  - rewrite IH. rewrite <- (nth_seq_self d r) at 1. rewrite Hr.
    rewrite cons_column_map. reflexivity.
Qed.

Lemma mask_cells_In {A : Type} (cells : list A) (mask : list bool) (x : A) :
  In x (mask_cells cells mask) -> In x cells.
Proof.
  revert mask. induction cells as [|y cells IH]; intros [|b mask] H;
    cbn [mask_cells] in H; try contradiction.
  destruct b; [destruct H as [<-|H]|]; [now left|right; eauto|right; eauto].
Qed.

(** Units along axis 0: every electrode of the set gets, sample by sample,
    the reduction over the units that are on it. *)
Lemma pool_units_axis0 {A : Type} (reduce : list A -> A) (d : A)
    (data_sua : matrix A) (electrodes : list Z) (axis : Z)
    (elec_set : list Z) :
  wf_matrix data_sua ->
  List.length electrodes = fst (m_shape data_sua) ->
  (axis = 0 \/ axis = -2)%Z ->
  pool_units_along_axis reduce data_sua electrodes axis (Some elec_set) false
  = Ok (mk_matrix (List.length elec_set, snd (m_shape data_sua))
          (map (fun elec =>
                  map (fun t =>
                         reduce (at_sample d t
                                   (units_on electrodes elec (m_rows data_sua))))
                      (seq 0 (snd (m_shape data_sua))))
               elec_set),
        None).
Proof.
  intros [Hrows Hcols] Hel Hax. unfold pool_units_along_axis.
  assert (Hx : (if ((-2 <=? axis) && (axis <? 2))%Z then Ok (axis mod 2)%Z
                else Raise (IndexError "list assignment index out of range"))
               = Ok 0%Z)
    by (destruct Hax as [-> | ->]; reflexivity).
  rewrite Hx. cbn [rbind Ok Raise Z.eqb].
  rewrite (map_result_all_ok _
             (fun elec =>
                map (fun t =>
                       reduce (at_sample d t
                                 (units_on electrodes elec (m_rows data_sua))))
                    (seq 0 (snd (m_shape data_sua))))).
  - reflexivity.
  - intros elec _. unfold on_electrode at 1.
    rewrite length_map, Hel, Nat.eqb_refl.
    rewrite (transpose_rows_samples d).
    + now rewrite map_map.
    + apply List.Forall_forall. intros r Hr.
      rewrite List.Forall_forall in Hcols. apply Hcols.
      eapply mask_cells_In, Hr.
Qed.

(** Units along the last axis: the reduced array keeps a unit axis of
    length one and does not fit the target, unless there is one row only. *)
Lemma pool_units_last_axis_raises {A : Type} (reduce : list A -> A)
    (data_sua : matrix A) (electrodes : list Z) (axis : Z)
    (elec_set : option (list Z)) (return_idxs : bool) :
  (axis = -1 \/ axis = 1)%Z ->
  fst (m_shape data_sua) <> 1%nat ->
  electrodes <> [] -> elec_set <> Some [] ->
  is_ok (pool_units_along_axis reduce data_sua electrodes axis elec_set
           return_idxs) = false
  /\ (List.length electrodes = snd (m_shape data_sua) ->
      exists msg,
        pool_units_along_axis reduce data_sua electrodes axis elec_set
          return_idxs = Raise (ValueError msg)).
Proof.
  intros Hax Hrows Hel Hset. unfold pool_units_along_axis.
  set (s := match elec_set with
            | None => _unsorted_unique electrodes
            | Some s => s
            end).
  assert (Hs : s <> []).
  { subst s. destruct elec_set as [s|]; [congruence|].
    rewrite unsorted_unique_keep_first.
    destruct electrodes; [congruence|discriminate]. }
  assert (Hx : (if ((-2 <=? axis) && (axis <? 2))%Z then Ok (axis mod 2)%Z
                else Raise (IndexError "list assignment index out of range"))
               = Ok 1%Z)
    by (destruct Hax as [-> | ->]; reflexivity).
  rewrite Hx. cbn [rbind Ok Raise Z.eqb].
  destruct s as [|elec s']; [congruence|]. cbn [map_result].
  apply Nat.eqb_neq in Hrows. rewrite Hrows.
  split.
  - destruct (_ =? snd (m_shape data_sua))%nat; reflexivity.
  - intros Hlen. unfold on_electrode. rewrite length_map, Hlen, Nat.eqb_refl.
    eexists. reflexivity.
Qed.

Lemma existsb_id_map {A : Type} (f : A -> bool) (l : list A) :
  existsb (fun x : bool => x) (map f l) = existsb f l.
Proof. induction l as [|x l IH]; [reflexivity|]. cbn. now rewrite IH. Qed.

(** X25.  [pool_electrode_units_spike_bool] with the units along axis 0 of a
    [(n_units, n_timepts)] array: the pooled train of an electrode is True
    at a sample exactly when one of the units on that electrode is (logical
    OR); an electrode of the set without any unit gets a train of False. *)
Theorem pool_spike_bool_is_logical_or (data_sua : matrix bool)
    (electrodes : list Z) (axis : Z) (elec_set : list Z) :
  wf_matrix data_sua ->
  List.length electrodes = fst (m_shape data_sua) ->
  (axis = 0 \/ axis = -2)%Z ->
  pool_electrode_units_spike_bool data_sua electrodes axis (Some elec_set)
    false
  = Ok (mk_matrix (List.length elec_set, snd (m_shape data_sua))
          (map (fun elec =>
                  map (fun t =>
                         existsb (fun unit => nth t unit false)
                           (units_on electrodes elec (m_rows data_sua)))
                      (seq 0 (snd (m_shape data_sua))))
               elec_set),
        None).
Proof.
  intros Hwf Hel Hax. unfold pool_electrode_units_spike_bool.
  rewrite (pool_units_axis0 _ false) by assumption.
  do 3 f_equal. apply map_ext. intros elec. apply map_ext. intros t.
  apply existsb_id_map.
Qed.

Lemma pool_spike_bool_is_logical_or_witness :
  wf_matrix (mk_matrix (3%nat, 2%nat)
               [[true; false]; [false; false]; [false; true]])
  /\ pool_electrode_units_spike_bool
       (mk_matrix (3%nat, 2%nat) [[true; false]; [false; false]; [false; true]])
       [7; 4; 7]%Z 0 (Some [7; 4]%Z) false
     = Ok (mk_matrix (2%nat, 2%nat) [[true; true]; [false; false]], None).
Proof.
  assert (H : wf_matrix (mk_matrix (3%nat, 2%nat)
                           [[true; false]; [false; false]; [false; true]]))
    by (split; [reflexivity|repeat constructor]).
  split; [exact H|].
  exact (pool_spike_bool_is_logical_or
           (mk_matrix (3%nat, 2%nat)
              [[true; false]; [false; false]; [false; true]])
           [7; 4; 7]%Z 0 [7; 4]%Z H eq_refl ltac:(now left)).
Defined.

(** X26.  [pool_electrode_units_spike_rate] with the units along axis 0: the
    pooled rate of an electrode is, sample by sample, the sum of the rates
    of the units on that electrode (0 for an electrode without units). *)
Theorem pool_spike_rate_is_sum (data_sua : matrix Q)
    (electrodes : list Z) (axis : Z) (elec_set : list Z) :
  wf_matrix data_sua ->
  List.length electrodes = fst (m_shape data_sua) ->
  (axis = 0 \/ axis = -2)%Z ->
  pool_electrode_units_spike_rate data_sua electrodes axis (Some elec_set)
    false
  = Ok (mk_matrix (List.length elec_set, snd (m_shape data_sua))
          (map (fun elec =>
                  map (fun t =>
                         Qsum (at_sample 0 t
                                 (units_on electrodes elec (m_rows data_sua))))
                      (seq 0 (snd (m_shape data_sua))))
               elec_set),
        None).
Proof.
  intros Hwf Hel Hax. unfold pool_electrode_units_spike_rate.
  now apply pool_units_axis0.
Qed.

Lemma pool_spike_rate_is_sum_witness :
  wf_matrix (mk_matrix (3%nat, 2%nat) [[1; 2]; [3; 4]; [5; 6]])
  /\ pool_electrode_units_spike_rate
       (mk_matrix (3%nat, 2%nat) [[1; 2]; [3; 4]; [5; 6]])
       [7; 4; 7]%Z 0 (Some [7; 4]%Z) false
     = Ok (mk_matrix (2%nat, 2%nat)
             [[1 + (5 + 0); 2 + (6 + 0)]; [3 + 0; 4 + 0]], None).
Proof.
  assert (H : wf_matrix (mk_matrix (3%nat, 2%nat) [[1; 2]; [3; 4]; [5; 6]]))
    by (split; [reflexivity|repeat constructor]).
  split; [exact H|].
  exact (pool_spike_rate_is_sum
           (mk_matrix (3%nat, 2%nat) [[1; 2]; [3; 4]; [5; 6]])
           [7; 4; 7]%Z 0 [7; 4]%Z H eq_refl ltac:(now left)).
Defined.

(** X27.  With the units along the last axis (the default [axis=-1]) of a
    two-dimensional array that has more than one row, pooling boolean
    trains or rates raises for every non-empty set of electrodes: the
    reduction is taken with [keepdims=True], and its result of shape
    [(n_rows, 1)] cannot be stored in the column [data_mua[:, i_elec]] of
    shape [(n_rows,)]. *)
Theorem pool_bool_and_rate_last_axis_raise (electrodes : list Z) (axis : Z)
    (elec_set : option (list Z)) (return_idxs : bool) :
  (axis = -1 \/ axis = 1)%Z ->
  electrodes <> [] -> elec_set <> Some [] ->
  (forall data_sua : matrix bool,
     (2 <= fst (m_shape data_sua))%nat ->
     List.length electrodes = snd (m_shape data_sua) ->
     exists msg,
       pool_electrode_units_spike_bool data_sua electrodes axis elec_set
         return_idxs = Raise (ValueError msg))
  /\ (forall data_sua : matrix Q,
        (2 <= fst (m_shape data_sua))%nat ->
        List.length electrodes = snd (m_shape data_sua) ->
        exists msg,
          pool_electrode_units_spike_rate data_sua electrodes axis elec_set
            return_idxs = Raise (ValueError msg)).
Proof.
  intros Hax Hel Hset. split; intros data_sua Hrows Hlen.
  - apply (pool_units_last_axis_raises (existsb (fun x : bool => x)) data_sua
             electrodes axis elec_set return_idxs Hax ltac:(lia) Hel Hset).
    exact Hlen.
  - apply (pool_units_last_axis_raises Qsum data_sua electrodes axis elec_set
             return_idxs Hax ltac:(lia) Hel Hset).
    exact Hlen.
Qed.

Lemma pool_bool_and_rate_last_axis_raise_witness :
  [7; 4; 7]%Z <> []
  /\ exists msg,
       pool_electrode_units_spike_bool
         (mk_matrix (2%nat, 3%nat)
            [[true; false; false]; [false; false; true]])
         [7; 4; 7]%Z (-1) None false = Raise (ValueError msg).
Proof.
  split; [discriminate|].
  apply (proj1 (pool_bool_and_rate_last_axis_raise [7; 4; 7]%Z (-1) None false
                  ltac:(now left) ltac:(discriminate) ltac:(discriminate))).
  - cbn. lia.
  - reflexivity.
Defined.

(** ** Cutting with a reference time, and cutting boolean data in general *)

Lemma map_result_refs (refs : list Q) (train : list Q) (rows : windows)
    (k : nat) :
  (k + List.length rows <= List.length refs)%nat ->
  map_result
    (fun it : nat * (Q * Q) =>
       match nth_error refs (fst it) with
       | Some r =>
           Ok (map (fun x => x - r)
                 (List.filter (in_bin (fst (snd it)) (snd (snd it))) train))
       | None => Raise (IndexError "index is out of bounds")
       end)
    (combine (seq k (List.length rows)) rows)
  = Ok (shift_trains
          (map (fun r : Q * Q => List.filter (in_bin (fst r) (snd r)) train)
               rows)
          (skipn k refs)).
Proof.
  revert k. induction rows as [|row rows IH]; intros k Hlen; [reflexivity|].
  cbn [List.length seq combine map_result fst snd] in *.
  destruct (nth_error refs k) as [r|] eqn:Er;
    [|apply nth_error_None in Er; lia].
  cbn [rbind Ok Raise]. rewrite IH by lia. cbn [rbind Ok Raise map].
  pose proof (nth_error_split refs k Er) as [l1 [l2 [Hrefs Hl1]]].
  assert (Hs : skipn k refs = r :: skipn (S k) refs).
  { rewrite Hrefs, <- Hl1.
    rewrite skipn_app, skipn_all, Nat.sub_diag. cbn [app skipn].
    replace (S (List.length l1)) with (List.length (l1 ++ [r]))
      by (rewrite length_app; cbn; lia).
    change (l1 ++ r :: l2) with (l1 ++ [r] ++ l2).
    rewrite app_assoc, skipn_app, skipn_all, Nat.sub_diag. reflexivity. }
  rewrite Hs. reflexivity.
Qed.



(** X29.  [cut_trials_spike_bool] for any data and sampling rate: a range
    error is raised exactly when some rounded sample index lies outside the
    data; and at least two trials whose rounded limits lie inside the data
    and span the same number of samples are cut out as they stand, each
    holding the samples [start .. end], both ends included. *)
Theorem cut_trials_spike_bool_in_general {A : Type} (data : list A)
    (rows : windows) (r : Q) :
  (rows <> [] ->
   (exists e, cut_trials_spike_bool data (windows_array rows) (Some r) = Raise e
              /\ range_error e)
   <-> ~ Forall (idx_in_range (List.length data)) (trial_sample_idxs r rows))
  /\ (forall L : Z,
        (2 <= List.length rows)%nat ->
        Forall (idx_in_range (List.length data)) (trial_sample_idxs r rows) ->
        Forall (fun w : Z * Z => (snd w - fst w)%Z = L)
          (trial_sample_idxs r rows) ->
        (-1 <= L)%Z ->
        cut_trials_spike_bool data (windows_array rows) (Some r)
        = Ok (mk_cut [Z.to_nat (L + 1); List.length rows]
                (map (fun w : Z * Z => py_slice data (fst w) (snd w + 1)%Z)
                     (trial_sample_idxs r rows)))).
Proof.
  split.
  - apply cut_trials_spike_bool_range_error.
  - intros L. apply cut_trials_spike_bool_uniform.
Qed.

Lemma cut_trials_spike_bool_in_general_witness :
  le 2 (List.length [(0, 4 # 10); (5 # 10, 9 # 10)])
  /\ Forall (idx_in_range (List.length [1; 2; 3; 4; 5; 6; 7; 8; 9; 10]%Z))
       (trial_sample_idxs 10 [(0, 4 # 10); (5 # 10, 9 # 10)])
  /\ cut_trials_spike_bool [1; 2; 3; 4; 5; 6; 7; 8; 9; 10]%Z
       (windows_array [(0, 4 # 10); (5 # 10, 9 # 10)]) (Some 10)
     = Ok (mk_cut [5%nat; 2%nat] [[1; 2; 3; 4; 5]; [6; 7; 8; 9; 10]]%Z).
Proof.
  assert (H1 : le 2 (List.length [(0, 4 # 10); (5 # 10, 9 # 10)]))
    by (cbn; lia).
  assert (H2 : Forall
                 (idx_in_range (List.length [1; 2; 3; 4; 5; 6; 7; 8; 9; 10]%Z))
                 (trial_sample_idxs 10 [(0, 4 # 10); (5 # 10, 9 # 10)])).
  { repeat constructor; vm_compute; congruence. }
  split; [exact H1|]. split; [exact H2|].
  refine (eq_trans
            (proj2 (cut_trials_spike_bool_in_general
                      [1; 2; 3; 4; 5; 6; 7; 8; 9; 10]%Z
                      [(0, 4 # 10); (5 # 10, 9 # 10)] 10) 4%Z H1 H2 _ _) _).
  - repeat constructor.
  - lia.
  - reflexivity.
Defined.
